(** * Wire DSL VS Code extension: preview coordination and export

    A shallow embedding of the stateful parts of the extension:

    - [ExportManager] (src/services/exportManager.ts): the per-format
      export of a parsed document to files;
    - [WirePreviewPanel] (src/webviewPanelProvider.ts): the preview
      panel, its debounce timer, its render pass, its export entry, and
      its life from [openPreview] to [dispose];
    - [ParseService] (src/services/parseService.ts) and the command
      [wire.exportAs] (src/extension.ts);
    - [WireWebviewProvider] (src/webviewProvider.ts): the preview in the
      side bar.

    JavaScript strings are modelled as [string]s over the code units
    0..255 (the Latin-1 range).  The external engine (@wire-dsl/core),
    the file system and the user's dialog answers are parameters. *)

From Stdlib Require Import String Ascii List NArith Bool Arith Lia.
Import ListNotations.
Open Scope string_scope.

Set Implicit Arguments.

(* ===================================================================== *)
(** * Strings *)
(* ===================================================================== *)

Module Str.

Definition code (c : ascii) : N := N_of_ascii c.

Definition between (lo hi : N) (c : ascii) : bool :=
  (lo <=? code c)%N && (code c <=? hi)%N.

(** The double quote, written by its code. *)
Definition dquote : ascii := "034"%char.

(** The backslash, written by its code. *)
Definition backslash : ascii := "092"%char.

Fixpoint map (f : ascii -> ascii) (s : string) : string :=
  match s with
  | EmptyString => EmptyString
  | String c r => String (f c) (map f r)
  end.

Fixpoint filter (f : ascii -> bool) (s : string) : string :=
  match s with
  | EmptyString => EmptyString
  | String c r => if f c then String c (filter f r) else filter f r
  end.

Fixpoint forallb (f : ascii -> bool) (s : string) : bool :=
  match s with
  | EmptyString => true
  | String c r => f c && forallb f r
  end.

Fixpoint rev_append (s acc : string) : string :=
  match s with
  | EmptyString => acc
  | String c r => rev_append r (String c acc)
  end.

Definition rev (s : string) : string := rev_append s EmptyString.

(** [String.prototype.includes]: does [p] occur in [s]? *)
Fixpoint includes (p s : string) : bool :=
  prefix p s ||
  match s with
  | EmptyString => false
  | String _ r => includes p r
  end.

(** [String.prototype.endsWith]. *)
Definition endsWith (s suffix : string) : bool :=
  prefix (rev suffix) (rev s).

(** Drop the last [n] characters. *)
Definition dropEnd (n : nat) (s : string) : string :=
  substring 0 (String.length s - n) s.

(** [s.replace(/c/g, r)] for a single character [c]. *)
Fixpoint replaceChar (c : ascii) (r : string) (s : string) : string :=
  match s with
  | EmptyString => EmptyString
  | String d t =>
      if Ascii.eqb d c then r ++ replaceChar c r t
      else String d (replaceChar c r t)
  end.

(** JavaScript truthiness of a string. *)
Definition truthy (s : string) : bool :=
  match s with EmptyString => false | _ => true end.

(** [a || b] on strings. *)
Definition orElse (a b : string) : string := if truthy a then a else b.

(** [String.prototype.toLowerCase] on the code units 0..255: A-Z and the
    Latin-1 capitals (all of 192..222 but the multiplication sign 215)
    move up by 32. *)
Definition toLowerCaseChar (c : ascii) : ascii :=
  if between 65 90 c || (between 192 222 c && negb (code c =? 215)%N)
  then ascii_of_N (code c + 32)
  else c.

Definition toLowerCase (s : string) : string := map toLowerCaseChar s.

(** The class [\s] on the code units 0..255: tab, line feed, vertical
    tab, form feed, carriage return, space, no-break space. *)
Definition isSpace (c : ascii) : bool :=
  between 9 13 c || (code c =? 32)%N || (code c =? 160)%N.

(** [s.replace(/\s+/g, '-')]: every maximal run of white space becomes
    one hyphen.  [inRun] tells that the previous character belonged to a
    run that was already replaced. *)
Fixpoint replaceSpaceRunsFrom (inRun : bool) (s : string) : string :=
  match s with
  | EmptyString => EmptyString
  | String c r =>
      if isSpace c then
        if inRun then replaceSpaceRunsFrom true r
        else String "-" (replaceSpaceRunsFrom true r)
      else String c (replaceSpaceRunsFrom false r)
  end.

Definition replaceSpaceRuns (s : string) : string :=
  replaceSpaceRunsFrom false s.

(** The class [[a-z0-9-]]. *)
Definition isSlugChar (c : ascii) : bool :=
  between 97 122 c || between 48 57 c || (code c =? 45)%N.

(** [s.replace(/[^a-z0-9-]/g, '')]. *)
Definition removeNonSlug (s : string) : string := filter isSlugChar s.

Fixpoint drop (n : nat) (s : string) : string :=
  match n, s with
  | O, _ => s
  | S m, EmptyString => EmptyString
  | S m, String _ r => drop m r
  end.

(** Split at the first [>]: what precedes it and what follows it. *)
Fixpoint splitAtGt (s : string) : option (string * string) :=
  match s with
  | EmptyString => None
  | String c r =>
      if Ascii.eqb c ">" then Some (EmptyString, r)
      else match splitAtGt r with
           | Some (a, b) => Some (String c a, b)
           | None => None
           end
  end.

(** One attempt of [/<svg([^>]*?)>/] at the start of [s]: the text the
    group captures and the text after the match. *)
Definition matchSvgTagHere (s : string) : option (string * string) :=
  if prefix "<svg" s then splitAtGt (drop 4 s) else None.

(** The attributes [ width="1300" height="700"]. *)
Definition dimensionAttributes : string :=
  " width=" ++ String dquote "1300" ++ String dquote " height="
  ++ String dquote "700" ++ String dquote EmptyString.

(** [s.replace(/<svg([^>]*?)>/, '<svg$1 width="1300" height="700">')]:
    the leftmost match is rewritten, a string without a match is
    returned as it is. *)
Fixpoint injectDimensions (s : string) : string :=
  match matchSvgTagHere s with
  | Some (attrs, rest) => "<svg" ++ attrs ++ dimensionAttributes ++ ">" ++ rest
  | None =>
      match s with
      | EmptyString => EmptyString
      | String c r => String c (injectDimensions r)
      end
  end.

(** [text.replace(/&/g, ...).replace(/</g, ...)...] of [escapeHtml]. *)
Definition escapeHtml (text : string) : string :=
  replaceChar "'" "&#039;"
    (replaceChar dquote "&quot;"
       (replaceChar ">" "&gt;"
          (replaceChar "<" "&lt;"
             (replaceChar "&" "&amp;" text)))).

(** [s.split(/[\\/]/).pop()]: what follows the last slash or
    backslash. *)
Fixpoint lastSegmentFrom (cur : string) (s : string) : string :=
  match s with
  | EmptyString => rev cur
  | String c r =>
      if Ascii.eqb c "/" || Ascii.eqb c backslash then lastSegmentFrom EmptyString r
      else lastSegmentFrom (String c cur) r
  end.

Definition lastSegment (s : string) : string := lastSegmentFrom EmptyString s.

End Str.

(* ===================================================================== *)
(** * Paths *)
(* ===================================================================== *)

(** The three functions of Node's [path] module that the export code
    calls. *)
Class PathLib := {
  dirname : string -> string;
  basename : string -> string -> string;
  join : string -> string -> string
}.

(** The POSIX flavour of Node's [path], on slash-separated paths. *)
Module Posix.

Definition isSlash (c : ascii) : bool := Ascii.eqb c "/".

Fixpoint dropSlashes (s : string) : string :=
  match s with
  | EmptyString => EmptyString
  | String c r => if isSlash c then dropSlashes r else s
  end.

(** Characters up to the first slash, and what follows from that slash
    on. *)
Fixpoint spanName (s : string) : string * string :=
  match s with
  | EmptyString => (EmptyString, EmptyString)
  | String c r =>
      if isSlash c then (EmptyString, s)
      else let (a, b) := spanName r in (String c a, b)
  end.

(** [path.dirname]: the scan runs from the end and never looks at the
    first character. *)
Definition dirname (p : string) : string :=
  match p with
  | EmptyString => "."
  | String c0 rest =>
      let hasRoot := isSlash c0 in
      match snd (spanName (dropSlashes (Str.rev rest))) with
      | EmptyString => if hasRoot then "/" else "."
      | String _ before =>
          match before with
          | EmptyString => if hasRoot then "//" else String c0 EmptyString
          | _ => String c0 (Str.rev before)
          end
      end
  end.

(** The last component of a path, trailing slashes ignored. *)
Definition lastComponent (p : string) : string :=
  Str.rev (fst (spanName (dropSlashes (Str.rev p)))).

(** The slashes a string starts with. *)
Fixpoint takeSlashes (s : string) : string :=
  match s with
  | EmptyString => EmptyString
  | String c r => if isSlash c then String c (takeSlashes r) else EmptyString
  end.

(** The slashes a path ends with. *)
Definition trailingSlashes (p : string) : string := takeSlashes (Str.rev p).

(** [path.basename(p, ext)].  With an extension that is not longer than
    the path, the scan from the end matches the extension against the
    last component: a component that ends with the extension, and is not
    the extension, loses it; a component that the scan leaves before the
    extension is matched whole (a proper tail of the extension) is
    answered with the slashes that follow it. *)
Definition basename (p ext : string) : string :=
  if String.eqb ext p then
    match ext with EmptyString => lastComponent p | _ => EmptyString end
  else
    let comp := lastComponent p in
    if Str.truthy ext && (String.length ext <=? String.length p)%nat then
      if Str.endsWith comp ext then
        if String.eqb comp ext then comp
        else Str.dropEnd (String.length ext) comp
      else if Str.endsWith ext comp then comp ++ trailingSlashes p
      else comp
    else comp.

(** Split at slashes. *)
Fixpoint splitFrom (cur : string) (s : string) : list string :=
  match s with
  | EmptyString => [Str.rev cur]
  | String c r =>
      if isSlash c then Str.rev cur :: splitFrom EmptyString r
      else splitFrom (String c cur) r
  end.

Definition split (s : string) : list string := splitFrom EmptyString s.

(** [normalizeString]: the stack of kept segments, most recent first. *)
Fixpoint normalizeSegments (allowAbove : bool) (stack : list string)
    (segs : list string) : list string :=
  match segs with
  | [] => stack
  | seg :: more =>
      if String.eqb seg EmptyString || String.eqb seg "." then
        normalizeSegments allowAbove stack more
      else if String.eqb seg ".." then
        match stack with
        | top :: below =>
            if String.eqb top ".."
            then normalizeSegments allowAbove (seg :: stack) more
            else normalizeSegments allowAbove below more
        | [] =>
            if allowAbove
            then normalizeSegments allowAbove [seg] more
            else normalizeSegments allowAbove [] more
        end
      else normalizeSegments allowAbove (seg :: stack) more
  end.

(** [path.normalize]. *)
Definition normalize (p : string) : string :=
  match p with
  | EmptyString => "."
  | String c0 _ =>
      let isAbsolute := isSlash c0 in
      let trailing := Str.endsWith p "/" in
      let body :=
        String.concat "/"
          (List.rev (normalizeSegments (negb isAbsolute) [] (split p))) in
      match body with
      | EmptyString =>
          if isAbsolute then "/" else if trailing then "./" else "."
      | _ =>
          let body' := if trailing then body ++ "/" else body in
          if isAbsolute then "/" ++ body' else body'
      end
  end.

(** [path.join(a, b)]. *)
Definition join (a b : string) : string :=
  match a, b with
  | EmptyString, EmptyString => "."
  | EmptyString, _ => normalize b
  | _, EmptyString => normalize a
  | _, _ => normalize (a ++ "/" ++ b)
  end.

#[export] Instance lib : PathLib := Build_PathLib dirname basename join.

End Posix.

(* ===================================================================== *)
(** * Data *)
(* ===================================================================== *)

(** A thrown [Error]: [inl] carries its message. *)
Definition result (A : Type) : Type := (string + A)%type.

Inductive Theme := light | dark.

(** Engine values the extension never looks into. *)
Inductive AST := AstHandle (id : N).
Inductive Layout := LayoutHandle (id : N).

Module Viewport.
Record t := { width : N; height : N }.
End Viewport.

Module Screen.
Record t := { name : string; viewport : option Viewport.t }.
End Screen.

Module Project.
(** [screens] may be missing; [others] stands for the remaining
    properties, which the extension copies along. *)
Record t := { screens : option (list Screen.t); others : list (string * string) }.
End Project.

Module IR.
Record t := { project : Project.t; others : list (string * string) }.
End IR.

Module RenderOptions.
Record t := {
  width : N;
  height : N;
  theme : Theme;
  includeLabels : bool;
  screenName : string
}.
End RenderOptions.

(** One element of the array handed to [exportMultipagePDF]. *)
Module Page.
Record t := { svg : string; width : N; height : N; name : string }.
End Page.

(** What a call of one of the engine's three file exporters writes. *)
Inductive Artifact :=
| SvgFile (path : string) (svg : string)
| PngFile (path : string) (svg : string) (width height : N)
| PdfFile (path : string) (pages : list Page.t).

Definition artifactPath (a : Artifact) : string :=
  match a with
  | SvgFile p _ => p
  | PngFile p _ _ _ => p
  | PdfFile p _ => p
  end.

(** The identifiers ['svg'], ['pdf'] and ['png']. *)
Inductive FormatId := SVG | PDF | PNG.

Module ExportFormat.
Record t := { id : FormatId; label : string; ext : string }.
End ExportFormat.

Inductive Notice :=
| InformationMessage (text : string)
| ErrorMessage (text : string).

(** The part of the host that exporting touches: the files written, in
    the order of the writes; the messages shown; the setting
    [wire.export.lastDirectory]; [process.env.PDFKIT_DATA_PATH]. *)
Record World := {
  files : list Artifact;
  notices : list Notice;
  lastDirectory : option string;
  pdfkitDataPath : option string
}.

Definition emptyWorld : World :=
  {| files := []; notices := []; lastDirectory := None; pdfkitDataPath := None |}.

(* ===================================================================== *)
(** * Effects: state and exceptions *)
(* ===================================================================== *)

(** A computation on a state [S] that returns or throws.  The state
    survives a throw: what was done before it stays done. *)
Definition Eff (S A : Type) : Type := S -> result A * S.

Definition ret {S A} (a : A) : Eff S A := fun w => (inr a, w).

Definition throw {S A} (msg : string) : Eff S A := fun w => (inl msg, w).

Definition bind {S A B} (c : Eff S A) (k : A -> Eff S B) : Eff S B :=
  fun w =>
    match c w with
    | (inl e, w') => (inl e, w')
    | (inr a, w') => k a w'
    end.

Definition tryCatch {S A} (c : Eff S A) (handler : string -> Eff S A) : Eff S A :=
  fun w =>
    match c w with
    | (inl e, w') => handler e w'
    | (inr a, w') => (inr a, w')
    end.

Definition lift {S A} (r : result A) : Eff S A := fun w => (r, w).

Definition modify {S} (f : S -> S) : Eff S unit := fun w => (inr tt, f w).

Definition gets {S A} (f : S -> A) : Eff S A := fun w => (inr (f w), w).

Declare Scope eff_scope.
Delimit Scope eff_scope with eff.
Notation "x <- c ;; k" := (bind c (fun x => k))
  (at level 61, c at next level, right associativity) : eff_scope.
Notation "c ;; k" := (bind c (fun _ => k))
  (at level 61, right associativity) : eff_scope.

(** [for (const x of xs) { await body(x) }] *)
Fixpoint forEach {S A} (xs : list A) (body : A -> Eff S unit) : Eff S unit :=
  match xs with
  | [] => ret tt
  | x :: more => bind (body x) (fun _ => forEach more body)
  end.

(** [xs.map(f)] where [f] may throw. *)
Fixpoint mapM {S A B} (f : A -> Eff S B) (xs : list A) : Eff S (list B) :=
  match xs with
  | [] => ret []
  | x :: more =>
      bind (f x) (fun y => bind (mapM f more) (fun ys => ret (y :: ys)))
  end.

(** Exporting acts on the [World]. *)
Definition M (A : Type) : Type := Eff World A.

Definition default {A} (d : A) (o : option A) : A :=
  match o with Some a => a | None => d end.

(* ===================================================================== *)
(** * The engine and the host *)
(* ===================================================================== *)

(** The module [@wire-dsl/core].  The four pipeline functions are read
    by destructuring and may be missing; [SVGRenderer] stands for
    [new SVGRenderer(ir, layout, options).render()].  [renderToSVG]
    returns [None] for a value that is not a string. *)
Record Core := {
  parseWireDSL : option (string -> result AST);
  generateIR : option (AST -> result IR.t);
  calculateLayout : option (IR.t -> result Layout);
  renderToSVG :
    option (IR.t -> Layout -> RenderOptions.t -> result (option string));
  SVGRenderer : IR.t -> Layout -> RenderOptions.t -> result string
}.

(** What the process around the extension answers. *)
Record Host := {
  (** [require('@wire-dsl/core')] *)
  requireCore : result Core;
  (** why the engine's exporter fails to write this artifact, if it does *)
  writeError : Artifact -> option string;
  (** [require.resolve('pdfkit/js/data/Helvetica.afm')] *)
  resolvePdfkitAfm : result string;
  (** the setting [wire.preview.defaultTheme]; [None] for ['default'] or
      no value *)
  defaultThemeSetting : option Theme;
  (** is [vscode.window.activeColorTheme.kind] the light kind? *)
  activeColorThemeIsLight : bool
}.

(** The user's answers in the export dialog: the quick pick and the save
    dialog, [None] for a cancellation. *)
Record User := {
  showQuickPick : list ExportFormat.t -> option ExportFormat.t;
  showSaveDialog : string -> ExportFormat.t -> option string
}.

(* ===================================================================== *)
(** * ExportManager *)
(* ===================================================================== *)

Module ExportManager.
Section WithHost.

Context {pathLib : PathLib}.
Variable host : Host.
Variable user : User.

Local Open Scope eff_scope.

Definition getAvailableFormats : list ExportFormat.t :=
  [ {| ExportFormat.id := SVG; ExportFormat.label := "SVG (Vector)";
       ExportFormat.ext := ".svg" |};
    {| ExportFormat.id := PDF; ExportFormat.label := "PDF (Document)";
       ExportFormat.ext := ".pdf" |};
    {| ExportFormat.id := PNG; ExportFormat.label := "PNG (Image)";
       ExportFormat.ext := ".png" |} ].

Definition sanitizeScreenName (name : string) : string :=
  Str.removeNonSlug (Str.replaceSpaceRuns (Str.toLowerCase name)).

(** The engine's exporter writes one file, or throws. *)
Definition write (a : Artifact) : M unit :=
  fun w =>
    match writeError host a with
    | Some e => (inl e, w)
    | None =>
        (inr tt,
         {| files := files w ++ [a]; notices := notices w;
            lastDirectory := lastDirectory w;
            pdfkitDataPath := pdfkitDataPath w |})
    end.

Definition defaultViewport : Viewport.t :=
  {| Viewport.width := 1280; Viewport.height := 720 |}.

(** [ir.project.screens || []] *)
Definition screensOf (ir : IR.t) : list Screen.t :=
  default [] (Project.screens (IR.project ir)).

(** [screens[0]?.viewport ?? { width: 1280, height: 720 }] *)
Definition baseViewportOf (screens : list Screen.t) : Viewport.t :=
  match screens with
  | first :: _ => default defaultViewport (Screen.viewport first)
  | [] => defaultViewport
  end.

(** [screen.viewport ?? baseViewport] *)
Definition viewportOf (baseViewport : Viewport.t) (screen : Screen.t) : Viewport.t :=
  default baseViewport (Screen.viewport screen).

Definition optionsFor (viewport : Viewport.t) (theme : Theme) (screen : Screen.t) :
    RenderOptions.t :=
  {| RenderOptions.width := Viewport.width viewport;
     RenderOptions.height := Viewport.height viewport;
     RenderOptions.theme := theme;
     RenderOptions.includeLabels := true;
     RenderOptions.screenName := Screen.name screen |}.

Definition exportSVG (ir : IR.t) (layout : Layout) (theme : Theme)
    (filePath : string) : M unit :=
  tryCatch
    (core <- lift (requireCore host) ;;
     let screens := screensOf ir in
     if (List.length screens =? 0)%nat then throw "No screens found in project"
     else
       let baseViewport := baseViewportOf screens in
       match screens with
       | [screen] =>
           let viewport := viewportOf baseViewport screen in
           svg <- lift (SVGRenderer core ir layout (optionsFor viewport theme screen)) ;;
           write (SvgFile filePath svg)
       | _ =>
           let dirPath := dirname filePath in
           let baseName := basename filePath ".svg" in
           forEach screens (fun screen =>
             let viewport := viewportOf baseViewport screen in
             svg <- lift (SVGRenderer core ir layout (optionsFor viewport theme screen)) ;;
             let sanitizedName := sanitizeScreenName (Screen.name screen) in
             let screenFilePath :=
               join dirPath (baseName ++ "-" ++ sanitizedName ++ ".svg") in
             write (SvgFile screenFilePath svg))
       end)
    (fun e => throw ("SVG export failed: " ++ e)).

(** [.replace(/Helvetica\.afm$/, '')] *)
Definition stripAfm (p : string) : string :=
  if Str.endsWith p "Helvetica.afm"
  then Str.dropEnd (String.length "Helvetica.afm") p
  else p.

Definition setPdfkitDataPath (p : string) : M unit :=
  modify (fun w =>
    {| files := files w; notices := notices w;
       lastDirectory := lastDirectory w; pdfkitDataPath := Some p |}).

Definition exportPDF (ir : IR.t) (layout : Layout) (theme : Theme)
    (filePath : string) : M unit :=
  tryCatch
    (core <- lift (requireCore host) ;;
     let screens := screensOf ir in
     if (List.length screens =? 0)%nat then throw "No screens found in project"
     else
       let baseViewport := baseViewportOf screens in
       svgs <- mapM (fun screen =>
                 let viewport := viewportOf baseViewport screen in
                 svg <- lift (SVGRenderer core ir layout
                                (optionsFor viewport theme screen)) ;;
                 ret {| Page.svg := svg;
                        Page.width := Viewport.width viewport;
                        Page.height := Viewport.height viewport;
                        Page.name := Screen.name screen |}) screens ;;
       afm <- lift (resolvePdfkitAfm host) ;;
       setPdfkitDataPath (stripAfm afm) ;;
       write (PdfFile filePath svgs))
    (fun e => throw ("PDF export failed: " ++ e)).

Definition exportPNG (ir : IR.t) (layout : Layout) (theme : Theme)
    (filePath : string) : M unit :=
  tryCatch
    (core <- lift (requireCore host) ;;
     let screens := screensOf ir in
     if (List.length screens =? 0)%nat then throw "No screens found in project"
     else
       let baseViewport := baseViewportOf screens in
       match screens with
       | [screen] =>
           let viewport := viewportOf baseViewport screen in
           svg <- lift (SVGRenderer core ir layout (optionsFor viewport theme screen)) ;;
           write (PngFile filePath svg (Viewport.width viewport) (Viewport.height viewport))
       | _ =>
           let dirPath := dirname filePath in
           let baseName := basename filePath ".png" in
           forEach screens (fun screen =>
             let viewport := viewportOf baseViewport screen in
             svg <- lift (SVGRenderer core ir layout (optionsFor viewport theme screen)) ;;
             let sanitizedName := sanitizeScreenName (Screen.name screen) in
             let screenFilePath :=
               join dirPath (baseName ++ "-" ++ sanitizedName ++ ".png") in
             write (PngFile screenFilePath svg
                      (Viewport.width viewport) (Viewport.height viewport)))
       end)
    (fun e => throw ("PNG export failed: " ++ e)).

Definition exportToFormat (format : ExportFormat.t) (ir : IR.t) (layout : Layout)
    (theme : Theme) (filePath : string) : M unit :=
  match ExportFormat.id format with
  | SVG => exportSVG ir layout theme filePath
  | PDF => exportPDF ir layout theme filePath
  | PNG => exportPNG ir layout theme filePath
  end.

Definition notify (n : Notice) : M unit :=
  modify (fun w =>
    {| files := files w; notices := notices w ++ [n];
       lastDirectory := lastDirectory w; pdfkitDataPath := pdfkitDataPath w |}).

Definition rememberDirectory (d : string) : M unit :=
  modify (fun w =>
    {| files := files w; notices := notices w;
       lastDirectory := Some d; pdfkitDataPath := pdfkitDataPath w |}).

(** [currentFileName.replace(/\.wire$/, '')] *)
Definition stripWire (fileName : string) : string :=
  if Str.endsWith fileName ".wire"
  then Str.dropEnd (String.length ".wire") fileName
  else fileName.

(** The information message is modelled without its leading check mark. *)
Definition showExportDialog (currentFileName : string) (ir : IR.t)
    (layout : Layout) (theme : Theme) : M unit :=
  lastDir <- gets lastDirectory ;;
  let baseName := stripWire currentFileName in
  let selection :=
    match getAvailableFormats with
    | [only] => Some only
    | formats => showQuickPick user formats
    end in
  match selection with
  | None => ret tt
  | Some selectedFormat =>
      let defaultFilePath := baseName ++ ExportFormat.ext selectedFormat in
      let defaultUri :=
        match lastDir with
        | Some d => if Str.truthy d then join d defaultFilePath else defaultFilePath
        | None => defaultFilePath
        end in
      match showSaveDialog user defaultUri selectedFormat with
      | None => ret tt
      | Some filePath =>
          tryCatch
            (exportToFormat selectedFormat ir layout theme filePath ;;
             rememberDirectory (dirname filePath) ;;
             notify (InformationMessage
                       ("Exported to " ++ basename filePath EmptyString)))
            (fun e => notify (ErrorMessage ("Export failed: " ++ e)))
      end
  end.

End WithHost.
End ExportManager.

(* ===================================================================== *)
(** * WirePreviewPanel *)
(* ===================================================================== *)

Module Document.
(** [id] stands for the identity of the document object. *)
Record t := { id : N; languageId : string; fileName : string; text : string }.
End Document.

(** [panel.webview.html]: which of the four page templates is shown,
    with the values it interpolates. *)
Inductive Html :=
| NoPage
| LoadingPage
| WaitingPage (message : string)
| ErrorPage (escapedMessage : string)
| PreviewPage (svg : string) (screens : list string) (selectedScreen : string)
    (initialTheme : Theme).

(** Instrumentation: entries to [updatePreview] and calls into the
    engine, oldest first. *)
Inductive Call :=
| UpdatePreviewCall (content : string)
| ParseCall (content : string)
| GenerateIRCall (ast : AST)
| LayoutCall (ir : IR.t)
| RenderCall (ir : IR.t) (layout : Layout) (options : RenderOptions.t).

(** A pending [setTimeout]: its handle, the time it is due and the
    [content] its callback closes over. *)
Record Timer := { timerId : nat; due : N; timerContent : string }.

(** The fields of the panel object ([coreModule] is the static cache). *)
Record Panel := {
  coreModule : option Core;
  debounceTimer : option nat;
  currentTheme : Theme;
  lastContent : string;
  availableScreens : list string;
  selectedScreen : string;
  lastIR : option IR.t;
  lastLayout : option Layout;
  currentFilePath : string;
  html : Html
}.

(** The panel in its surroundings: the editor that is active, the clock
    in milliseconds, the timers that are pending (oldest first), the
    instrumentation and the world that exporting acts on. *)
Record Session := {
  panel : Panel;
  activeTextEditor : option Document.t;
  clock : N;
  timers : list Timer;
  nextTimerId : nat;
  trace : list Call;
  world : World
}.

Definition set_coreModule (v : option Core) (p : Panel) : Panel :=
  {| coreModule := v;
     debounceTimer := debounceTimer p;
     currentTheme := currentTheme p;
     lastContent := lastContent p;
     availableScreens := availableScreens p;
     selectedScreen := selectedScreen p;
     lastIR := lastIR p;
     lastLayout := lastLayout p;
     currentFilePath := currentFilePath p;
     html := html p |}.

Definition set_debounceTimer (v : option nat) (p : Panel) : Panel :=
  {| coreModule := coreModule p;
     debounceTimer := v;
     currentTheme := currentTheme p;
     lastContent := lastContent p;
     availableScreens := availableScreens p;
     selectedScreen := selectedScreen p;
     lastIR := lastIR p;
     lastLayout := lastLayout p;
     currentFilePath := currentFilePath p;
     html := html p |}.

Definition set_currentTheme (v : Theme) (p : Panel) : Panel :=
  {| coreModule := coreModule p;
     debounceTimer := debounceTimer p;
     currentTheme := v;
     lastContent := lastContent p;
     availableScreens := availableScreens p;
     selectedScreen := selectedScreen p;
     lastIR := lastIR p;
     lastLayout := lastLayout p;
     currentFilePath := currentFilePath p;
     html := html p |}.

Definition set_lastContent (v : string) (p : Panel) : Panel :=
  {| coreModule := coreModule p;
     debounceTimer := debounceTimer p;
     currentTheme := currentTheme p;
     lastContent := v;
     availableScreens := availableScreens p;
     selectedScreen := selectedScreen p;
     lastIR := lastIR p;
     lastLayout := lastLayout p;
     currentFilePath := currentFilePath p;
     html := html p |}.

Definition set_availableScreens (v : list string) (p : Panel) : Panel :=
  {| coreModule := coreModule p;
     debounceTimer := debounceTimer p;
     currentTheme := currentTheme p;
     lastContent := lastContent p;
     availableScreens := v;
     selectedScreen := selectedScreen p;
     lastIR := lastIR p;
     lastLayout := lastLayout p;
     currentFilePath := currentFilePath p;
     html := html p |}.

Definition set_selectedScreen (v : string) (p : Panel) : Panel :=
  {| coreModule := coreModule p;
     debounceTimer := debounceTimer p;
     currentTheme := currentTheme p;
     lastContent := lastContent p;
     availableScreens := availableScreens p;
     selectedScreen := v;
     lastIR := lastIR p;
     lastLayout := lastLayout p;
     currentFilePath := currentFilePath p;
     html := html p |}.

Definition set_lastIR (v : option IR.t) (p : Panel) : Panel :=
  {| coreModule := coreModule p;
     debounceTimer := debounceTimer p;
     currentTheme := currentTheme p;
     lastContent := lastContent p;
     availableScreens := availableScreens p;
     selectedScreen := selectedScreen p;
     lastIR := v;
     lastLayout := lastLayout p;
     currentFilePath := currentFilePath p;
     html := html p |}.

Definition set_lastLayout (v : option Layout) (p : Panel) : Panel :=
  {| coreModule := coreModule p;
     debounceTimer := debounceTimer p;
     currentTheme := currentTheme p;
     lastContent := lastContent p;
     availableScreens := availableScreens p;
     selectedScreen := selectedScreen p;
     lastIR := lastIR p;
     lastLayout := v;
     currentFilePath := currentFilePath p;
     html := html p |}.

Definition set_currentFilePath (v : string) (p : Panel) : Panel :=
  {| coreModule := coreModule p;
     debounceTimer := debounceTimer p;
     currentTheme := currentTheme p;
     lastContent := lastContent p;
     availableScreens := availableScreens p;
     selectedScreen := selectedScreen p;
     lastIR := lastIR p;
     lastLayout := lastLayout p;
     currentFilePath := v;
     html := html p |}.

Definition set_html (v : Html) (p : Panel) : Panel :=
  {| coreModule := coreModule p;
     debounceTimer := debounceTimer p;
     currentTheme := currentTheme p;
     lastContent := lastContent p;
     availableScreens := availableScreens p;
     selectedScreen := selectedScreen p;
     lastIR := lastIR p;
     lastLayout := lastLayout p;
     currentFilePath := currentFilePath p;
     html := v |}.

Definition set_panel (v : Panel) (s : Session) : Session :=
  {| panel := v;
     activeTextEditor := activeTextEditor s;
     clock := clock s;
     timers := timers s;
     nextTimerId := nextTimerId s;
     trace := trace s;
     world := world s |}.

Definition set_activeTextEditor (v : option Document.t) (s : Session) : Session :=
  {| panel := panel s;
     activeTextEditor := v;
     clock := clock s;
     timers := timers s;
     nextTimerId := nextTimerId s;
     trace := trace s;
     world := world s |}.

Definition set_clock (v : N) (s : Session) : Session :=
  {| panel := panel s;
     activeTextEditor := activeTextEditor s;
     clock := v;
     timers := timers s;
     nextTimerId := nextTimerId s;
     trace := trace s;
     world := world s |}.

Definition set_timers (v : list Timer) (s : Session) : Session :=
  {| panel := panel s;
     activeTextEditor := activeTextEditor s;
     clock := clock s;
     timers := v;
     nextTimerId := nextTimerId s;
     trace := trace s;
     world := world s |}.

Definition set_nextTimerId (v : nat) (s : Session) : Session :=
  {| panel := panel s;
     activeTextEditor := activeTextEditor s;
     clock := clock s;
     timers := timers s;
     nextTimerId := v;
     trace := trace s;
     world := world s |}.

Definition set_trace (v : list Call) (s : Session) : Session :=
  {| panel := panel s;
     activeTextEditor := activeTextEditor s;
     clock := clock s;
     timers := timers s;
     nextTimerId := nextTimerId s;
     trace := v;
     world := world s |}.

Definition set_world (v : World) (s : Session) : Session :=
  {| panel := panel s;
     activeTextEditor := activeTextEditor s;
     clock := clock s;
     timers := timers s;
     nextTimerId := nextTimerId s;
     trace := trace s;
     world := v |}.

Inductive Message :=
| SetTheme (theme : Theme)
| SelectScreen (screen : string)
| ExportMessage
| OtherMessage.

Inductive Event :=
| DidReceiveMessage (message : Message)
| DidChangeActiveTextEditor (editor : option Document.t)
| DidChangeTextDocument (document : Document.t).

Module WirePreviewPanel.
Section WithHost.

Context {pathLib : PathLib}.
Variable host : Host.
Variable user : User.

Local Open Scope eff_scope.

Definition updatePanel (f : Panel -> Panel) : Eff Session unit :=
  modify (fun s => set_panel (f (panel s)) s).

Definition getPanel {A} (f : Panel -> A) : Eff Session A :=
  gets (fun s => f (panel s)).

Definition record (c : Call) : Eff Session unit :=
  modify (fun s => set_trace (trace s ++ [c]) s).

(** A call into the engine: it is recorded, then it returns or throws. *)
Definition call {A} (c : Call) (r : result A) : Eff Session A :=
  record c ;; lift r.

Definition showLoading : Eff Session unit :=
  updatePanel (set_html LoadingPage).

Definition showError (message : string) : Eff Session unit :=
  updatePanel (set_html (ErrorPage (Str.escapeHtml message))).

Definition showWaitingMessage (message : string) : Eff Session unit :=
  updatePanel (set_html (WaitingPage message)).

Definition getTheme : Theme :=
  if activeColorThemeIsLight host then light else dark.

Definition createHtmlWithSvg (svg : string) (screens : list string)
    (selectedScreen : string) : Eff Session Html :=
  theme <- getPanel currentTheme ;;
  ret (PreviewPage svg screens selectedScreen theme).

Definition isWire (d : Document.t) : bool :=
  String.eqb (Document.languageId d) "wire".

(** [ir.project.screens.map((s) => s.name || 'Unknown')], or [[]] when
    there is no array of screens. *)
Definition screenNames (ir : IR.t) : list string :=
  match Project.screens (IR.project ir) with
  | Some screens => List.map (fun s => Str.orElse (Screen.name s) "Unknown") screens
  | None => []
  end.

Definition previewOptions (theme : Theme) (selected : string) : RenderOptions.t :=
  {| RenderOptions.width := 1300;
     RenderOptions.height := 700;
     RenderOptions.theme := theme;
     RenderOptions.includeLabels := true;
     RenderOptions.screenName := selected |}.

(** The test [svg.includes('width=')] and [svg.includes('height=')]. *)
Definition declaresDimensions (svg : string) : bool :=
  Str.includes "width=" svg && Str.includes "height=" svg.

(** "Asegurar que el SVG tenga width y height explicitos". *)
Definition ensureDimensions (svg : string) : string :=
  if negb (Str.includes "width=" svg) || negb (Str.includes "height=" svg)
  then Str.injectDimensions svg
  else svg.

(** The block "Load core module once and cache it" of [updatePreview]:
    the module, or [None] after the failure to load it was shown. *)
Definition loadCoreModule : Eff Session (option Core) :=
  cached <- getPanel coreModule ;;
  match cached with
  | Some core => ret (Some core)
  | None =>
      match requireCore host with
      | inr core => updatePanel (set_coreModule (Some core)) ;; ret (Some core)
      | inl e =>
          showError ("Failed to load @wire-dsl/core: " ++ e) ;; ret None
      end
  end.

(** The block "Parse, IR, Layout, SVG" of [updatePreview], from the
    destructuring of the module on. *)
Definition renderPipeline (core : Core) (content : string) : Eff Session unit :=
  match parseWireDSL core, generateIR core,
        calculateLayout core, renderToSVG core with
  | Some parseWireDSL, Some generateIR,
    Some calculateLayout, Some renderToSVG =>
      ast <- call (ParseCall content) (parseWireDSL content) ;;
      ir <- call (GenerateIRCall ast) (generateIR ast) ;;
      updatePanel (set_lastIR (Some ir)) ;;
      let screens := screenNames ir in
      updatePanel (set_availableScreens screens) ;;
      selected <- getPanel selectedScreen ;;
      (if negb (Str.truthy selected) && (0 <? List.length screens)%nat
       then updatePanel (set_selectedScreen (List.hd EmptyString screens))
       else ret tt) ;;
      layout <- call (LayoutCall ir) (calculateLayout ir) ;;
      updatePanel (set_lastLayout (Some layout)) ;;
      theme <- getPanel currentTheme ;;
      selected <- getPanel selectedScreen ;;
      let options := previewOptions theme selected in
      out <- call (RenderCall ir layout options)
                  (renderToSVG ir layout options) ;;
      match out with
      | Some svg =>
          if Str.truthy svg then
            page <- createHtmlWithSvg (ensureDimensions svg) screens selected ;;
            updatePanel (set_html page)
          else showError "SVG renderer returned invalid output"
      | None => showError "SVG renderer returned invalid output"
      end
  | _, _, _, _ => showError "Core module missing required exports"
  end.

Definition updatePreview (content : string) : Eff Session unit :=
  record (UpdatePreviewCall content) ;;
  updatePanel (set_lastContent content) ;;
  activeEditor <- gets activeTextEditor ;;
  match activeEditor with
  | Some d =>
      if isWire d then updatePanel (set_currentFilePath (Document.fileName d))
      else ret tt
  | None => ret tt
  end ;;
  tryCatch
    (loaded <- loadCoreModule ;;
     match loaded with
     | None => ret tt
     | Some core => renderPipeline core content
     end)
    (fun msg => showError msg).

Definition clearTimeout (id : nat) : Eff Session unit :=
  modify (fun s =>
    set_timers (List.filter (fun t => negb (timerId t =? id)%nat) (timers s)) s).

(** [setTimeout(() => this.updatePreview(content), delay)] *)
Definition setTimeout (content : string) (delay : N) : Eff Session nat :=
  fun s =>
    let id := nextTimerId s in
    let t := {| timerId := id; due := (clock s + delay)%N; timerContent := content |} in
    (inr id, set_nextTimerId (S id) (set_timers (timers s ++ [t]) s)).

Definition updatePreviewDebounced (content : string) : Eff Session unit :=
  pending <- getPanel debounceTimer ;;
  match pending with
  | Some id => clearTimeout id
  | None => ret tt
  end ;;
  id <- setTimeout content 300 ;;
  updatePanel (set_debounceTimer (Some id)).

Definition inWorld {A} (c : M A) : Eff Session A :=
  fun s => let (r, w) := c (world s) in (r, set_world w s).

Definition showErrorMessage (text : string) : Eff Session unit :=
  inWorld (ExportManager.notify (ErrorMessage text)).

Definition filterIR (ir : IR.t) (screenToExport : Screen.t) : IR.t :=
  {| IR.project :=
       {| Project.screens := Some [screenToExport];
          Project.others := Project.others (IR.project ir) |};
     IR.others := IR.others ir |}.

Definition exportAs : Eff Session unit :=
  tryCatch
    (cachedIR <- getPanel lastIR ;;
     cachedLayout <- getPanel lastLayout ;;
     match cachedIR, cachedLayout with
     | Some ir, Some layout =>
         path <- getPanel currentFilePath ;;
         let fileName :=
           if Str.truthy path then Str.orElse (Str.lastSegment path) "export.wire"
           else "export.wire" in
         selected <- getPanel selectedScreen ;;
         match Project.screens (IR.project ir) with
         | None => throw "Cannot read properties of undefined (reading 'find')"
         | Some screens =>
             match List.find (fun s => String.eqb (Screen.name s) selected) screens with
             | None => showErrorMessage "Selected screen not found"
             | Some screenToExport =>
                 theme <- getPanel currentTheme ;;
                 inWorld (ExportManager.showExportDialog host user fileName
                            (filterIR ir screenToExport) layout theme)
             end
         end
     | _, _ => showErrorMessage "No preview content available to export"
     end)
    (fun e => showErrorMessage ("Export failed: " ++ e)).

Definition handleExportMessage : Eff Session unit := exportAs.

Definition onDidReceiveMessage (message : Message) : Eff Session unit :=
  match message with
  | SetTheme theme =>
      updatePanel (set_currentTheme theme) ;;
      content <- getPanel lastContent ;;
      if Str.truthy content then updatePreview content else ret tt
  | SelectScreen screen =>
      updatePanel (set_selectedScreen screen) ;;
      content <- getPanel lastContent ;;
      if Str.truthy content then updatePreview content else ret tt
  | ExportMessage => handleExportMessage
  | OtherMessage => ret tt
  end.

Definition onDidChangeActiveTextEditor (editor : option Document.t) :
    Eff Session unit :=
  match editor with
  | Some d => if isWire d then updatePreview (Document.text d) else ret tt
  | None => ret tt
  end.

Definition sameDocument (a b : Document.t) : bool :=
  (Document.id a =? Document.id b)%N.

Definition onDidChangeTextDocument (document : Document.t) : Eff Session unit :=
  editor <- gets activeTextEditor ;;
  match editor with
  | Some d =>
      if sameDocument d document && isWire d
      then updatePreviewDebounced (Document.text d)
      else ret tt
  | None => ret tt
  end.

(** What the host does to its own state when the event happens, before
    the listeners run: the active editor changes, or the edited document
    carries its new text. *)
Definition hostEffect (e : Event) (s : Session) : Session :=
  match e with
  | DidReceiveMessage _ => s
  | DidChangeActiveTextEditor editor => set_activeTextEditor editor s
  | DidChangeTextDocument document =>
      match activeTextEditor s with
      | Some d =>
          if sameDocument d document then set_activeTextEditor (Some document) s
          else s
      | None => s
      end
  end.

Definition listener (e : Event) : Eff Session unit :=
  match e with
  | DidReceiveMessage message => onDidReceiveMessage message
  | DidChangeActiveTextEditor editor => onDidChangeActiveTextEditor editor
  | DidChangeTextDocument document => onDidChangeTextDocument document
  end.

Definition run (c : Eff Session unit) (s : Session) : Session := snd (c s).

(** A timer fires: it is no longer pending and its callback runs. *)
Definition fire (t : Timer) : Eff Session unit :=
  modify (fun s => set_clock (N.max (clock s) (due t)) s) ;;
  clearTimeout (timerId t) ;;
  updatePreview (timerContent t).

(** Time passes until [now]: the pending timers that are due by then
    fire, oldest first. *)
Definition advance (now : N) (s : Session) : Session :=
  let dueNow := List.filter (fun t => (due t <=? now)%N) (timers s) in
  let s' := List.fold_left (fun acc t => run (fire t) acc) dueNow s in
  set_clock (N.max (clock s') now) s'.

(** An event happens at time [now]. *)
Definition step (s : Session) (timed : N * Event) : Session :=
  let (now, e) := timed in
  run (listener e) (hostEffect e (advance now s)).

Definition runEvents (events : list (N * Event)) (s : Session) : Session :=
  List.fold_left step events s.

(** The constructor: the state of a new panel.  [cachedCore] is the
    static cache as an earlier panel left it. *)
Definition newPanel (cachedCore : option Core) : Panel :=
  {| coreModule := cachedCore;
     debounceTimer := None;
     currentTheme :=
       match defaultThemeSetting host with
       | Some theme => theme
       | None => getTheme
       end;
     lastContent := EmptyString;
     availableScreens := [];
     selectedScreen := EmptyString;
     lastIR := None;
     lastLayout := None;
     currentFilePath := EmptyString;
     html := NoPage |}.

(** [openPreview] when no panel is open yet. *)
Definition openPreview (cachedCore : option Core) (editor : option Document.t)
    (now : N) (w : World) : Session :=
  let s0 :=
    {| panel := newPanel cachedCore; activeTextEditor := editor; clock := now;
       timers := []; nextTimerId := 0; trace := []; world := w |} in
  run (showLoading ;;
       match editor with
       | Some d =>
           if isWire d then updatePreview (Document.text d)
           else showWaitingMessage "Open a .wire file to preview"
       | None => showWaitingMessage "Open a .wire file to preview"
       end) s0.

End WithHost.
End WirePreviewPanel.

(* ===================================================================== *)
(** * ParseService and the export command *)
(* ===================================================================== *)

(** [ParseService] (src/services/parseService.ts).  Its state is its own
    static cache of the engine module. *)
Module ParseService.

Record ParseResult := {
  ir : IR.t;
  layout : Layout;
  availableScreens : list string
}.

Section WithHost.

Variable host : Host.

(** [Object.keys(ir.screens)], [None] when [ir.screens] is missing or
    falsy; the property is one of those the IR record leaves in
    [IR.others]. *)
Variable screenKeys : IR.t -> option (list string).

(** [calculateLayout(ir, width, height, { screen })]: the layout function
    of the module, called with four arguments. *)
Variable calculateLayoutFor : Core -> IR.t -> N -> N -> string -> result Layout.

Local Open Scope eff_scope.

Definition getCoreModule : Eff (option Core) Core :=
  cached <- gets (fun c => c) ;;
  match cached with
  | Some core => ret core
  | None =>
      core <- lift (requireCore host) ;;
      modify (fun _ => Some core) ;;
      ret core
  end.

Definition parseDocument (document : Document.t)
    (selectedScreen : option string) : Eff (option Core) ParseResult :=
  core <- getCoreModule ;;
  let content := Document.text document in
  tryCatch
    (match parseWireDSL core, generateIR core, calculateLayout core with
     | Some parseWireDSL, Some generateIR, Some _ =>
         ast <- lift (parseWireDSL content) ;;
         ir <- lift (generateIR ast) ;;
         let availableScreens := default [] (screenKeys ir) in
         let screenToRender :=
           Str.orElse (default EmptyString selectedScreen)
             (Str.orElse (List.hd EmptyString availableScreens) "MainScreen") in
         layout <- lift (calculateLayoutFor core ir 1300 700 screenToRender) ;;
         ret {| ir := ir; layout := layout;
                availableScreens := availableScreens |}
     | _, _, _ => throw "Core module is missing required functions"
     end)
    (fun e => throw ("Parse error: " ++ e)).

End WithHost.

End ParseService.

(** The command [wire.exportAs] of [activate] (src/extension.ts). *)
Module ExportCommand.

(** What the command acts on: the cache of [ParseService] and the world
    of files, messages and settings. *)
Record State := {
  parseCoreModule : option Core;
  world : World
}.

Section WithHost.

Context {pathLib : PathLib}.
Variable host : Host.
Variable user : User.
Variable screenKeys : IR.t -> option (list string).
Variable calculateLayoutFor : Core -> IR.t -> N -> N -> string -> result Layout.

(** [config.get<string>('defaultTheme')] of [wire.preview]. *)
Variable defaultTheme : option string.

Local Open Scope eff_scope.

Definition inParseService {A} (c : Eff (option Core) A) : Eff State A :=
  fun s =>
    let (r, cache) := c (parseCoreModule s) in
    (r, {| parseCoreModule := cache; world := world s |}).

Definition inWorld {A} (c : M A) : Eff State A :=
  fun s =>
    let (r, w) := c (world s) in
    (r, {| parseCoreModule := parseCoreModule s; world := w |}).

Definition showErrorMessage (text : string) : Eff State unit :=
  inWorld (ExportManager.notify (ErrorMessage text)).

(** The theme of the export, from the setting. *)
Definition exportTheme : Theme :=
  match defaultTheme with
  | Some setting =>
      if String.eqb setting "light" then light
      else if String.eqb setting "dark" then dark
      else if String.eqb setting "default" then
        (if activeColorThemeIsLight host then light else dark)
      else dark
  | None => dark
  end.

Definition exportAs (activeEditor : option Document.t) : Eff State unit :=
  match activeEditor with
  | Some editor =>
      if WirePreviewPanel.isWire editor then
        tryCatch
          (parseResult <-
             inParseService
               (ParseService.parseDocument host screenKeys calculateLayoutFor
                  editor None) ;;
           let fileName :=
             Str.orElse (Str.lastSegment (Document.fileName editor))
               "export.wire" in
           let theme := exportTheme in
           inWorld
             (ExportManager.showExportDialog host user fileName
                (ParseService.ir parseResult) (ParseService.layout parseResult)
                theme))
          (fun e => showErrorMessage ("Export failed: " ++ e))
      else showErrorMessage "No active Wire DSL file"
  | None => showErrorMessage "No active Wire DSL file"
  end.

End WithHost.

End ExportCommand.

(* ===================================================================== *)
(** * The life of the panel *)
(* ===================================================================== *)

(** [WirePreviewPanel.openPreview] and [dispose], with the static
    [currentPanel]. *)
Module Workbench.

(** The panel object with its surroundings, and whether it is
    [WirePreviewPanel.currentPanel]: the panel is open, and its listeners
    are registered. *)
Record t := { session : Session; currentPanel : bool }.

Section WithHost.

Context {pathLib : PathLib}.
Variable host : Host.
Variable user : User.

Local Open Scope eff_scope.

(** [dispose]: [currentPanel] is undefined from now on, the webview
    panel and the listeners are disposed, and the pending timer, if the
    panel holds one, is cleared. *)
Definition dispose (wb : t) : t :=
  {| session :=
       WirePreviewPanel.run
         (pending <- WirePreviewPanel.getPanel debounceTimer ;;
          match pending with
          | Some id => WirePreviewPanel.clearTimeout id
          | None => ret tt
          end)
         (session wb);
     currentPanel := false |}.

(** [openPreview]: a panel that is open is revealed; otherwise a new
    panel is made, which finds the static cache of the engine module as
    the last panel left it, shows the loading page and renders the
    active wire document. *)
Definition openPreview (wb : t) : t :=
  if currentPanel wb then wb
  else
    let s := session wb in
    {| session :=
         WirePreviewPanel.run
           (WirePreviewPanel.showLoading ;;
            match activeTextEditor s with
            | Some d =>
                if WirePreviewPanel.isWire d
                then WirePreviewPanel.updatePreview host (Document.text d)
                else WirePreviewPanel.showWaitingMessage
                       "Open a .wire file to preview"
            | None =>
                WirePreviewPanel.showWaitingMessage "Open a .wire file to preview"
            end)
           (set_panel
              (WirePreviewPanel.newPanel host (coreModule (panel s))) s);
       currentPanel := true |}.

(** An event happens at time [now]: the timers that are due fire, the
    host changes its state, and the listeners of an open panel run. *)
Definition deliver (wb : t) (timed : N * Event) : t :=
  let (now, e) := timed in
  let s :=
    WirePreviewPanel.hostEffect e
      (WirePreviewPanel.advance host now (session wb)) in
  {| session :=
       if currentPanel wb
       then WirePreviewPanel.run (WirePreviewPanel.listener host user e) s
       else s;
     currentPanel := currentPanel wb |}.

Definition deliverAll (events : list (N * Event)) (wb : t) : t :=
  List.fold_left deliver events wb.

End WithHost.

End Workbench.

(* ===================================================================== *)
(** * WireWebviewProvider *)
(* ===================================================================== *)

(** The preview in the side bar (src/webviewProvider.ts).  Its pages
    are short enough to be modelled as the text they are. *)
Module WireWebviewProvider.

(** What the workspace answers to [findFiles('**/*.wire', ..., 1)] and
    to [openTextDocument]: the files found, and the text of a file. *)
Record Workspace := {
  findFiles : result (list string);
  openTextDocument : string -> result string
}.

(** The fields of the provider; [view] tells whether [this.view] is
    defined, [html] is [this.view.webview.html], and [registered] counts
    the pairs of listeners in [disposables]. *)
Record Provider := {
  view : bool;
  debounceTimer : option nat;
  lastEditorContent : string;
  html : string;
  registered : nat
}.

(** The provider in its surroundings; [rendered] is instrumentation, the
    contents [renderPreview] was entered with, oldest first. *)
Record State := {
  provider : Provider;
  activeTextEditor : option Document.t;
  clock : N;
  timers : list Timer;
  nextTimerId : nat;
  rendered : list string
}.

Definition set_provider (v : Provider) (s : State) : State :=
  {| provider := v; activeTextEditor := activeTextEditor s; clock := clock s;
     timers := timers s; nextTimerId := nextTimerId s; rendered := rendered s |}.

Definition set_html (v : string) (p : Provider) : Provider :=
  {| view := view p; debounceTimer := debounceTimer p;
     lastEditorContent := lastEditorContent p; html := v;
     registered := registered p |}.

Definition set_timers (v : list Timer) (s : State) : State :=
  {| provider := provider s; activeTextEditor := activeTextEditor s;
     clock := clock s; timers := v; nextTimerId := nextTimerId s;
     rendered := rendered s |}.

Definition set_clock (v : N) (s : State) : State :=
  {| provider := provider s; activeTextEditor := activeTextEditor s;
     clock := v; timers := timers s; nextTimerId := nextTimerId s;
     rendered := rendered s |}.

Definition set_activeTextEditor (v : option Document.t) (s : State) : State :=
  {| provider := provider s; activeTextEditor := v; clock := clock s;
     timers := timers s; nextTimerId := nextTimerId s; rendered := rendered s |}.

(** [s] between double quotes. *)
Definition quoted (s : string) : string :=
  String Str.dquote (s ++ String Str.dquote EmptyString).

(** [<div style="...">] *)
Definition divOpen (style : string) : string :=
  "<div style=" ++ quoted style ++ ">".

Definition loadingHtml : string :=
  divOpen "padding: 20px; font-family: system-ui;"
  ++ "Loading Wire Preview...</div>".

Definition waitingHtml (message : string) : string :=
  divOpen "padding: 20px; color: var(--vscode-descriptionForeground, #999); font-family: system-ui; text-align: center;"
  ++ message ++ "</div>".

Definition createHtmlWithSvg (svg : string) : string :=
  divOpen "padding: 16px; font-family: system-ui; background: var(--vscode-editor-background, #1e1e1e); color: var(--vscode-editor-foreground, #d4d4d4); height: 100%; overflow: auto; display: flex; align-items: center; justify-content: center;"
  ++ divOpen "max-width: 100%; max-height: 100%; overflow: auto;"
  ++ svg ++ "</div>" ++ "</div>".

Definition errorHtml (message : string) : string :=
  divOpen "padding: 20px; color: #f48771; font-family: monospace; white-space: pre-wrap;"
  ++ "Error: " ++ Str.escapeHtml message ++ "</div>".

Section WithHost.

Variable host : Host.

(** [require('@wire-dsl/engine')] *)
Variable requireEngine : result Core.

Variable workspace : Workspace.

Local Open Scope eff_scope.

Definition updateProvider (f : Provider -> Provider) : Eff State unit :=
  modify (fun s => set_provider (f (provider s)) s).

Definition getProvider {A} (f : Provider -> A) : Eff State A :=
  gets (fun s => f (provider s)).

(** [if (!this.view) return; this.view.webview.html = page] *)
Definition show (page : string) : Eff State unit :=
  resolved <- getProvider view ;;
  if resolved then updateProvider (set_html page) else ret tt.

Definition showWaitingMessage (message : string) : Eff State unit :=
  show (waitingHtml message).

Definition showError (message : string) : Eff State unit :=
  show (errorHtml message).

Definition getTheme : Theme :=
  if activeColorThemeIsLight host then light else dark.

(** The options of the render call; no screen is named, for which the
    empty name stands. *)
Definition renderOptions : RenderOptions.t :=
  {| RenderOptions.width := 1200;
     RenderOptions.height := 700;
     RenderOptions.theme := getTheme;
     RenderOptions.includeLabels := true;
     RenderOptions.screenName := EmptyString |}.

Definition renderPreview (wireContent : string) : Eff State unit :=
  modify (fun s =>
    {| provider := provider s; activeTextEditor := activeTextEditor s;
       clock := clock s; timers := timers s; nextTimerId := nextTimerId s;
       rendered := rendered s ++ [wireContent] |}) ;;
  resolved <- getProvider view ;;
  if negb resolved then ret tt
  else
    tryCatch
      (match requireEngine with
       | inl e => showError ("Failed to load @wire-dsl/engine: " ++ e)
       | inr coreModule =>
           match parseWireDSL coreModule, generateIR coreModule,
                 calculateLayout coreModule, renderToSVG coreModule with
           | Some parseWireDSL, Some generateIR,
             Some calculateLayout, Some renderToSVG =>
               ast <- lift (parseWireDSL wireContent) ;;
               ir <- lift (generateIR ast) ;;
               layout <- lift (calculateLayout ir) ;;
               out <- lift (renderToSVG ir layout renderOptions) ;;
               match out with
               | Some svg =>
                   if Str.truthy svg
                   then updateProvider (set_html (createHtmlWithSvg svg))
                   else showError "SVG renderer returned invalid output"
               | None => showError "SVG renderer returned invalid output"
               end
           | _, _, _, _ =>
               showError
                 "Core module missing required exports: parseWireDSL, generateIR, calculateLayout, renderToSVG"
           end
       end)
      (fun errorMessage => showError errorMessage).

Definition clearTimeout (id : nat) : Eff State unit :=
  modify (fun s =>
    set_timers (List.filter (fun t => negb (timerId t =? id)%nat) (timers s)) s).

(** [setTimeout(() => this.renderPreview(content), delay)] *)
Definition setTimeout (content : string) (delay : N) : Eff State nat :=
  fun s =>
    let id := nextTimerId s in
    let t := {| timerId := id; due := (clock s + delay)%N;
                timerContent := content |} in
    (inr id,
     {| provider := provider s; activeTextEditor := activeTextEditor s;
        clock := clock s; timers := timers s ++ [t]; nextTimerId := S id;
        rendered := rendered s |}).

Definition renderPreviewDebounced (content : string) : Eff State unit :=
  updateProvider (fun p =>
    {| view := view p; debounceTimer := debounceTimer p;
       lastEditorContent := content; html := html p;
       registered := registered p |}) ;;
  pending <- getProvider debounceTimer ;;
  match pending with
  | Some id => clearTimeout id
  | None => ret tt
  end ;;
  id <- setTimeout content 500 ;;
  updateProvider (fun p =>
    {| view := view p; debounceTimer := Some id;
       lastEditorContent := lastEditorContent p; html := html p;
       registered := registered p |}).

Definition findAndRenderFirstWireFile : Eff State unit :=
  tryCatch
    (wireFiles <- lift (findFiles workspace) ;;
     match wireFiles with
     | first :: _ =>
         text <- lift (openTextDocument workspace first) ;;
         renderPreview text
     | [] => showWaitingMessage "No .wire files found in workspace"
     end)
    (fun _ => showError "Error finding .wire files").

(** The two listeners [setupEditorListener] registers. *)
Definition onDidChangeActiveTextEditor (editor : option Document.t) :
    Eff State unit :=
  match editor with
  | Some d =>
      if WirePreviewPanel.isWire d then renderPreview (Document.text d)
      else ret tt
  | None => ret tt
  end.

Definition onDidChangeTextDocument (document : Document.t) : Eff State unit :=
  editor <- gets activeTextEditor ;;
  match editor with
  | Some d =>
      if WirePreviewPanel.sameDocument d document && WirePreviewPanel.isWire d
      then renderPreviewDebounced (Document.text d)
      else ret tt
  | None => ret tt
  end.

Definition setupEditorListener : Eff State unit :=
  updateProvider (fun p =>
    {| view := view p; debounceTimer := debounceTimer p;
       lastEditorContent := lastEditorContent p; html := html p;
       registered := S (registered p) |}).

Definition resolveWebviewView : Eff State unit :=
  updateProvider (fun p =>
    {| view := true; debounceTimer := debounceTimer p;
       lastEditorContent := lastEditorContent p; html := loadingHtml;
       registered := registered p |}) ;;
  setupEditorListener ;;
  activeEditor <- gets activeTextEditor ;;
  match activeEditor with
  | Some d =>
      if WirePreviewPanel.isWire d then renderPreview (Document.text d)
      else findAndRenderFirstWireFile
  | None => findAndRenderFirstWireFile
  end.

Definition dispose : Eff State unit :=
  updateProvider (fun p =>
    {| view := view p; debounceTimer := debounceTimer p;
       lastEditorContent := lastEditorContent p; html := html p;
       registered := 0 |}) ;;
  pending <- getProvider debounceTimer ;;
  match pending with
  | Some id => clearTimeout id
  | None => ret tt
  end.

Definition run (c : Eff State unit) (s : State) : State := snd (c s).

(** One listener of each registered pair runs; an event that is not of
    the editor has no listener here. *)
Definition listener (e : Event) : Eff State unit :=
  match e with
  | DidReceiveMessage _ => ret tt
  | DidChangeActiveTextEditor editor => onDidChangeActiveTextEditor editor
  | DidChangeTextDocument document => onDidChangeTextDocument document
  end.

Fixpoint times (n : nat) (c : Eff State unit) : Eff State unit :=
  match n with
  | O => ret tt
  | S m => c ;; times m c
  end.

Definition hostEffect (e : Event) (s : State) : State :=
  match e with
  | DidReceiveMessage _ => s
  | DidChangeActiveTextEditor editor => set_activeTextEditor editor s
  | DidChangeTextDocument document =>
      match activeTextEditor s with
      | Some d =>
          if WirePreviewPanel.sameDocument d document
          then set_activeTextEditor (Some document) s
          else s
      | None => s
      end
  end.

(** A timer fires: it is no longer pending and its callback runs. *)
Definition fire (t : Timer) : Eff State unit :=
  modify (fun s => set_clock (N.max (clock s) (due t)) s) ;;
  clearTimeout (timerId t) ;;
  renderPreview (timerContent t).

Definition advance (now : N) (s : State) : State :=
  let dueNow := List.filter (fun t => (due t <=? now)%N) (timers s) in
  let s' := List.fold_left (fun acc t => run (fire t) acc) dueNow s in
  set_clock (N.max (clock s') now) s'.

Definition step (s : State) (timed : N * Event) : State :=
  let (now, e) := timed in
  let s1 := hostEffect e (advance now s) in
  run (times (registered (provider s1)) (listener e)) s1.

Definition runEvents (events : list (N * Event)) (s : State) : State :=
  List.fold_left step events s.

(** A provider that was constructed and not resolved yet. *)
Definition newState (editor : option Document.t) (now : N) : State :=
  {| provider :=
       {| view := false; debounceTimer := None;
          lastEditorContent := EmptyString; html := EmptyString;
          registered := 0 |};
     activeTextEditor := editor; clock := now; timers := [];
     nextTimerId := 0; rendered := [] |}.

End WithHost.

End WireWebviewProvider.


(* ===================================================================== *)
(** * A small engine, host and user to run the code on *)
(* ===================================================================== *)

Module Demo.

Definition screenOf (name : string) (w h : N) : Screen.t :=
  {| Screen.name := name;
     Screen.viewport := Some {| Viewport.width := w; Viewport.height := h |} |}.

Definition login : Screen.t := screenOf "Login" 800 600.
Definition dashboard : Screen.t := screenOf "Dashboard" 1440 900.
Definition home : Screen.t := screenOf "Home" 800 600.

Definition irOf (screens : list Screen.t) : IR.t :=
  {| IR.project :=
       {| Project.screens := Some screens;
          Project.others := [("name", "demo")] |};
     IR.others := [] |}.

Definition twoScreens : IR.t := irOf [login; dashboard].
Definition oneScreen : IR.t := irOf [login].
Definition noScreens : IR.t := irOf [].

Definition layout : Layout := LayoutHandle 1.

(** Sources the demo parser knows, by AST handle. *)
Definition parse (content : string) : result AST :=
  if String.eqb content "screen Login" then inr (AstHandle 1)
  else if String.eqb content "screen Home" then inr (AstHandle 2)
  else if String.eqb content "screen Login screen Dashboard" then inr (AstHandle 3)
  else if String.eqb content "screen Broken" then inr (AstHandle 4)
  else if String.eqb content "screen Boom" then inr (AstHandle 5)
  else if String.eqb content "screen Bare" then inr (AstHandle 6)
  else if String.eqb content "screen Boxed" then inr (AstHandle 7)
  else inl "Unexpected token".

Definition generate (ast : AST) : result IR.t :=
  match ast with
  | AstHandle 1 => inr (irOf [login])
  | AstHandle 2 => inr (irOf [home])
  | AstHandle 3 => inr (irOf [login; dashboard])
  | AstHandle 4 => inr (irOf [screenOf "Broken" 10 10])
  | AstHandle 5 => inr (irOf [screenOf "Boom" 10 10])
  | AstHandle 6 => inr (irOf [screenOf "Bare" 10 10])
  | AstHandle 7 => inr (irOf [screenOf "Boxed" 10 10])
  | AstHandle _ => inl "Invalid AST"
  end.

Definition firstName (ir : IR.t) : string :=
  match Project.screens (IR.project ir) with
  | Some (s :: _) => Screen.name s
  | _ => EmptyString
  end.

(** The layout of a document is identified by the length of the name
    of its first screen; the screen called Broken cannot be laid out. *)
Definition layoutOf (ir : IR.t) : result Layout :=
  if String.eqb (firstName ir) "Broken" then inl "Layout failed"
  else inr (LayoutHandle (N.of_nat (String.length (firstName ir)))).

Definition svgFor (o : RenderOptions.t) : string :=
  "<svg viewBox=" ++ String Str.dquote "0 0 10 10" ++ String Str.dquote ">"
  ++ RenderOptions.screenName o ++ "</svg>".

(** An [svg] element with a [viewBox] only, around a rectangle that has
    a width and a height. *)
Definition boxedSvg : string :=
  "<svg viewBox=" ++ String Str.dquote "0 0 10 10" ++ String Str.dquote ">"
  ++ "<rect width=" ++ String Str.dquote "4" ++ String Str.dquote " height="
  ++ String Str.dquote "4" ++ String Str.dquote "/></svg>".

(** Boom cannot be rendered; Bare renders to markup without an [svg]
    element; Boxed renders to [boxedSvg]. *)
Definition render (ir : IR.t) (l : Layout) (o : RenderOptions.t) :
    result (option string) :=
  if String.eqb (firstName ir) "Boom" then inl "Render failed"
  else if String.eqb (firstName ir) "Bare" then inr (Some "<g></g>")
  else if String.eqb (firstName ir) "Boxed" then inr (Some boxedSvg)
  else inr (Some (svgFor o)).

Definition core : Core :=
  {| parseWireDSL := Some parse;
     generateIR := Some generate;
     calculateLayout := Some layoutOf;
     renderToSVG := Some render;
     SVGRenderer := fun _ _ o => inr (svgFor o) |}.

Definition host : Host :=
  {| requireCore := inr core;
     writeError := fun _ => None;
     resolvePdfkitAfm := inr "/ext/node_modules/pdfkit/js/data/Helvetica.afm";
     defaultThemeSetting := None;
     activeColorThemeIsLight := false |}.

Definition formatOf (id : FormatId) : ExportFormat.t :=
  match id with
  | SVG => {| ExportFormat.id := SVG; ExportFormat.label := "SVG (Vector)";
              ExportFormat.ext := ".svg" |}
  | PDF => {| ExportFormat.id := PDF; ExportFormat.label := "PDF (Document)";
              ExportFormat.ext := ".pdf" |}
  | PNG => {| ExportFormat.id := PNG; ExportFormat.label := "PNG (Image)";
              ExportFormat.ext := ".png" |}
  end.

(** A user who picks the given format and accepts the proposed file in
    the directory /out. *)
Definition userPicking (id : FormatId) : User :=
  {| showQuickPick := fun _ => Some (formatOf id);
     showSaveDialog := fun defaultUri _ => Some ("/out/" ++ defaultUri) |}.

(** A host whose disk is full once the first file is written: the write
    of a file for Dashboard fails. *)
Definition fullDiskHost : Host :=
  {| requireCore := inr core;
     writeError := fun a =>
       if Str.includes "dashboard" (artifactPath a) then Some "ENOSPC"
       else None;
     resolvePdfkitAfm := inr "/ext/node_modules/pdfkit/js/data/Helvetica.afm";
     defaultThemeSetting := None;
     activeColorThemeIsLight := false |}.

(** Two screens whose names differ and whose sanitized names do not. *)
Definition signIn : IR.t := irOf [screenOf "Sign In" 800 600; screenOf "sign-in" 800 600].

(** A user who picks the given format and saves at the given file. *)
Definition userSaving (id : FormatId) (filePath : string) : User :=
  {| showQuickPick := fun _ => Some (formatOf id);
     showSaveDialog := fun _ _ => Some filePath |}.

Definition wireDocument (text : string) : Document.t :=
  {| Document.id := 7; Document.languageId := "wire";
     Document.fileName := "/work/app.wire"; Document.text := text |}.

(** A new panel beside a document with the single screen Login, the
    engine module already in the static cache, nothing rendered yet. *)
Definition fresh : Session :=
  {| panel := WirePreviewPanel.newPanel host (Some core);
     activeTextEditor := Some (wireDocument "screen Login");
     clock := 0; timers := []; nextTimerId := 0; trace := [];
     world := emptyWorld |}.

(** A panel that previews the screen Dashboard of a document with the
    screens Login and Dashboard. *)
Definition previewing : Session :=
  {| panel :=
       {| coreModule := Some core;
          debounceTimer := None;
          currentTheme := dark;
          lastContent := "screen Login screen Dashboard";
          availableScreens := ["Login"; "Dashboard"];
          selectedScreen := "Dashboard";
          lastIR := Some twoScreens;
          lastLayout := Some layout;
          currentFilePath := "/work/app.wire";
          html := NoPage |};
     activeTextEditor := Some (wireDocument "screen Login screen Dashboard");
     clock := 0; timers := []; nextTimerId := 0; trace := [];
     world := emptyWorld |}.

(** A preview opened on a document with the single screen Login. *)
Definition opened : Session :=
  WirePreviewPanel.openPreview host None
    (Some (wireDocument "screen Login")) 0 emptyWorld.

End Demo.

(** More of the demo: a second wire document, and the fresh panel after
    one edit of its document at 10 ms. *)
Module Scenario.

Definition other : Document.t :=
  {| Document.id := 8; Document.languageId := "wire";
     Document.fileName := "/work/other.wire"; Document.text := "screen Login" |}.

Definition edited : Session :=
  WirePreviewPanel.step (pathLib := Posix.lib) Demo.host (Demo.userPicking PNG)
    Demo.fresh (10%N, DidChangeTextDocument (Demo.wireDocument "screen Home")).


(** An engine whose documents have one screen, which has no name. *)
Definition unnamedIR : IR.t := Demo.irOf [Demo.screenOf EmptyString 10 10].

Definition unnamedCore : Core :=
  {| parseWireDSL := Some (fun _ => inr (AstHandle 0));
     generateIR := Some (fun _ => inr unnamedIR);
     calculateLayout := Some (fun _ => inr (LayoutHandle 0));
     renderToSVG := Some (fun _ _ o => inr (Some (Demo.svgFor o)));
     SVGRenderer := fun _ _ o => inr (Demo.svgFor o) |}.

Definition unnamedHost : Host :=
  {| requireCore := inr unnamedCore;
     writeError := fun _ => None;
     resolvePdfkitAfm := inr "/ext/node_modules/pdfkit/js/data/Helvetica.afm";
     defaultThemeSetting := None;
     activeColorThemeIsLight := false |}.


(** A new panel with nothing in the static cache. *)
Definition blank : Session :=
  {| panel := WirePreviewPanel.newPanel unnamedHost None;
     activeTextEditor := Some (Demo.wireDocument "screen");
     clock := 0; timers := []; nextTimerId := 0; trace := [];
     world := emptyWorld |}.

End Scenario.

(** The demo of the command: the layout function ignores its further
    arguments and the IR has no [screens] of its own. *)
Module CommandDemo.

Definition screenKeys (ir : IR.t) : option (list string) := None.

Definition calculateLayoutFor (core : Core) (ir : IR.t) (width height : N)
    (screen : string) : result Layout :=
  Demo.layoutOf ir.


End CommandDemo.

(** The side bar of the demo: an empty workspace, the view resolved at
    0 ms on the demo document, and that document edited at 10 ms. *)
Module SideDemo.

Definition workspace : WireWebviewProvider.Workspace :=
  {| WireWebviewProvider.findFiles := inr [];
     WireWebviewProvider.openTextDocument := fun _ => inl "no such file" |}.

Definition resolved : WireWebviewProvider.State :=
  WireWebviewProvider.run
    (WireWebviewProvider.resolveWebviewView Demo.host (inr Demo.core) workspace)
    (WireWebviewProvider.newState (Some (Demo.wireDocument "screen Login")) 0).

Definition edit : N * Event :=
  (10%N, DidChangeTextDocument (Demo.wireDocument "screen Home")).

End SideDemo.


(* ===================================================================== *)
(** * Vocabulary of the statements *)
(* ===================================================================== *)

(** The world after the artifacts [l] were written, in that order. *)
Definition addFiles (l : list Artifact) (w : World) : World :=
  {| files := files w ++ l; notices := notices w;
     lastDirectory := lastDirectory w; pdfkitDataPath := pdfkitDataPath w |}.

(** The extension each exporter strips from the destination and appends
    to the per-screen files. *)
Definition extOf (id : FormatId) : string :=
  match id with SVG => ".svg" | PDF => ".pdf" | PNG => ".png" end.

(** The file of one screen in a fan-out. *)
Definition perScreenPath {pathLib : PathLib} (filePath ext : string)
    (screen : Screen.t) : string :=
  join (dirname filePath)
    (basename filePath ext ++ "-"
       ++ ExportManager.sanitizeScreenName (Screen.name screen) ++ ext).

(** An engine and a file system that do not fail on this document: the
    module loads, every screen renders (to [svgOf] of the options) and
    every write succeeds. *)
Record Cooperative (host : Host) (core : Core)
    (svgOf : RenderOptions.t -> string) (ir : IR.t) (layout : Layout) : Prop := {
  core_loads : requireCore host = inr core;
  renders : forall o, SVGRenderer core ir layout o = inr (svgOf o);
  writes : forall a, writeError host a = None
}.

Definition noSpace (s : string) : bool :=
  Str.forallb (fun c => negb (Str.isSpace c)) s.


(** The options a screen is rendered with in an export. *)
Definition exportOptions (ir : IR.t) (theme : Theme) (screen : Screen.t) :
    RenderOptions.t :=
  ExportManager.optionsFor
    (ExportManager.viewportOf
       (ExportManager.baseViewportOf (ExportManager.screensOf ir)) screen)
    theme screen.

(** The artifact of one screen in a fan-out of images. *)
Definition imageArtifact {pathLib : PathLib} (id : FormatId)
    (svgOf : RenderOptions.t -> string) (ir : IR.t) (theme : Theme)
    (path : string) (screen : Screen.t) : Artifact :=
  let o := exportOptions ir theme screen in
  match id with
  | PNG => PngFile path (svgOf o) (RenderOptions.width o) (RenderOptions.height o)
  | _ => SvgFile path (svgOf o)
  end.

(** The page of one screen in the paginated document. *)
Definition pageOf (svgOf : RenderOptions.t -> string) (ir : IR.t)
    (theme : Theme) (screen : Screen.t) : Page.t :=
  let o := exportOptions ir theme screen in
  {| Page.svg := svgOf o;
     Page.width := RenderOptions.width o;
     Page.height := RenderOptions.height o;
     Page.name := Screen.name screen |}.

(** The contents [updatePreview] was entered with, oldest first. *)
Fixpoint updates (tr : list Call) : list string :=
  match tr with
  | [] => []
  | UpdatePreviewCall content :: more => content :: updates more
  | _ :: more => updates more
  end.

(** The texts the engine's parser was called on, oldest first. *)
Fixpoint parses (tr : list Call) : list string :=
  match tr with
  | [] => []
  | ParseCall content :: more => content :: parses more
  | _ :: more => parses more
  end.


(** What a render pass leaves alone: the timers and their handles, the
    clock, the active editor and the world of exported files. *)
Record Frame (s s' : Session) : Prop := {
  frame_timers : timers s' = timers s;
  frame_nextTimerId : nextTimerId s' = nextTimerId s;
  frame_clock : clock s' = clock s;
  frame_editor : activeTextEditor s' = activeTextEditor s;
  frame_debounceTimer : debounceTimer (panel s') = debounceTimer (panel s);
  frame_theme : currentTheme (panel s') = currentTheme (panel s);
  frame_world : world s' = world s
}.

(** Every final state of [c] is related to its initial state, whether
    [c] returns or throws. *)
Definition preserves {S A : Type} (R : S -> S -> Prop) (c : Eff S A) : Prop :=
  forall s, R s (snd (c s)).

(** The engine module a render pass works with: the cached one, or the
    one [require] answers. *)
Definition coreFor (host : Host) (s : Session) : result Core :=
  match coreModule (panel s) with
  | Some core => inr core
  | None => requireCore host
  end.

(** The module has the four functions of the pipeline. *)
Record Exports (core : Core)
    (parse : string -> result AST) (gen : AST -> result IR.t)
    (lay : IR.t -> result Layout)
    (ren : IR.t -> Layout -> RenderOptions.t -> result (option string)) : Prop := {
  has_parseWireDSL : parseWireDSL core = Some parse;
  has_generateIR : generateIR core = Some gen;
  has_calculateLayout : calculateLayout core = Some lay;
  has_renderToSVG : renderToSVG core = Some ren
}.


(** The selected screen after the screens of a new IR are known. *)
Definition selectedAfter (selected : string) (names : list string) : string :=
  if Str.truthy selected then selected else List.hd EmptyString names.

(** The file name [exportAs] proposes. *)
Definition exportFileName (path : string) : string :=
  if Str.truthy path then Str.orElse (Str.lastSegment path) "export.wire"
  else "export.wire".

(** An edit of a document, as the event the host raises. *)
Definition edit (timed : N * Document.t) : N * Event :=
  (fst timed, DidChangeTextDocument (snd timed)).

(** One render is pending: the timer armed by the edit that gave the
    active document [d] its text at time [t]. *)
Definition Armed (s : Session) (t : N) (d : Document.t) : Prop :=
  exists id,
    timers s = [ {| timerId := id; due := (t + 300)%N;
                    timerContent := Document.text d |} ]
    /\ debounceTimer (panel s) = Some id
    /\ clock s = t
    /\ activeTextEditor s = Some d.

(** Edits of the document [docId], each less than 300 ms after the one
    before; the first one not before [prev]. *)
Fixpoint Burst (docId : N) (first : bool) (prev : N)
    (edits : list (N * Document.t)) : Prop :=
  match edits with
  | [] => True
  | (t, d) :: more =>
      Document.id d = docId
      /\ WirePreviewPanel.isWire d = true
      /\ (prev <= t)%N
      /\ (first = false -> (t < prev + 300)%N)
      /\ Burst docId false t more
  end.

(** Does [/<svg([^>]*?)>/] match somewhere in [s]? *)
Fixpoint hasSvgTag (s : string) : bool :=
  match Str.matchSvgTagHere s with
  | Some _ => true
  | None =>
      match s with
      | EmptyString => false
      | String _ r => hasSvgTag r
      end
  end.

(** The text between [<svg] and [>] in the first opening [svg] tag. *)
Fixpoint svgTagAttributes (s : string) : option string :=
  match Str.matchSvgTagHere s with
  | Some (attrs, _) => Some attrs
  | None =>
      match s with
      | EmptyString => None
      | String _ r => svgTagAttributes r
      end
  end.

(** Does the first opening [svg] tag have a [width] and a [height]
    attribute? *)
Definition svgTagDeclares (s : string) : bool :=
  match svgTagAttributes s with
  | Some attrs => Str.includes " width=" attrs && Str.includes " height=" attrs
  | None => false
  end.

(** The world after one more message was shown. *)
Definition addNotice (n : Notice) (w : World) : World :=
  {| files := files w; notices := notices w ++ [n];
     lastDirectory := lastDirectory w; pdfkitDataPath := pdfkitDataPath w |}.

(** What the part of a render pass after its first two statements
    leaves alone: the entries to [updatePreview] and the last content. *)
Record Quiet (s s' : Session) : Prop := {
  quiet_updates : updates (trace s') = updates (trace s);
  quiet_lastContent : lastContent (panel s') = lastContent (panel s)
}.

(** The session after more calls were recorded. *)
Definition addCalls (calls : list Call) (s : Session) : Session :=
  set_trace (trace s ++ calls) s.

(** The file path a render pass leaves in the panel. *)
Definition pathAfter (s : Session) : string :=
  match activeTextEditor s with
  | Some d =>
      if WirePreviewPanel.isWire d then Document.fileName d
      else currentFilePath (panel s)
  | None => currentFilePath (panel s)
  end.

(** The session when a render pass reaches its [try]: the entry is
    recorded, the content and the file path are stored. *)
Definition enter (content : string) (s : Session) : Session :=
  set_panel
    (set_currentFilePath (pathAfter s) (set_lastContent content (panel s)))
    (addCalls [UpdatePreviewCall content] s).

(** The session with the engine module in the cache. *)
Definition withCore (core : Core) (s : Session) : Session :=
  set_panel (set_coreModule (Some core) (panel s)) s.

(** The session after the IR was stored, its screens listed and the
    selection settled. *)
Definition withIR (ir : IR.t) (s : Session) : Session :=
  set_panel
    (set_selectedScreen
       (selectedAfter (selectedScreen (panel s)) (WirePreviewPanel.screenNames ir))
       (set_availableScreens (WirePreviewPanel.screenNames ir)
          (set_lastIR (Some ir) (panel s))))
    s.

(** The options of the render call of a pipeline run from [s]. *)
Definition passOptions (s : Session) (ir : IR.t) : RenderOptions.t :=
  WirePreviewPanel.previewOptions (currentTheme (panel s))
    (selectedAfter (selectedScreen (panel s)) (WirePreviewPanel.screenNames ir)).

(** The session after the layout was stored. *)
Definition withLayout (layout : Layout) (s : Session) : Session :=
  set_panel (set_lastLayout (Some layout) (panel s)) s.

(** The session showing another page. *)
Definition withHtml (page : Html) (s : Session) : Session :=
  set_panel (set_html page (panel s)) s.

(** The characters that [escapeHtml] replaces, but for the ampersand. *)
Definition isMarkupChar (c : ascii) : bool :=
  Ascii.eqb c "<" || Ascii.eqb c ">" || Ascii.eqb c Str.dquote || Ascii.eqb c "'".

(** What one character of a message becomes in the page of an error. *)
Definition escapeChar (c : ascii) : string :=
  if Ascii.eqb c "&" then "&amp;"
  else if Ascii.eqb c "<" then "&lt;"
  else if Ascii.eqb c ">" then "&gt;"
  else if Ascii.eqb c Str.dquote then "&quot;"
  else if Ascii.eqb c "'" then "&#039;"
  else String c EmptyString.

(** Every character replaced by a string. *)
Fixpoint flatMap (f : ascii -> string) (s : string) : string :=
  match s with
  | EmptyString => EmptyString
  | String c r => f c ++ flatMap f r
  end.

(** The separators of [split(/[\\/]/)]. *)
Definition isSeparator (c : ascii) : bool :=
  Ascii.eqb c "/" || Ascii.eqb c Str.backslash.

Definition noSeparator (s : string) : bool :=
  Str.forallb (fun c => negb (isSeparator c)) s.

(** The files an export that returns has written, in order: the
    destination itself for the paginated document and for a single view,
    one file per view otherwise. *)
Definition expectedPaths {pathLib : PathLib} (id : FormatId) (ir : IR.t)
    (filePath : string) : list string :=
  match id, ExportManager.screensOf ir with
  | PDF, _ => [filePath]
  | _, [_] => [filePath]
  | _, screens => List.map (perScreenPath filePath (extOf id)) screens
  end.

(** The prefix each exporter puts before the message it rethrows. *)
Definition failurePrefix (id : FormatId) : string :=
  match id with
  | SVG => "SVG export failed: "
  | PDF => "PDF export failed: "
  | PNG => "PNG export failed: "
  end.

(** One round of a fan-out: the screen is rendered with its options,
    then its artifact is written. *)
Definition exportRound (host : Host) (core : Core) (ir : IR.t) (layout : Layout)
    (optionsOf : Screen.t -> RenderOptions.t) (mk : Screen.t -> string -> Artifact)
    (s : Screen.t) : M unit :=
  bind (lift (SVGRenderer core ir layout (optionsOf s)))
    (fun svg => ExportManager.write host (mk s svg)).

(** What an export from the panel leaves alone: everything but the
    world of files and messages. *)
Record OnlyWorld (s s' : Session) : Prop := {
  only_panel : panel s' = panel s;
  only_editor : activeTextEditor s' = activeTextEditor s;
  only_clock : clock s' = clock s;
  only_timers : timers s' = timers s;
  only_nextTimerId : nextTimerId s' = nextTimerId s;
  only_trace : trace s' = trace s
}.

(** No render is pending, or one is and the panel holds its handle. *)
Definition Tidy (s : Session) : Prop :=
  timers s = []
  \/ exists tm, timers s = [tm] /\ debounceTimer (panel s) = Some (timerId tm).

(** The list of screens of the panel is the list of the cached IR, and a
    layout is cached only beside an IR. *)
Definition Coherent (p : Panel) : Prop :=
  availableScreens p
  = match lastIR p with
    | Some ir => WirePreviewPanel.screenNames ir
    | None => []
    end
  /\ (lastIR p = None -> lastLayout p = None).

(** What the pipeline of a render pass leaves alone: the cached engine
    module, the file path and the active editor. *)
Record Kept (s s' : Session) : Prop := {
  kept_core : coreModule (panel s') = coreModule (panel s);
  kept_path : currentFilePath (panel s') = currentFilePath (panel s);
  kept_editor : activeTextEditor s' = activeTextEditor s
}.


(** The engine module [ParseService] works with: the cached one, or the
    one [require] answers. *)
Definition parseCoreFor (host : Host) (cache : option Core) : result Core :=
  match cache with
  | Some core => inr core
  | None => requireCore host
  end.

(** The screen [ParseService] asks the layout for when none is given:
    the first key of [ir.screens], or MainScreen. *)
Definition screenToRender (screenKeys : IR.t -> option (list string))
    (ir : IR.t) : string :=
  Str.orElse (List.hd EmptyString (default [] (screenKeys ir))) "MainScreen".

(** In the side bar no render is pending, or one is: the panel holds its
    handle, it is for the content of the last edit, and it is due at most
    500 ms from now. *)
Definition SidePending (s : WireWebviewProvider.State) : Prop :=
  WireWebviewProvider.timers s = []
  \/ exists tm,
       WireWebviewProvider.timers s = [tm]
       /\ WireWebviewProvider.debounceTimer (WireWebviewProvider.provider s)
          = Some (timerId tm)
       /\ timerContent tm
          = WireWebviewProvider.lastEditorContent
              (WireWebviewProvider.provider s)
       /\ (due tm <= WireWebviewProvider.clock s + 500)%N.

(** The pages the side bar shows once its view is resolved. *)
Definition SidePage (html : string) : Prop :=
  html = WireWebviewProvider.waitingHtml "No .wire files found in workspace"
  \/ (exists message, html = WireWebviewProvider.errorHtml message)
  \/ (exists svg,
        Str.truthy svg = true
        /\ html = WireWebviewProvider.createHtmlWithSvg svg).

(** The side bar after [resolveWebviewView]: its view is set, one pair
    of listeners is registered, and the two invariants hold. *)
Record SideReady (s : WireWebviewProvider.State) : Prop := {
  ready_pending : SidePending s;
  ready_view :
    WireWebviewProvider.view (WireWebviewProvider.provider s) = true;
  ready_listeners :
    WireWebviewProvider.registered (WireWebviewProvider.provider s) = 1;
  ready_page :
    SidePage (WireWebviewProvider.html (WireWebviewProvider.provider s))
}.

(** The options of the render call of a pass, from the theme and the
    selection the pass starts with. *)
Definition optionsAfter (theme : Theme) (selected : string) (ir : IR.t) :
    RenderOptions.t :=
  WirePreviewPanel.previewOptions theme
    (selectedAfter selected (WirePreviewPanel.screenNames ir)).

(** The calls of the engine in one pass on [content], in order: the
    parser on the content, then each next stage on the result of the one
    before, as long as that one succeeded. *)
Definition engineCalls
    (parse : string -> result AST) (gen : AST -> result IR.t)
    (lay : IR.t -> result Layout)
    (theme : Theme) (selected : string) (content : string) : list Call :=
  ParseCall content
  :: match parse content with
     | inl _ => []
     | inr ast =>
         GenerateIRCall ast
         :: match gen ast with
            | inl _ => []
            | inr ir =>
                LayoutCall ir
                :: match lay ir with
                   | inl _ => []
                   | inr layout =>
                       [RenderCall ir layout (optionsAfter theme selected ir)]
                   end
            end
     end.

(** The IR in the cache after a pass on [content]: the one this pass
    generated, or the old one when parsing or generation failed. *)
Definition irAfter (parse : string -> result AST) (gen : AST -> result IR.t)
    (content : string) (old : option IR.t) : option IR.t :=
  match parse content with
  | inl _ => old
  | inr ast =>
      match gen ast with
      | inl _ => old
      | inr ir => Some ir
      end
  end.

(** The layout in the cache after a pass on [content]: the one this pass
    calculated, or the old one when a stage up to the layout failed. *)
Definition layoutAfter (parse : string -> result AST) (gen : AST -> result IR.t)
    (lay : IR.t -> result Layout) (content : string) (old : option Layout) :
    option Layout :=
  match parse content with
  | inl _ => old
  | inr ast =>
      match gen ast with
      | inl _ => old
      | inr ir =>
          match lay ir with
          | inl _ => old
          | inr layout => Some layout
          end
      end
  end.

(** The page after a pass on [content]: the error of the first stage
    that failed, or the preview of what the renderer answered for the
    IR and the layout of this pass. *)
Definition pageAfter (parse : string -> result AST) (gen : AST -> result IR.t)
    (lay : IR.t -> result Layout)
    (ren : IR.t -> Layout -> RenderOptions.t -> result (option string))
    (theme : Theme) (selected : string) (content : string) : Html :=
  match parse content with
  | inl e => ErrorPage (Str.escapeHtml e)
  | inr ast =>
      match gen ast with
      | inl e => ErrorPage (Str.escapeHtml e)
      | inr ir =>
          match lay ir with
          | inl e => ErrorPage (Str.escapeHtml e)
          | inr layout =>
              match ren ir layout (optionsAfter theme selected ir) with
              | inl e => ErrorPage (Str.escapeHtml e)
              | inr (Some svg) =>
                  if Str.truthy svg
                  then PreviewPage (WirePreviewPanel.ensureDimensions svg)
                         (WirePreviewPanel.screenNames ir)
                         (selectedAfter selected (WirePreviewPanel.screenNames ir))
                         theme
                  else ErrorPage
                         (Str.escapeHtml "SVG renderer returned invalid output")
              | inr None =>
                  ErrorPage (Str.escapeHtml "SVG renderer returned invalid output")
              end
          end
      end
  end.



(** The paths at which the writes of the world leave a file, each once:
    a write at a path that was written before replaces the file there. *)
Definition pathsOnDisk (w : World) : list string :=
  List.nodup String.string_dec (List.map artifactPath (files w)).

(** The file at a path: what was written there last. *)
Definition fileAt (w : World) (path : string) : option Artifact :=
  List.find (fun a => String.eqb (artifactPath a) path) (List.rev (files w)).

Unset Implicit Arguments.

(* ===================================================================== *)
(** * Strings: facts *)
(* ===================================================================== *)

Module StrFacts.
Import Str.



Lemma forallb_filter f s : forallb f (filter f s) = true.
Proof.
  induction s as [|c s IH]; simpl; [reflexivity |].
  destruct (f c) eqn:E; simpl; [now rewrite E | exact IH].
Qed.


Lemma app_assoc (a b c : string) : (a ++ b) ++ c = a ++ (b ++ c).
Proof. induction a as [|x a IH]; simpl; [reflexivity | now rewrite IH]. Qed.

Lemma app_empty_r (a : string) : a ++ EmptyString = a.
Proof. induction a as [|x a IH]; simpl; [reflexivity | now rewrite IH]. Qed.


Lemma replaceSpaceRunsFrom_noSpace inRun s :
  noSpace s = true -> replaceSpaceRunsFrom inRun s = s.
Proof.
  revert inRun. induction s as [|c s IH]; intros inRun H; simpl in *.
  - reflexivity.
  - apply andb_true_iff in H as [Hc Hs].
    apply negb_true_iff in Hc. rewrite Hc. now rewrite IH.
Qed.







End StrFacts.

(* ===================================================================== *)
(** * ExportManager: facts *)
(* ===================================================================== *)

Module ExportFacts.
Import ExportManager.

Lemma sanitize_slug name :
  Str.forallb Str.isSlugChar (sanitizeScreenName name) = true.
Proof. apply StrFacts.forallb_filter. Qed.



Lemma addFiles_nil w : addFiles [] w = w.
Proof. destruct w; unfold addFiles; simpl. now rewrite app_nil_r. Qed.

Lemma addFiles_app l1 l2 w : addFiles l2 (addFiles l1 w) = addFiles (l1 ++ l2) w.
Proof. unfold addFiles; simpl. now rewrite app_assoc. Qed.

Lemma write_ok host a w :
  writeError host a = None -> write host a w = (inr tt, addFiles [a] w).
Proof. intros H. unfold write. now rewrite H. Qed.

(** A loop whose every round writes one artifact writes them all, in
    order. *)
Lemma forEach_writes {A} (xs : list A) (body : A -> M unit) (mk : A -> Artifact) :
  (forall x w, In x xs -> body x w = (inr tt, addFiles [mk x] w)) ->
  forall w, forEach xs body w = (inr tt, addFiles (List.map mk xs) w).
Proof.
  induction xs as [|x xs IH]; intros H w; simpl.
  - unfold ret. now rewrite addFiles_nil.
  - unfold bind. rewrite H by now left.
    rewrite IH by (intros; apply H; now right).
    now rewrite addFiles_app.
Qed.

(** A mapping whose function never throws and leaves the world alone
    is [List.map]. *)
Lemma mapM_pure {A B} (f : A -> M B) (g : A -> B) (xs : list A) :
  (forall x w, In x xs -> f x w = (inr (g x), w)) ->
  forall w, mapM f xs w = (inr (List.map g xs), w).
Proof.
  induction xs as [|x xs IH]; intros H w; simpl.
  - reflexivity.
  - unfold bind. rewrite H by now left.
    rewrite IH by (intros; apply H; now right).
    reflexivity.
Qed.

Section WithEngine.

Context {pathLib : PathLib}.
Variables (host : Host) (core : Core) (svgOf : RenderOptions.t -> string).
Variables (ir : IR.t) (layout : Layout) (theme : Theme) (filePath : string).
Hypothesis coop : Cooperative host core svgOf ir layout.

Lemma round_ok (mk : string -> Artifact) (o : RenderOptions.t) (w : World) :
  bind (lift (SVGRenderer core ir layout o)) (fun svg => write host (mk svg)) w
  = (inr tt, addFiles [mk (svgOf o)] w).
Proof.
  unfold bind, lift. rewrite (renders coop). apply write_ok, (writes coop).
Qed.

Lemma exportSVG_single screen w :
  screensOf ir = [screen] ->
  exportSVG host ir layout theme filePath w
  = (inr tt, addFiles [imageArtifact SVG svgOf ir theme filePath screen] w).
Proof.
  intros E. unfold exportSVG, tryCatch.
  unfold bind at 1, lift at 1. rewrite (core_loads coop).
  unfold imageArtifact, exportOptions. rewrite E. cbn [List.length Nat.eqb].
  now rewrite round_ok.
Qed.

Lemma exportSVG_many w :
  2 <= List.length (screensOf ir) ->
  exportSVG host ir layout theme filePath w
  = (inr tt,
     addFiles
       (List.map (fun screen =>
          imageArtifact SVG svgOf ir theme (perScreenPath filePath ".svg" screen) screen)
          (screensOf ir)) w).
Proof.
  intros L. unfold exportSVG, tryCatch.
  unfold bind at 1, lift at 1. rewrite (core_loads coop).
  unfold imageArtifact, exportOptions, perScreenPath.
  destruct (screensOf ir) as [|s1 [|s2 more]] eqn:E; simpl in L; try lia.
  cbn [List.length Nat.eqb].
  erewrite forEach_writes; [reflexivity |].
  intros x w0 _. now rewrite round_ok.
Qed.

Lemma exportPNG_single screen w :
  screensOf ir = [screen] ->
  exportPNG host ir layout theme filePath w
  = (inr tt, addFiles [imageArtifact PNG svgOf ir theme filePath screen] w).
Proof.
  intros E. unfold exportPNG, tryCatch.
  unfold bind at 1, lift at 1. rewrite (core_loads coop).
  unfold imageArtifact, exportOptions. rewrite E. cbn [List.length Nat.eqb].
  now rewrite round_ok.
Qed.

Lemma exportPNG_many w :
  2 <= List.length (screensOf ir) ->
  exportPNG host ir layout theme filePath w
  = (inr tt,
     addFiles
       (List.map (fun screen =>
          imageArtifact PNG svgOf ir theme (perScreenPath filePath ".png" screen) screen)
          (screensOf ir)) w).
Proof.
  intros L. unfold exportPNG, tryCatch.
  unfold bind at 1, lift at 1. rewrite (core_loads coop).
  unfold imageArtifact, exportOptions, perScreenPath.
  destruct (screensOf ir) as [|s1 [|s2 more]] eqn:E; simpl in L; try lia.
  cbn [List.length Nat.eqb].
  erewrite forEach_writes; [reflexivity |].
  intros x w0 _. now rewrite round_ok.
Qed.

(** The paginated export: the pages are rendered first, then the font
    directory is published, then the one file is written. *)
Lemma exportPDF_ok afm w :
  resolvePdfkitAfm host = inr afm ->
  1 <= List.length (screensOf ir) ->
  exportPDF host ir layout theme filePath w
  = (inr tt,
     addFiles [PdfFile filePath (List.map (pageOf svgOf ir theme) (screensOf ir))]
       {| files := files w; notices := notices w;
          lastDirectory := lastDirectory w;
          pdfkitDataPath := Some (stripAfm afm) |}).
Proof.
  intros Hafm L. unfold exportPDF, tryCatch.
  unfold bind at 1, lift at 1. rewrite (core_loads coop).
  destruct (screensOf ir) as [|s1 more] eqn:E; simpl in L; try lia.
  cbn [List.length Nat.eqb].
  unfold bind at 1.
  rewrite (mapM_pure _ (pageOf svgOf ir theme)).
  - unfold bind, lift. rewrite Hafm. unfold setPdfkitDataPath, modify.
    rewrite write_ok by apply (writes coop). reflexivity.
  - intros x w0 _. unfold bind, lift, ret. rewrite (renders coop).
    unfold pageOf, exportOptions. now rewrite E.
Qed.

End WithEngine.

End ExportFacts.

(* ===================================================================== *)
(** * ExportManager: the fan-out of each format *)
(* ===================================================================== *)

Import ExportManager.

Lemma demo_cooperative ir :
  Cooperative Demo.host Demo.core Demo.svgFor ir Demo.layout.
Proof. constructor; reflexivity. Qed.

(** Exporting a document with N >= 1 views as SVG or PNG, with an
    engine and a file system that do not fail, returns normally after
    exactly N writes; when N = 1 the one write is at the destination
    path itself.  These are writes, not files: two writes at one path
    leave one file. *)
Theorem image_export_fan_out {pathLib : PathLib} :
  forall host core svgOf format ir layout theme filePath w,
    Cooperative host core svgOf ir layout ->
    ExportFormat.id format <> PDF ->
    1 <= List.length (screensOf ir) ->
    exists written,
      exportToFormat host format ir layout theme filePath w
      = (inr tt, addFiles written w)
      /\ List.length written = List.length (screensOf ir)
      /\ (List.length (screensOf ir) = 1 ->
          List.map artifactPath written = [filePath]).
Proof.
  intros host core svgOf format ir layout theme filePath w coop Hid L.
  unfold exportToFormat.
  destruct (screensOf ir) as [|s1 [|s2 more]] eqn:E; simpl in L; try lia.
  - (* one view *)
    destruct (ExportFormat.id format); try congruence.
    + eexists. rewrite (ExportFacts.exportSVG_single _ _ _ _ _ theme filePath coop _ w E).
      repeat split.
    + eexists. rewrite (ExportFacts.exportPNG_single _ _ _ _ _ theme filePath coop _ w E).
      repeat split.
  - (* several views *)
    assert (L2 : 2 <= List.length (screensOf ir)) by (rewrite E; simpl; lia).
    destruct (ExportFormat.id format); try congruence.
    + eexists. rewrite (ExportFacts.exportSVG_many _ _ _ _ _ theme filePath coop w L2).
      rewrite E. split; [reflexivity |].
      split; [now rewrite length_map | simpl; intros; lia].
    + eexists. rewrite (ExportFacts.exportPNG_many _ _ _ _ _ theme filePath coop w L2).
      rewrite E. split; [reflexivity |].
      split; [now rewrite length_map | simpl; intros; lia].
Qed.

(** Two screens whose sanitized names are the same are written to the
    same file, one after the other. *)
Example fan_out_same_path :
  List.map artifactPath
    (files (snd (exportToFormat (pathLib := Posix.lib) Demo.host
                   (Demo.formatOf PNG) Demo.signIn Demo.layout dark
                   "/out/app.png" emptyWorld)))
  = ["/out/app-sign-in.png"; "/out/app-sign-in.png"].
Proof. vm_compute. reflexivity. Qed.

(** C1 fails on the code.  A document has the two screens Sign In and
    sign-in.  Their names differ and their sanitized names do not, so the
    export of the two as PNG, and as SVG, returns normally after two
    writes at one path: one file is left, the one of the second screen,
    and the first screen has none, where the exporters are documented to
    export one file per screen. *)
Lemma same_sanitized_name_leaves_one_file :
  let png :=
    exportToFormat (pathLib := Posix.lib) Demo.host (Demo.formatOf PNG)
      Demo.signIn Demo.layout dark "/out/app.png" emptyWorld in
  let svg :=
    exportToFormat (pathLib := Posix.lib) Demo.host (Demo.formatOf SVG)
      Demo.signIn Demo.layout dark "/out/app.svg" emptyWorld in
  let second :=
    Demo.svgFor {| RenderOptions.width := 800; RenderOptions.height := 600;
                   RenderOptions.theme := dark;
                   RenderOptions.includeLabels := true;
                   RenderOptions.screenName := "sign-in" |} in
  List.map Screen.name (screensOf Demo.signIn) = ["Sign In"; "sign-in"]
  /\ (fst png = inr tt
      /\ List.map artifactPath (files (snd png))
         = ["/out/app-sign-in.png"; "/out/app-sign-in.png"]
      /\ pathsOnDisk (snd png) = ["/out/app-sign-in.png"]
      /\ fileAt (snd png) "/out/app-sign-in.png"
         = Some (PngFile "/out/app-sign-in.png" second 800 600))
  /\ (fst svg = inr tt
      /\ List.map artifactPath (files (snd svg))
         = ["/out/app-sign-in.svg"; "/out/app-sign-in.svg"]
      /\ pathsOnDisk (snd svg) = ["/out/app-sign-in.svg"]
      /\ fileAt (snd svg) "/out/app-sign-in.svg"
         = Some (SvgFile "/out/app-sign-in.svg" second)).
Proof. vm_compute. repeat split. Qed.

(** A fan-out that fails at the second screen keeps the file of the
    first. *)
Example fan_out_keeps_files_written_before_failure :
  let (r, w) :=
    exportToFormat (pathLib := Posix.lib) Demo.fullDiskHost
      (Demo.formatOf PNG) Demo.twoScreens Demo.layout dark "/out/app.png"
      emptyWorld in
  r = inl "PNG export failed: ENOSPC"
  /\ List.map artifactPath (files w) = ["/out/app-login.png"].
Proof. vm_compute. split; reflexivity. Qed.



(** The prefix each exporter puts before the message it rethrows. *)
Lemma exportToFormat_no_screens {pathLib : PathLib} :
  forall host core format ir layout theme filePath w,
    requireCore host = inr core ->
    screensOf ir = [] ->
    exportToFormat host format ir layout theme filePath w
    = (inl (match ExportFormat.id format with
            | SVG => "SVG export failed: "
            | PDF => "PDF export failed: "
            | PNG => "PNG export failed: "
            end ++ "No screens found in project"), w).
Proof.
  intros host core format ir layout theme filePath w Hcore E.
  unfold exportToFormat, exportSVG, exportPDF, exportPNG, tryCatch.
  destruct (ExportFormat.id format);
    unfold bind at 1, lift at 1; rewrite Hcore, E; reflexivity.
Qed.

Lemma exportToFormat_core_missing {pathLib : PathLib} :
  forall host e format ir layout theme filePath w,
    requireCore host = inl e ->
    exists msg,
      exportToFormat host format ir layout theme filePath w = (inl msg, w).
Proof.
  intros host e format ir layout theme filePath w Hcore.
  unfold exportToFormat, exportSVG, exportPDF, exportPNG, tryCatch.
  destruct (ExportFormat.id format);
    unfold bind at 1, lift at 1; rewrite Hcore; eexists; reflexivity.
Qed.

(** C3.  Exporting a document with N >= 1 views as PDF, with an engine
    and a file system that do not fail, returns normally and writes
    exactly one artifact, at the destination path.  Its pages are those
    of the N views, in the order of the views: the page of a view has the
    name of the view, the width and the height of its viewport (that of
    the first view, or 1280 by 720, for a view that declares none), and
    the render of that view, at that size, in the theme of the export. *)
Theorem paginated_export_one_artifact {pathLib : PathLib} :
  forall host core svgOf format ir layout theme filePath w afm,
    Cooperative host core svgOf ir layout ->
    resolvePdfkitAfm host = inr afm ->
    ExportFormat.id format = PDF ->
    1 <= List.length (screensOf ir) ->
    let sizeOf screen := viewportOf (baseViewportOf (screensOf ir)) screen in
    let pageFor screen :=
      {| Page.svg :=
           svgOf {| RenderOptions.width := Viewport.width (sizeOf screen);
                    RenderOptions.height := Viewport.height (sizeOf screen);
                    RenderOptions.theme := theme;
                    RenderOptions.includeLabels := true;
                    RenderOptions.screenName := Screen.name screen |};
         Page.width := Viewport.width (sizeOf screen);
         Page.height := Viewport.height (sizeOf screen);
         Page.name := Screen.name screen |} in
    let pages := List.map pageFor (screensOf ir) in
    exists w',
      exportToFormat host format ir layout theme filePath w = (inr tt, w')
      /\ files w' = (files w ++ [PdfFile filePath pages])%list
      /\ notices w' = notices w
      /\ lastDirectory w' = lastDirectory w
      /\ List.length pages = List.length (screensOf ir)
      /\ List.map Page.name pages = List.map Screen.name (screensOf ir)
      /\ (forall screen vp,
            Screen.viewport screen = Some vp -> sizeOf screen = vp).
Proof.
  intros host core svgOf format ir layout theme filePath w afm coop Hafm Hid L
    sizeOf pageFor pages.
  unfold exportToFormat. rewrite Hid.
  rewrite (ExportFacts.exportPDF_ok _ _ _ _ _ theme filePath coop _ w Hafm L).
  eexists. split; [reflexivity |].
  split; [reflexivity |]. split; [reflexivity |]. split; [reflexivity |].
  split; [subst pages; now rewrite length_map |].
  split; [subst pages; now rewrite map_map |].
  intros screen vp Hvp. subst sizeOf. unfold viewportOf.
  rewrite Hvp. reflexivity.
Qed.

(** The scenario of the paginated export: views Login and Dashboard,
    destination out.pdf. *)
Lemma paginated_export_one_artifact_witness :
  let render name width height :=
    Demo.svgFor {| RenderOptions.width := width;
                   RenderOptions.height := height;
                   RenderOptions.theme := dark;
                   RenderOptions.includeLabels := true;
                   RenderOptions.screenName := name |} in
  exists w',
    exportToFormat (pathLib := Posix.lib) Demo.host (Demo.formatOf PDF)
      Demo.twoScreens Demo.layout dark "out.pdf" emptyWorld = (inr tt, w')
    /\ files w'
       = [PdfFile "out.pdf"
            [ {| Page.svg := render "Login" 800%N 600%N;
                 Page.width := 800; Page.height := 600;
                 Page.name := "Login" |};
              {| Page.svg := render "Dashboard" 1440%N 900%N;
                 Page.width := 1440; Page.height := 900;
                 Page.name := "Dashboard" |} ]].
Proof.
  destruct (paginated_export_one_artifact (pathLib := Posix.lib) Demo.host
              Demo.core Demo.svgFor (Demo.formatOf PDF) Demo.twoScreens
              Demo.layout dark "out.pdf" emptyWorld
              "/ext/node_modules/pdfkit/js/data/Helvetica.afm"
              (demo_cooperative Demo.twoScreens))
    as [w' [Hrun [Hfiles _]]].
  - reflexivity.
  - reflexivity.
  - simpl. lia.
  - exists w'. split; [exact Hrun | exact Hfiles].
Defined.

Lemma exportToFormat_fails_without_screens {pathLib : PathLib} :
  forall host format ir layout theme filePath w,
    List.length (screensOf ir) = 0 ->
    exists msg,
      exportToFormat host format ir layout theme filePath w = (inl msg, w)
      /\ (forall core, requireCore host = inr core ->
            msg = match ExportFormat.id format with
                  | SVG => "SVG export failed: "
                  | PDF => "PDF export failed: "
                  | PNG => "PNG export failed: "
                  end ++ "No screens found in project").
Proof.
  intros host format ir layout theme filePath w L.
  assert (E : screensOf ir = []) by (destruct (screensOf ir); [reflexivity | discriminate]).
  destruct (requireCore host) as [e | core] eqn:Hcore.
  - destruct (exportToFormat_core_missing host e format ir layout theme filePath w Hcore)
      as [msg Hmsg].
    exists msg. split; [exact Hmsg | intros core' H; discriminate].
  - eexists. split.
    + apply (exportToFormat_no_screens host core format ir layout theme filePath w Hcore E).
    + intros core' H. reflexivity.
Qed.

(** A normal return of an export needs at least one view. *)
Corollary export_success_needs_view {pathLib : PathLib} :
  forall host format ir layout theme filePath w w',
    exportToFormat host format ir layout theme filePath w = (inr tt, w') ->
    1 <= List.length (screensOf ir).
Proof.
  intros host format ir layout theme filePath w w' H.
  destruct (List.length (screensOf ir)) eqn:L; [| lia].
  destruct (exportToFormat_fails_without_screens host format ir layout theme
              filePath w L) as [msg [Hmsg _]].
  rewrite Hmsg in H. discriminate.
Qed.

(** C8.  Exporting a document without views fails in every format: the
    exporter throws, nothing is written and the world is as before; with
    the engine loaded the message is the format's prefix followed by
    "No screens found in project".  A normal return therefore needs a
    view ([export_success_needs_view]). *)
Theorem export_without_views_fails {pathLib : PathLib} :
  forall host format ir layout theme filePath w,
    List.length (screensOf ir) = 0 ->
    exists msg,
      exportToFormat host format ir layout theme filePath w = (inl msg, w)
      /\ (forall core, requireCore host = inr core ->
            msg = match ExportFormat.id format with
                  | SVG => "SVG export failed: "
                  | PDF => "PDF export failed: "
                  | PNG => "PNG export failed: "
                  end ++ "No screens found in project").
Proof. exact exportToFormat_fails_without_screens. Qed.

Lemma export_without_views_fails_witness :
  exists msg,
    exportToFormat (pathLib := Posix.lib) Demo.host (Demo.formatOf PDF)
      Demo.noScreens Demo.layout dark "/out/app.pdf" emptyWorld
    = (inl msg, emptyWorld)
    /\ (forall core, requireCore Demo.host = inr core ->
          msg = "PDF export failed: " ++ "No screens found in project").
Proof.
  apply (export_without_views_fails (pathLib := Posix.lib) Demo.host
           (Demo.formatOf PDF) Demo.noScreens Demo.layout dark
           "/out/app.pdf" emptyWorld).
  reflexivity.
Defined.

(* ===================================================================== *)
(** * WirePreviewPanel: what a render pass leaves alone *)
(* ===================================================================== *)

Module PanelFacts.
Import WirePreviewPanel.

Lemma updates_app a b : updates (a ++ b) = (updates a ++ updates b)%list.
Proof.
  induction a as [|c a IH]; simpl; [reflexivity |].
  destruct c; simpl; now rewrite ?IH.
Qed.

Lemma parses_app a b : parses (a ++ b) = (parses a ++ parses b)%list.
Proof.
  induction a as [|c a IH]; simpl; [reflexivity |].
  destruct c; simpl; now rewrite ?IH.
Qed.

Lemma Frame_refl s : Frame s s.
Proof. constructor; reflexivity. Qed.

Lemma Frame_trans s1 s2 s3 : Frame s1 s2 -> Frame s2 s3 -> Frame s1 s3.
Proof.
  intros [a1 a2 a3 a4 a5 a6 a7] [b1 b2 b3 b4 b5 b6 b7].
  constructor; congruence.
Qed.

Section Preservation.

Context {S : Type} (R : S -> S -> Prop).
Hypothesis R_refl : forall s, R s s.
Hypothesis R_trans : forall s1 s2 s3, R s1 s2 -> R s2 s3 -> R s1 s3.

Lemma preserves_ret {A} (a : A) : preserves R (ret a).
Proof. intros s. apply R_refl. Qed.

Lemma preserves_throw {A} msg : preserves R (@throw S A msg).
Proof. intros s. apply R_refl. Qed.

Lemma preserves_lift {A} (r : result A) : preserves R (lift r).
Proof. intros s. apply R_refl. Qed.

Lemma preserves_gets {A} (f : S -> A) : preserves R (gets f).
Proof. intros s. apply R_refl. Qed.

Lemma preserves_modify (f : S -> S) :
  (forall s, R s (f s)) -> preserves R (modify f).
Proof. intros H s. apply H. Qed.

Lemma preserves_bind {A B} (c : Eff S A) (k : A -> Eff S B) :
  preserves R c -> (forall a, preserves R (k a)) -> preserves R (bind c k).
Proof.
  intros Hc Hk s. unfold bind. specialize (Hc s).
  destruct (c s) as [[e | a] s']; simpl in *; [exact Hc |].
  eapply R_trans; [exact Hc | apply Hk].
Qed.

Lemma preserves_tryCatch {A} (c : Eff S A) (h : string -> Eff S A) :
  preserves R c -> (forall e, preserves R (h e)) -> preserves R (tryCatch c h).
Proof.
  intros Hc Hh s. unfold tryCatch. specialize (Hc s).
  destruct (c s) as [[e | a] s']; simpl in *; [| exact Hc].
  eapply R_trans; [exact Hc | apply Hh].
Qed.

End Preservation.

(** A change of the panel that keeps the handle of the debounce timer. *)
Lemma updatePanel_Frame f :
  (forall p, debounceTimer (f p) = debounceTimer p
             /\ currentTheme (f p) = currentTheme p) ->
  preserves Frame (updatePanel f).
Proof. intros H s. constructor; simpl; auto; apply H. Qed.

Lemma record_Frame c : preserves Frame (record c).
Proof. intros s. constructor; reflexivity. Qed.

Lemma call_Frame {A} c (r : result A) : preserves Frame (call c r).
Proof.
  apply (preserves_bind Frame Frame_trans); [apply record_Frame |].
  intros _. apply (preserves_lift Frame Frame_refl).
Qed.

Lemma showError_Frame msg : preserves Frame (showError msg).
Proof. apply updatePanel_Frame. intros p. split; reflexivity. Qed.

(** One step of the proof that a computation preserves [Frame]. *)
Ltac frame_step :=
  first
    [ apply (preserves_bind Frame Frame_trans); [| intros ?]
    | apply (preserves_tryCatch Frame Frame_trans); [| intros ?]
    | apply (preserves_ret Frame Frame_refl)
    | apply (preserves_throw Frame Frame_refl)
    | apply (preserves_lift Frame Frame_refl)
    | apply (preserves_gets Frame Frame_refl)
    | apply call_Frame
    | apply record_Frame
    | apply showError_Frame
    | apply updatePanel_Frame; intros ?; split; reflexivity
    | match goal with
      | |- preserves _ (match ?x with _ => _ end) => destruct x
      end ].

(** A render pass neither sets nor clears a timer, whatever the engine
    answers. *)
Lemma updatePreview_Frame host content :
  preserves Frame (updatePreview host content).
Proof.
  unfold updatePreview, loadCoreModule, renderPipeline, createHtmlWithSvg,
    getPanel.
  repeat frame_step.
Qed.

Lemma Quiet_refl s : Quiet s s.
Proof. constructor; reflexivity. Qed.

Lemma Quiet_trans s1 s2 s3 : Quiet s1 s2 -> Quiet s2 s3 -> Quiet s1 s3.
Proof. intros [a1 a2] [b1 b2]. constructor; congruence. Qed.

Lemma updatePanel_Quiet f :
  (forall p, lastContent (f p) = lastContent p) ->
  preserves Quiet (updatePanel f).
Proof. intros H s. constructor; simpl; auto. Qed.

Lemma record_Quiet c : updates [c] = [] -> preserves Quiet (record c).
Proof.
  intros H s. constructor; simpl; [| reflexivity].
  rewrite updates_app, H. apply app_nil_r.
Qed.

Lemma call_Quiet {A} c (r : result A) :
  updates [c] = [] -> preserves Quiet (call c r).
Proof.
  intros H. apply (preserves_bind Quiet Quiet_trans); [now apply record_Quiet |].
  intros _. apply (preserves_lift Quiet Quiet_refl).
Qed.

Ltac quiet_step :=
  first
    [ apply (preserves_bind Quiet Quiet_trans); [| intros ?]
    | apply (preserves_tryCatch Quiet Quiet_trans); [| intros ?]
    | apply (preserves_ret Quiet Quiet_refl)
    | apply (preserves_throw Quiet Quiet_refl)
    | apply (preserves_lift Quiet Quiet_refl)
    | apply (preserves_gets Quiet Quiet_refl)
    | apply call_Quiet; reflexivity
    | apply updatePanel_Quiet; reflexivity
    | match goal with
      | |- preserves _ (match ?x with _ => _ end) => destruct x
      end ].

(** A computation that starts as [updatePreview] does: the entry is
    recorded and the content is stored. *)
Lemma entered (rest : Eff Session unit) content s :
  preserves Quiet rest ->
  let s' := snd (bind (record (UpdatePreviewCall content))
                   (fun _ => bind (updatePanel (set_lastContent content))
                               (fun _ => rest)) s) in
  updates (trace s') = (updates (trace s) ++ [content])%list
  /\ lastContent (panel s') = content.
Proof.
  intros H s'. subst s'. unfold bind, record, updatePanel, modify. simpl.
  destruct (H (set_panel (set_lastContent content (panel s))
                 (set_trace (trace s ++ [UpdatePreviewCall content]) s)))
    as [Hu Hc].
  rewrite Hu, Hc. simpl. rewrite updates_app. split; reflexivity.
Qed.

(** Every render pass is entered once, with its content, and stores
    it. *)
Lemma updatePreview_entered host content s :
  let s' := run (updatePreview host content) s in
  updates (trace s') = (updates (trace s) ++ [content])%list
  /\ lastContent (panel s') = content.
Proof.
  unfold run, updatePreview. apply entered.
  unfold loadCoreModule, renderPipeline, createHtmlWithSvg, getPanel, showError.
  repeat quiet_step.
Qed.

(** A computation that never throws. *)
Lemma returns_bind {S A B} (c : Eff S A) (k : A -> Eff S B) :
  (forall s, exists a, fst (c s) = inr a) ->
  (forall a s, exists b, fst (k a s) = inr b) ->
  forall s, exists b, fst (bind c k s) = inr b.
Proof.
  intros Hc Hk s. unfold bind. destruct (Hc s) as [a Ha].
  destruct (c s) as [[e | a'] s']; simpl in Ha; [discriminate |].
  apply Hk.
Qed.

Lemma returns_tryCatch {S A} (c : Eff S A) (h : string -> Eff S A) :
  (forall e s, exists a, fst (h e s) = inr a) ->
  forall s, exists a, fst (tryCatch c h s) = inr a.
Proof.
  intros Hh s. unfold tryCatch.
  destruct (c s) as [[e | a] s']; [apply Hh | now exists a].
Qed.

(** [updatePreview] catches what it throws. *)
Lemma updatePreview_returns host content s :
  fst (updatePreview host content s) = inr tt.
Proof.
  assert (H : exists u, fst (updatePreview host content s) = inr u).
  { unfold updatePreview.
    apply returns_bind; [intros; now eexists |]. intros _.
    apply returns_bind; [intros; now eexists |]. intros _.
    apply returns_bind; [intros; now eexists |]. intros activeEditor.
    apply returns_bind.
    - intros s0. destruct activeEditor as [d |]; [destruct (isWire d) |];
        now eexists.
    - intros _. apply returns_tryCatch. intros; now eexists. }
  destruct H as [[] H]. exact H.
Qed.

End PanelFacts.

(* ===================================================================== *)
(** * WirePreviewPanel: a render pass, stage by stage *)
(* ===================================================================== *)

Module PassFacts.
Import WirePreviewPanel.

(** The equations a computation is run with, one statement at a time. *)
Section Laws.

Context {S A B : Type}.

Lemma bind_modify (f : S -> S) (k : unit -> Eff S B) s :
  bind (modify f) k s = k tt (f s).
Proof. reflexivity. Qed.

Lemma bind_gets (f : S -> A) (k : A -> Eff S B) s :
  bind (gets f) k s = k (f s) s.
Proof. reflexivity. Qed.

Lemma bind_ret (a : A) (k : A -> Eff S B) s : bind (ret a) k s = k a s.
Proof. reflexivity. Qed.

Lemma bind_lift_inr (a : A) (k : A -> Eff S B) s :
  bind (lift (inr a)) k s = k a s.
Proof. reflexivity. Qed.

Lemma bind_lift_inl e (k : A -> Eff S B) s :
  bind (@lift S A (inl e)) k s = (inl e, s).
Proof. reflexivity. Qed.

Lemma bind_assoc {C} (c : Eff S A) (k1 : A -> Eff S B) (k2 : B -> Eff S C) s :
  bind (bind c k1) k2 s = bind c (fun a => bind (k1 a) k2) s.
Proof. unfold bind. destruct (c s) as [[e | a] s']; reflexivity. Qed.

Lemma tryCatch_eq (c : Eff S A) (h : string -> Eff S A) s r s' :
  c s = (r, s') ->
  tryCatch c h s = match r with inl e => h e s' | inr a => (inr a, s') end.
Proof. intros E. unfold tryCatch. now rewrite E. Qed.

End Laws.

(** Brings the session back to a record of its fields. *)
Ltac proj :=
  unfold set_coreModule, set_debounceTimer, set_currentTheme, set_lastContent,
    set_availableScreens, set_selectedScreen, set_lastIR, set_lastLayout,
    set_currentFilePath, set_html,
    set_panel, set_activeTextEditor, set_clock, set_timers, set_nextTimerId,
    set_trace, set_world;
  cbn [coreModule debounceTimer currentTheme lastContent availableScreens
       selectedScreen lastIR lastLayout currentFilePath html
       panel activeTextEditor clock timers nextTimerId trace world fst snd
       Str.truthy negb andb Nat.ltb Nat.leb List.length List.hd].

Ltac rewrite_known :=
  match goal with
  | H : ?l = _ |- context [?l] => rewrite H
  end.

(** Runs one statement. *)
Ltac eff_step :=
  first [ rewrite bind_modify | rewrite bind_gets | rewrite bind_ret
        | rewrite bind_lift_inr | rewrite bind_lift_inl | rewrite bind_assoc
        | rewrite_known ];
  cbv beta; proj.

Ltac unfold_wrappers :=
  unfold getPanel, updatePanel, record, call, showError, createHtmlWithSvg;
  unfold getPanel, updatePanel, record, call, showError, createHtmlWithSvg.

Ltac finish_eff := unfold modify, ret, lift, throw; cbv beta; proj.

(** Compares the session reached with the one stated, which is unfolded
    from the inside. *)
Ltac same_session :=
  unfold enter, selectedAfter, pathAfter; proj;
  unfold withCore; proj; unfold withIR, selectedAfter; proj;
  unfold withLayout; proj; unfold addCalls; proj; unfold withHtml; proj;
  repeat (rewrite_known; proj);
  rewrite <- ?app_assoc; cbn [app]; reflexivity.

Section Pipeline.

Variable core : Core.
Variables (parse : string -> result AST) (gen : AST -> result IR.t).
Variables (lay : IR.t -> result Layout).
Variable ren : IR.t -> Layout -> RenderOptions.t -> result (option string).
Variable content : string.
Variable s : Session.

Hypothesis Hex : Exports core parse gen lay ren.

Ltac pipeline :=
  destruct Hex as [Hp Hg Hl Hr];
  unfold renderPipeline; rewrite Hp, Hg, Hl, Hr; unfold_wrappers;
  repeat eff_step; finish_eff; same_session.

(** Decides whether the pipeline initializes the selection. *)
Ltac selection ir :=
  unfold passOptions, selectedAfter;
  destruct (selectedScreen (panel s)) eqn:Hsel;
  [destruct (screenNames ir) eqn:Hnames |];
  cbn [Str.truthy List.hd]; intros.

Lemma pipeline_parse_fails e :
  parse content = inl e ->
  renderPipeline core content s = (inl e, addCalls [ParseCall content] s).
Proof. intros H1. pipeline. Qed.

Lemma pipeline_generate_fails ast e :
  parse content = inr ast -> gen ast = inl e ->
  renderPipeline core content s
  = (inl e, addCalls [ParseCall content; GenerateIRCall ast] s).
Proof. intros H1 H2. pipeline. Qed.

Lemma pipeline_layout_fails ast ir e :
  parse content = inr ast -> gen ast = inr ir -> lay ir = inl e ->
  renderPipeline core content s
  = (inl e,
     addCalls [ParseCall content; GenerateIRCall ast; LayoutCall ir]
       (withIR ir s)).
Proof. selection ir; pipeline. Qed.

Lemma pipeline_render_fails ast ir layout e :
  parse content = inr ast -> gen ast = inr ir -> lay ir = inr layout ->
  ren ir layout (passOptions s ir) = inl e ->
  renderPipeline core content s
  = (inl e,
     addCalls [ParseCall content; GenerateIRCall ast; LayoutCall ir;
               RenderCall ir layout (passOptions s ir)]
       (withLayout layout (withIR ir s))).
Proof. selection ir; pipeline. Qed.

Lemma pipeline_invalid_output ast ir layout out :
  parse content = inr ast -> gen ast = inr ir -> lay ir = inr layout ->
  ren ir layout (passOptions s ir) = inr out ->
  match out with Some svg => Str.truthy svg = false | None => True end ->
  renderPipeline core content s
  = (inr tt,
     withHtml (ErrorPage (Str.escapeHtml "SVG renderer returned invalid output"))
       (addCalls [ParseCall content; GenerateIRCall ast; LayoutCall ir;
                  RenderCall ir layout (passOptions s ir)]
          (withLayout layout (withIR ir s)))).
Proof. destruct out as [svg |]; selection ir; pipeline. Qed.

Lemma pipeline_renders ast ir layout svg :
  parse content = inr ast -> gen ast = inr ir -> lay ir = inr layout ->
  ren ir layout (passOptions s ir) = inr (Some svg) ->
  Str.truthy svg = true ->
  renderPipeline core content s
  = (inr tt,
     withHtml
       (PreviewPage (ensureDimensions svg) (screenNames ir)
          (selectedAfter (selectedScreen (panel s)) (screenNames ir))
          (currentTheme (panel s)))
       (addCalls [ParseCall content; GenerateIRCall ast; LayoutCall ir;
                  RenderCall ir layout (passOptions s ir)]
          (withLayout layout (withIR ir s)))).
Proof. selection ir; pipeline. Qed.

End Pipeline.

Section Pass.

Variables (host : Host) (content : string) (s : Session).

(** With the engine at hand, a pass is its pipeline, run in the [try]
    from the session it entered with. *)
Lemma updatePreview_ready core :
  coreFor host s = inr core ->
  updatePreview host content s
  = tryCatch (renderPipeline core content) (fun msg => showError msg)
      (withCore core (enter content s)).
Proof.
  unfold coreFor. intros H.
  unfold updatePreview, loadCoreModule, tryCatch. unfold_wrappers.
  unfold withCore, enter, addCalls, pathAfter.
  destruct s as [p ed ck tm nid tr wd];
  destruct p as [cm dt th lc av sel lir ll cfp h].
  cbn [coreModule panel] in H. proj.
  destruct ed as [d |]; [destruct (isWire d) eqn:Hw |];
    (destruct cm as [c0 |]; [inversion H; subst c0 |]);
    repeat eff_step; reflexivity.
Qed.

Lemma updatePreview_load_fails e :
  coreFor host s = inl e ->
  updatePreview host content s
  = (inr tt,
     withHtml (ErrorPage (Str.escapeHtml ("Failed to load @wire-dsl/core: " ++ e)))
       (enter content s)).
Proof.
  unfold coreFor. intros H.
  unfold updatePreview, loadCoreModule, tryCatch. unfold_wrappers.
  unfold enter, addCalls, pathAfter.
  destruct s as [p ed ck tm nid tr wd];
  destruct p as [cm dt th lc av sel lir ll cfp h].
  cbn [coreModule panel] in H. proj. unfold withHtml. proj.
  destruct cm as [c0 |]; [discriminate |].
  destruct ed as [d |]; [destruct (isWire d) eqn:Hw |];
    repeat eff_step; finish_eff; reflexivity.
Qed.

Variables (core : Core).
Variables (parse : string -> result AST) (gen : AST -> result IR.t).
Variables (lay : IR.t -> result Layout).
Variable ren : IR.t -> Layout -> RenderOptions.t -> result (option string).

Hypothesis Hcore : coreFor host s = inr core.
Hypothesis Hex : Exports core parse gen lay ren.

(** The session after the pass. *)
Local Abbreviation s' := (run (updatePreview host content) s).

(** Runs the pass with the equation [E] of its pipeline, then reads the
    fields of the session it ends in. *)
Ltac pass E :=
  unfold passOptions, run;
  rewrite (updatePreview_ready core Hcore);
  erewrite tryCatch_eq by (eapply E; eassumption);
  cbv beta iota; unfold showError, updatePanel; finish_eff;
  unfold enter, selectedAfter, pathAfter; proj;
  unfold withCore; proj; unfold withIR, selectedAfter; proj;
  unfold withLayout; proj; unfold addCalls; proj; unfold withHtml; proj;
  rewrite <- ?app_assoc; cbn [app];
  repeat match goal with |- _ /\ _ => split end; reflexivity.

Lemma pass_parse_fails e :
  parse content = inl e ->
  lastIR (panel s') = lastIR (panel s)
  /\ lastLayout (panel s') = lastLayout (panel s)
  /\ availableScreens (panel s') = availableScreens (panel s)
  /\ selectedScreen (panel s') = selectedScreen (panel s)
  /\ html (panel s') = ErrorPage (Str.escapeHtml e)
  /\ trace s' = (trace s ++ [UpdatePreviewCall content; ParseCall content])%list.
Proof. intros H1. pass pipeline_parse_fails. Qed.

Lemma pass_generate_fails ast e :
  parse content = inr ast -> gen ast = inl e ->
  lastIR (panel s') = lastIR (panel s)
  /\ lastLayout (panel s') = lastLayout (panel s)
  /\ availableScreens (panel s') = availableScreens (panel s)
  /\ selectedScreen (panel s') = selectedScreen (panel s)
  /\ html (panel s') = ErrorPage (Str.escapeHtml e)
  /\ trace s'
     = (trace s ++ [UpdatePreviewCall content; ParseCall content;
                    GenerateIRCall ast])%list.
Proof. intros H1 H2. pass pipeline_generate_fails. Qed.

Lemma pass_layout_fails ast ir e :
  parse content = inr ast -> gen ast = inr ir -> lay ir = inl e ->
  lastIR (panel s') = Some ir
  /\ lastLayout (panel s') = lastLayout (panel s)
  /\ availableScreens (panel s') = screenNames ir
  /\ selectedScreen (panel s')
     = selectedAfter (selectedScreen (panel s)) (screenNames ir)
  /\ html (panel s') = ErrorPage (Str.escapeHtml e)
  /\ trace s'
     = (trace s ++ [UpdatePreviewCall content; ParseCall content;
                    GenerateIRCall ast; LayoutCall ir])%list.
Proof. intros H1 H2 H3. pass pipeline_layout_fails. Qed.

Lemma pass_render_fails ast ir layout e :
  parse content = inr ast -> gen ast = inr ir -> lay ir = inr layout ->
  ren ir layout (passOptions s ir) = inl e ->
  lastIR (panel s') = Some ir
  /\ lastLayout (panel s') = Some layout
  /\ availableScreens (panel s') = screenNames ir
  /\ selectedScreen (panel s')
     = selectedAfter (selectedScreen (panel s)) (screenNames ir)
  /\ html (panel s') = ErrorPage (Str.escapeHtml e)
  /\ trace s'
     = (trace s ++ [UpdatePreviewCall content; ParseCall content;
                    GenerateIRCall ast; LayoutCall ir;
                    RenderCall ir layout (passOptions s ir)])%list.
Proof. intros H1 H2 H3 H4. pass pipeline_render_fails. Qed.

Lemma pass_invalid_output ast ir layout out :
  parse content = inr ast -> gen ast = inr ir -> lay ir = inr layout ->
  ren ir layout (passOptions s ir) = inr out ->
  match out with Some svg => Str.truthy svg = false | None => True end ->
  lastIR (panel s') = Some ir
  /\ lastLayout (panel s') = Some layout
  /\ availableScreens (panel s') = screenNames ir
  /\ selectedScreen (panel s')
     = selectedAfter (selectedScreen (panel s)) (screenNames ir)
  /\ html (panel s')
     = ErrorPage (Str.escapeHtml "SVG renderer returned invalid output").
Proof. intros H1 H2 H3 H4 H5. pass pipeline_invalid_output. Qed.

Lemma pass_renders ast ir layout svg :
  parse content = inr ast -> gen ast = inr ir -> lay ir = inr layout ->
  ren ir layout (passOptions s ir) = inr (Some svg) ->
  Str.truthy svg = true ->
  lastIR (panel s') = Some ir
  /\ lastLayout (panel s') = Some layout
  /\ availableScreens (panel s') = screenNames ir
  /\ selectedScreen (panel s')
     = selectedAfter (selectedScreen (panel s)) (screenNames ir)
  /\ html (panel s')
     = PreviewPage (ensureDimensions svg) (screenNames ir)
         (selectedAfter (selectedScreen (panel s)) (screenNames ir))
         (currentTheme (panel s))
  /\ trace s'
     = (trace s ++ [UpdatePreviewCall content; ParseCall content;
                    GenerateIRCall ast; LayoutCall ir;
                    RenderCall ir layout (passOptions s ir)])%list.
Proof. intros H1 H2 H3 H4 H5. pass pipeline_renders. Qed.

(** Once the IR is there, the list of screens and the selection are
    settled, whatever the later stages do. *)
Lemma pass_after_ir ast ir :
  parse content = inr ast -> gen ast = inr ir ->
  lastIR (panel s') = Some ir
  /\ availableScreens (panel s') = screenNames ir
  /\ selectedScreen (panel s')
     = selectedAfter (selectedScreen (panel s)) (screenNames ir).
Proof.
  intros H1 H2.
  destruct (lay ir) as [e | layout] eqn:H3.
  { destruct (pass_layout_fails ast ir e H1 H2 H3) as [A [_ [B [C _]]]]. auto. }
  destruct (ren ir layout (passOptions s ir)) as [e | out] eqn:H4.
  { destruct (pass_render_fails ast ir layout e H1 H2 H3 H4) as [A [_ [B [C _]]]].
    auto. }
  destruct out as [svg |].
  - destruct (Str.truthy svg) eqn:H5.
    + destruct (pass_renders ast ir layout svg H1 H2 H3 H4 H5) as [A [_ [B [C _]]]].
      auto.
    + destruct (pass_invalid_output ast ir layout (Some svg) H1 H2 H3 H4 H5)
        as [A [_ [B [C _]]]].
      auto.
  - destruct (pass_invalid_output ast ir layout None H1 H2 H3 H4 I)
      as [A [_ [B [C _]]]].
    auto.
Qed.


End Pass.

Section AnyEngine.

Variables (host : Host) (content : string) (s : Session).

Local Abbreviation s' := (run (updatePreview host content) s).

Lemma pass_load_fails e :
  coreFor host s = inl e ->
  lastIR (panel s') = lastIR (panel s)
  /\ lastLayout (panel s') = lastLayout (panel s)
  /\ html (panel s')
     = ErrorPage (Str.escapeHtml ("Failed to load @wire-dsl/core: " ++ e))
  /\ trace s' = (trace s ++ [UpdatePreviewCall content])%list.
Proof.
  intros H. unfold run. rewrite (updatePreview_load_fails host content s e H).
  unfold enter, pathAfter; proj; unfold addCalls; proj; unfold withHtml; proj.
  repeat split.
Qed.

Lemma pipeline_missing_exports core s0 :
  match parseWireDSL core, generateIR core,
        calculateLayout core, renderToSVG core with
  | Some _, Some _, Some _, Some _ => False
  | _, _, _, _ => True
  end ->
  renderPipeline core content s0
  = (inr tt,
     withHtml (ErrorPage (Str.escapeHtml "Core module missing required exports"))
       s0).
Proof.
  intros H. unfold renderPipeline.
  destruct (parseWireDSL core), (generateIR core), (calculateLayout core),
    (renderToSVG core); try contradiction; reflexivity.
Qed.


End AnyEngine.

End PassFacts.

(* ===================================================================== *)
(** * The injection of the dimensions *)
(* ===================================================================== *)

Module SvgFacts.
Import Str WirePreviewPanel.

Lemma prefix_app p a b : prefix p a = true -> prefix p (a ++ b) = true.
Proof.
  revert a. induction p as [|c p IH]; intros a H.
  - destruct (a ++ b); reflexivity.
  - destruct a as [|d a]; simpl in *; [discriminate |].
    destruct (ascii_dec c d); [now apply IH | discriminate].
Qed.

Lemma includes_app_l p a b : includes p a = true -> includes p (a ++ b) = true.
Proof.
  induction a as [|c a IH]; intros H.
  - simpl in H. rewrite orb_false_r in H.
    destruct p; [| simpl in H; discriminate].
    destruct b; reflexivity.
  - simpl in H. apply orb_true_iff in H as [H | H].
    + change (String c a ++ b) with (String c (a ++ b)) in *.
      simpl. apply orb_true_iff. left.
      apply (prefix_app p (String c a) b H).
    + simpl. apply orb_true_iff. right. now apply IH.
Qed.

Lemma includes_app_r p a b : includes p b = true -> includes p (a ++ b) = true.
Proof.
  intros H. induction a as [|c a IH]; simpl; [exact H |].
  apply orb_true_iff. now right.
Qed.

Lemma splitAtGt_shape s a b :
  splitAtGt s = Some (a, b) -> s = a ++ ">" ++ b.
Proof.
  revert a. induction s as [|c s IH]; intros a H; simpl in H; [discriminate |].
  destruct (Ascii.eqb c ">") eqn:E.
  - apply Ascii.eqb_eq in E. inversion H; subst. reflexivity.
  - destruct (splitAtGt s) as [[a' b'] |]; [| discriminate].
    inversion H; subst. simpl. f_equal. now apply IH.
Qed.

Lemma prefix_drop p s : prefix p s = true -> s = p ++ drop (String.length p) s.
Proof.
  revert s. induction p as [|c p IH]; intros s H; [reflexivity |].
  destruct s as [|d s]; simpl in *; [discriminate |].
  destruct (ascii_dec c d); [| discriminate].
  subst. f_equal. now apply IH.
Qed.

Lemma matchSvgTagHere_shape s attrs rest :
  matchSvgTagHere s = Some (attrs, rest) ->
  s = "<svg" ++ attrs ++ ">" ++ rest.
Proof.
  unfold matchSvgTagHere. intros H.
  destruct (prefix "<svg" s) eqn:P; [| discriminate].
  apply prefix_drop in P. apply splitAtGt_shape in H.
  rewrite P at 1. simpl String.length. now rewrite H.
Qed.

(** Where the pattern matches, the attributes go in before the [>] that
    closes the first match; everything else stays. *)
Lemma injectDimensions_shape s :
  hasSvgTag s = true ->
  exists before attrs rest,
    s = before ++ "<svg" ++ attrs ++ ">" ++ rest
    /\ injectDimensions s
       = before ++ "<svg" ++ attrs ++ dimensionAttributes ++ ">" ++ rest.
Proof.
  induction s as [|c s IH]; intros H.
  - simpl in H. discriminate.
  - cbn [hasSvgTag injectDimensions] in *.
    destruct (matchSvgTagHere (String c s)) as [[attrs rest] |] eqn:E.
    + exists EmptyString, attrs, rest. split; [| reflexivity].
      now apply matchSvgTagHere_shape.
    + destruct (IH H) as [before [attrs [rest [Hs Hi]]]].
      exists (String c before), attrs, rest. simpl. split; now f_equal.
Qed.

Lemma injectDimensions_no_tag s :
  hasSvgTag s = false -> injectDimensions s = s.
Proof.
  induction s as [|c s IH]; intros H; [reflexivity |].
  cbn [hasSvgTag injectDimensions] in *.
  destruct (matchSvgTagHere (String c s)) as [[attrs rest] |]; [discriminate |].
  f_equal. now apply IH.
Qed.

Lemma injected_declares before attrs rest :
  declaresDimensions
    (before ++ "<svg" ++ attrs ++ dimensionAttributes ++ ">" ++ rest) = true.
Proof.
  unfold declaresDimensions. apply andb_true_iff. split.
  - do 3 apply includes_app_r. apply includes_app_l. reflexivity.
  - do 3 apply includes_app_r. apply includes_app_l. reflexivity.
Qed.

Lemma ensureDimensions_declared svg :
  declaresDimensions svg = true -> ensureDimensions svg = svg.
Proof.
  unfold declaresDimensions, ensureDimensions. intros H.
  apply andb_true_iff in H as [Hw Hh]. now rewrite Hw, Hh.
Qed.

Lemma ensureDimensions_undeclared svg :
  declaresDimensions svg = false -> ensureDimensions svg = injectDimensions svg.
Proof.
  unfold declaresDimensions, ensureDimensions. intros H.
  apply andb_false_iff in H as [H | H]; rewrite H; simpl;
    [reflexivity | now rewrite orb_true_r].
Qed.

End SvgFacts.

(* ===================================================================== *)
(** * The debounce timer *)
(* ===================================================================== *)

Module DebounceFacts.
Import WirePreviewPanel.

Lemma filter_nothing {A} (f : A -> bool) (l : list A) :
  (forall x, In x l -> f x = false) -> List.filter f l = [].
Proof.
  induction l as [|x l IH]; intros H; simpl; [reflexivity |].
  rewrite (H x) by now left. apply IH. intros y Hy. apply H. now right.
Qed.

Lemma last_default {A} (l : list A) (x d1 d2 : A) :
  List.last (x :: l) d1 = List.last (x :: l) d2.
Proof.
  revert x. induction l as [|y l IH]; intros x; [reflexivity |].
  change (List.last (y :: l) d1 = List.last (y :: l) d2). apply IH.
Qed.

Lemma last_cons {A} (l : list A) (x d : A) :
  List.last (x :: l) d = List.last l x.
Proof.
  destruct l as [|y l]; [reflexivity |].
  change (List.last (y :: l) d = List.last (y :: l) x). apply last_default.
Qed.

Section WithHost.

Context {pathLib : PathLib}.
Variables (host : Host) (user : User).

(** Time passes and no timer is due. *)
Lemma advance_nothing_due now s :
  (forall tm, In tm (timers s) -> (now < due tm)%N) ->
  advance host now s = set_clock (N.max (clock s) now) s.
Proof.
  intros H. unfold advance.
  rewrite filter_nothing; [reflexivity |].
  intros tm Htm. apply N.leb_gt. now apply H.
Qed.

(** An edit of the active document, at a time when no timer is due and
    every pending timer is the one the panel holds the handle of: the
    pending render is replaced by one for the new text, 300 ms ahead.
    Nothing is rendered. *)
Lemma step_edit s t d dOld :
  activeTextEditor s = Some dOld ->
  Document.id d = Document.id dOld ->
  isWire d = true ->
  (clock s <= t)%N ->
  (forall tm, In tm (timers s) ->
     (t < due tm)%N /\ debounceTimer (panel s) = Some (timerId tm)) ->
  step host user s (t, DidChangeTextDocument d)
  = set_panel (set_debounceTimer (Some (nextTimerId s)) (panel s))
      (set_nextTimerId (S (nextTimerId s))
         (set_timers
            [ {| timerId := nextTimerId s; due := (t + 300)%N;
                 timerContent := Document.text d |} ]
            (set_activeTextEditor (Some d) (set_clock t s)))).
Proof.
  intros Hed Hid Hwire Hclock Htimers.
  unfold step. rewrite advance_nothing_due by (intros tm Htm; now apply Htimers).
  rewrite N.max_r by exact Hclock.
  destruct s as [p ed ck tms nid tr wd]. simpl in *. subst ed.
  unfold hostEffect, sameDocument. simpl.
  rewrite Hid, N.eqb_refl.
  unfold listener, onDidChangeTextDocument, run, bind, gets. simpl.
  unfold sameDocument. rewrite N.eqb_refl, Hwire. simpl.
  unfold updatePreviewDebounced, bind, getPanel, gets, clearTimeout,
    setTimeout, updatePanel, modify, ret. simpl.
  destruct (debounceTimer p) as [id |] eqn:Hdt; simpl.
  - rewrite filter_nothing; [reflexivity |].
    intros tm Htm. destruct (Htimers tm Htm) as [_ Hh].
    inversion Hh; subst. now rewrite Nat.eqb_refl.
  - destruct tms as [|tm tms]; [reflexivity |].
    destruct (Htimers tm (or_introl eq_refl)) as [_ Hh]. discriminate.
Qed.

(** The state an edit leaves: its render is pending, alone. *)
Lemma step_edit_armed s t d dOld :
  activeTextEditor s = Some dOld ->
  Document.id d = Document.id dOld ->
  isWire d = true ->
  (clock s <= t)%N ->
  (forall tm, In tm (timers s) ->
     (t < due tm)%N /\ debounceTimer (panel s) = Some (timerId tm)) ->
  let s' := step host user s (t, DidChangeTextDocument d) in
  Armed s' t d /\ trace s' = trace s
  /\ lastContent (panel s') = lastContent (panel s)
  /\ world s' = world s.
Proof.
  intros Hed Hid Hwire Hclock Htimers s'. subst s'.
  rewrite (step_edit s t d dOld Hed Hid Hwire Hclock Htimers).
  split; [| repeat split].
  exists (nextTimerId s). repeat split.
Qed.

Lemma Armed_timers s t d tm now :
  Armed s t d -> (now < t + 300)%N -> In tm (timers s) ->
  (now < due tm)%N /\ debounceTimer (panel s) = Some (timerId tm).
Proof.
  intros [id [Ht [Hd _]]] Hnow Hin. rewrite Ht in Hin.
  destruct Hin as [<- | []]. simpl. split; [exact Hnow | exact Hd].
Qed.

(** A burst that starts with a render pending: after it, the render of
    its last edit is pending, and nothing was rendered. *)
Lemma burst_keeps_armed edits :
  forall s tPrev dPrev,
    Armed s tPrev dPrev ->
    Burst (Document.id dPrev) false tPrev edits ->
    let s' := runEvents host user (List.map edit edits) s in
    Armed s' (fst (List.last edits (tPrev, dPrev)))
             (snd (List.last edits (tPrev, dPrev)))
    /\ trace s' = trace s
    /\ lastContent (panel s') = lastContent (panel s)
    /\ world s' = world s.
Proof.
  induction edits as [|[t d] more IH]; intros s tPrev dPrev Harmed Hburst.
  - simpl. repeat split. exact Harmed.
  - destruct Hburst as [Hid [Hwire [Hle [Hlt Hmore]]]].
    specialize (Hlt eq_refl).
    assert (Hed : activeTextEditor s = Some dPrev)
      by (destruct Harmed as [id [_ [_ [_ H]]]]; exact H).
    assert (Hck : clock s = tPrev)
      by (destruct Harmed as [id [_ [_ [H _]]]]; exact H).
    destruct (step_edit_armed s t d dPrev Hed Hid Hwire) as [Ha [Htr [Hlc Hw]]].
    + rewrite Hck. exact Hle.
    + intros tm Htm. now apply (Armed_timers s tPrev dPrev).
    + rewrite <- Hid in Hmore.
      destruct (IH _ t d Ha Hmore) as [Ha' [Htr' [Hlc' Hw']]].
      cbn [List.map runEvents List.fold_left].
      change (step host user s (edit (t, d)))
        with (step host user s (t, DidChangeTextDocument d)).
      unfold runEvents in *.
      rewrite last_cons.
      repeat split; try assumption; congruence.
Qed.

(** A timer fires: it leaves the pending ones, then its callback runs. *)
Lemma fire_runs tm s :
  run (fire host tm) s
  = run (updatePreview host (timerContent tm))
      (set_timers
         (List.filter (fun t => negb (timerId t =? timerId tm)%nat) (timers s))
         (set_clock (N.max (clock s) (due tm)) s)).
Proof. reflexivity. Qed.

(** The pending render comes due: it is the one render that happens,
    with the text of the edit that armed it. *)
Lemma armed_fires s t d now :
  Armed s t d -> (t + 300 <= now)%N ->
  let s' := advance host now s in
  timers s' = []
  /\ updates (trace s') = (updates (trace s) ++ [Document.text d])%list
  /\ lastContent (panel s') = Document.text d.
Proof.
  intros [id [Ht [Hd [Hck Hed]]]] Hnow s'. subst s'.
  unfold advance. rewrite Ht. cbn [List.filter due].
  replace (t + 300 <=? now)%N with true by (symmetry; now apply N.leb_le).
  cbn [List.fold_left]. rewrite fire_runs. cbn [timerId timerContent due].
  match goal with
  | |- context [run (updatePreview host ?c) ?s0] =>
      pose proof (PanelFacts.updatePreview_Frame host c s0) as F;
      pose proof (PanelFacts.updatePreview_entered host c s0) as [U L];
      fold (run (updatePreview host c) s0) in F;
      remember (run (updatePreview host c) s0) as sF eqn:EsF
  end.
  destruct F as [Ft _ _ _ _ _ _].
  unfold set_clock; cbn [timers trace panel].
  rewrite Ft, U, L. cbn [timers trace set_timers set_clock].
  rewrite Ht. cbn [List.filter timerId]. rewrite Nat.eqb_refl.
  repeat split.
Qed.

End WithHost.

End DebounceFacts.

(* ===================================================================== *)
(** * WirePreviewPanel: a whole pass *)
(* ===================================================================== *)

Module WholePassFacts.
Import WirePreviewPanel.

Section Pass.

Variables (host : Host) (content : string) (s : Session).
Variables (core : Core).
Variables (parse : string -> result AST) (gen : AST -> result IR.t).
Variables (lay : IR.t -> result Layout).
Variable ren : IR.t -> Layout -> RenderOptions.t -> result (option string).

Hypothesis Hcore : coreFor host s = inr core.
Hypothesis Hex : Exports core parse gen lay ren.

Local Abbreviation s' := (run (updatePreview host content) s).
Local Abbreviation theme := (currentTheme (panel s)).
Local Abbreviation selected := (selectedScreen (panel s)).

(** The calls of a pass whose render answers no usable output. *)
Lemma pass_invalid_output_calls ast ir layout out :
  parse content = inr ast -> gen ast = inr ir -> lay ir = inr layout ->
  ren ir layout (passOptions s ir) = inr out ->
  match out with Some svg => Str.truthy svg = false | None => True end ->
  trace s'
  = (trace s ++ [UpdatePreviewCall content; ParseCall content;
                 GenerateIRCall ast; LayoutCall ir;
                 RenderCall ir layout (passOptions s ir)])%list.
Proof.
  intros H1 H2 H3 H4 H5. unfold run.
  rewrite (PassFacts.updatePreview_ready host content s core Hcore).
  erewrite PassFacts.tryCatch_eq
    by (eapply (PassFacts.pipeline_invalid_output core parse gen lay ren
                  content _ Hex ast ir layout out); eassumption).
  cbv beta iota. unfold withHtml, addCalls, withLayout, withIR, withCore, enter.
  cbn [trace set_trace set_panel snd]. unfold addCalls. cbn [trace set_trace].
  rewrite <- !app_assoc. reflexivity.
Qed.

(** A pass with the engine at hand, whatever its stages answer: the
    engine calls it makes, the caches and the page it leaves. *)
Lemma pass_whole :
  trace s'
  = (trace s
     ++ UpdatePreviewCall content
        :: engineCalls parse gen lay theme selected content)%list
  /\ lastIR (panel s') = irAfter parse gen content (lastIR (panel s))
  /\ lastLayout (panel s')
     = layoutAfter parse gen lay content (lastLayout (panel s))
  /\ html (panel s') = pageAfter parse gen lay ren theme selected content.
Proof.
  unfold engineCalls, irAfter, layoutAfter, pageAfter.
  destruct (parse content) as [e | ast] eqn:H1.
  { destruct (PassFacts.pass_parse_fails host content s core parse gen lay ren
                Hcore Hex e H1) as [A [B [_ [_ [C D]]]]].
    auto. }
  destruct (gen ast) as [e | ir] eqn:H2.
  { destruct (PassFacts.pass_generate_fails host content s core parse gen lay
                ren Hcore Hex ast e H1 H2) as [A [B [_ [_ [C D]]]]].
    auto. }
  destruct (lay ir) as [e | layout] eqn:H3.
  { destruct (PassFacts.pass_layout_fails host content s core parse gen lay
                ren Hcore Hex ast ir e H1 H2 H3) as [A [B [_ [_ [C D]]]]].
    auto. }
  change (optionsAfter theme selected ir) with (passOptions s ir).
  destruct (ren ir layout (passOptions s ir)) as [e | out] eqn:H4.
  { destruct (PassFacts.pass_render_fails host content s core parse gen lay
                ren Hcore Hex ast ir layout e H1 H2 H3 H4)
      as [A [B [_ [_ [C D]]]]].
    auto. }
  destruct out as [svg |]; [destruct (Str.truthy svg) eqn:H5 |].
  - destruct (PassFacts.pass_renders host content s core parse gen lay ren
                Hcore Hex ast ir layout svg H1 H2 H3 H4 H5)
      as [A [B [_ [_ [C D]]]]].
    auto.
  - destruct (PassFacts.pass_invalid_output host content s core parse gen lay
                ren Hcore Hex ast ir layout (Some svg) H1 H2 H3 H4 H5)
      as [A [B [_ [_ C]]]].
    pose proof (pass_invalid_output_calls ast ir layout (Some svg)
                  H1 H2 H3 H4 H5) as D.
    auto.
  - destruct (PassFacts.pass_invalid_output host content s core parse gen lay
                ren Hcore Hex ast ir layout None H1 H2 H3 H4 I)
      as [A [B [_ [_ C]]]].
    pose proof (pass_invalid_output_calls ast ir layout None H1 H2 H3 H4 I)
      as D.
    auto.
Qed.

End Pass.

End WholePassFacts.

(* ===================================================================== *)
(** * The debounce timer and the pass it starts *)
(* ===================================================================== *)

Module BurstFacts.
Import WirePreviewPanel.

Section WithHost.

Context {pathLib : PathLib}.
Variables (host : Host) (user : User).

Lemma set_debounceTimer_twice a b p :
  set_debounceTimer b (set_debounceTimer a p) = set_debounceTimer b p.
Proof. reflexivity. Qed.

(** The edits of a burst change one field of the panel, the handle of
    the timer. *)
Lemma burst_keeps_panel edits :
  forall s tPrev dPrev,
    Armed s tPrev dPrev ->
    Burst (Document.id dPrev) false tPrev edits ->
    exists handle,
      panel (runEvents host user (List.map edit edits) s)
      = set_debounceTimer handle (panel s).
Proof.
  induction edits as [|[t d] more IH]; intros s tPrev dPrev Harmed Hburst.
  - exists (debounceTimer (panel s)). cbn. destruct (panel s); reflexivity.
  - destruct Hburst as [Hid [Hwire [Hle [Hlt Hmore]]]].
    specialize (Hlt eq_refl).
    assert (Hed : activeTextEditor s = Some dPrev)
      by (destruct Harmed as [id [_ [_ [_ H]]]]; exact H).
    assert (Hck : clock s = tPrev)
      by (destruct Harmed as [id [_ [_ [H _]]]]; exact H).
    assert (Hclock : (clock s <= t)%N) by (rewrite Hck; exact Hle).
    assert (Htimers :
              forall tm, In tm (timers s) ->
                (t < due tm)%N /\ debounceTimer (panel s) = Some (timerId tm))
      by (intros tm Htm; now apply (DebounceFacts.Armed_timers s tPrev dPrev)).
    destruct (DebounceFacts.step_edit_armed host user s t d dPrev Hed Hid Hwire
                Hclock Htimers) as [Ha _].
    rewrite <- Hid in Hmore.
    destruct (IH _ t d Ha Hmore) as [handle Hp].
    exists handle.
    cbn [List.map runEvents List.fold_left].
    change (step host user s (edit (t, d)))
      with (step host user s (t, DidChangeTextDocument d)).
    unfold runEvents in Hp. rewrite Hp.
    rewrite (DebounceFacts.step_edit host user s t d dPrev Hed Hid Hwire
               Hclock Htimers).
    reflexivity.
Qed.

(** The pending render comes due: the timer leaves, and its callback is
    one pass on the text of the edit that armed it. *)
Lemma armed_fires_pass s t d now :
  Armed s t d -> (t + 300 <= now)%N ->
  advance host now s
  = set_clock now
      (run (updatePreview host (Document.text d))
         (set_timers [] (set_clock (t + 300) s))).
Proof.
  intros [id [Ht [Hd [Hck Hed]]]] Hnow.
  unfold advance. rewrite Ht. cbn [List.filter due].
  replace (t + 300 <=? now)%N with true by (symmetry; now apply N.leb_le).
  cbn [List.fold_left]. rewrite DebounceFacts.fire_runs.
  cbn [timerId timerContent due].
  rewrite Ht. cbn [List.filter timerId]. rewrite Nat.eqb_refl. cbn [negb].
  rewrite Hck. rewrite (N.max_r t (t + 300)) by lia.
  match goal with
  | |- context [run (updatePreview host ?c) ?s0] =>
      pose proof (PanelFacts.updatePreview_Frame host c s0) as F;
      fold (run (updatePreview host c) s0) in F;
      remember (run (updatePreview host c) s0) as sF eqn:EsF
  end.
  destruct F as [_ _ Fc _ _ _ _].
  rewrite Fc. cbn [clock set_timers set_clock].
  rewrite N.max_r by exact Hnow. reflexivity.
Qed.

End WithHost.

End BurstFacts.

(* ===================================================================== *)
(** * WirePreviewPanel: debounce, toggles, failures, selection *)
(* ===================================================================== *)

Import WirePreviewPanel.

Lemma demo_exports :
  Exports Demo.core Demo.parse Demo.generate Demo.layoutOf Demo.render.
Proof. constructor; reflexivity. Qed.

(** C2.  A burst of edits of the active document, each less than 300 ms
    after the one before, starting when no render is pending.  During
    the burst nothing is rendered: no engine function is called, and the
    panel is as before but for the handle of the timer; one render is
    pending after it, and until 300 ms have passed since the last edit
    nothing happens.  When they have passed, one pass has run, on the
    text of the last edit, which is then the last content of the panel,
    and no timer is left.  With the engine at hand that pass calls the
    parser on the text of the last edit, then each next stage of the
    pipeline on the result of the one before; the IR and the layout in
    the cache and the page are those of this pass. *)
Theorem debounce_renders_last_edit {pathLib : PathLib} :
  forall host user s d0 first more T,
    timers s = [] ->
    activeTextEditor s = Some d0 ->
    Burst (Document.id d0) true (clock s) (first :: more) ->
    (fst (List.last more first) + 300 <= T)%N ->
    let lastEdit := List.last more first in
    let text := Document.text (snd lastEdit) in
    let theme := currentTheme (panel s) in
    let selected := selectedScreen (panel s) in
    let pending := runEvents host user (List.map edit (first :: more)) s in
    let s' := advance host T pending in
    trace pending = trace s
    /\ (exists handle, panel pending = set_debounceTimer handle (panel s))
    /\ Armed pending (fst lastEdit) (snd lastEdit)
    /\ (forall now,
          (now < fst lastEdit + 300)%N ->
          advance host now pending
          = set_clock (N.max (fst lastEdit) now) pending)
    /\ updates (trace s') = (updates (trace s) ++ [text])%list
    /\ lastContent (panel s') = text
    /\ timers s' = []
    /\ (forall core parse gen lay ren,
          coreFor host s = inr core ->
          Exports core parse gen lay ren ->
          trace s'
          = (trace s
             ++ UpdatePreviewCall text
                :: engineCalls parse gen lay theme selected text)%list
          /\ lastIR (panel s') = irAfter parse gen text (lastIR (panel s))
          /\ lastLayout (panel s')
             = layoutAfter parse gen lay text (lastLayout (panel s))
          /\ html (panel s') = pageAfter parse gen lay ren theme selected text).
Proof.
  intros host user s d0 [t1 d1] more T Hidle Hed Hburst HT lastEdit text
    theme selected pending s'.
  destruct Hburst as [Hid [Hwire [Hle [_ Hmore]]]].
  assert (Htimers :
            forall tm, In tm (timers s) ->
              (t1 < due tm)%N /\ debounceTimer (panel s) = Some (timerId tm))
    by (intros tm Htm; rewrite Hidle in Htm; destruct Htm).
  destruct (DebounceFacts.step_edit_armed host user s t1 d1 d0 Hed Hid Hwire Hle
              Htimers) as [Ha [Htr [Hlc Hw]]].
  rewrite <- Hid in Hmore.
  destruct (DebounceFacts.burst_keeps_armed host user more _ t1 d1 Ha Hmore)
    as [Ha' [Htr' [Hlc' Hw']]].
  destruct (BurstFacts.burst_keeps_panel host user more _ t1 d1 Ha Hmore)
    as [handle Hp'].
  assert (Hpending :
            pending
            = runEvents host user (List.map edit more)
                (step host user s (t1, DidChangeTextDocument d1)))
    by reflexivity.
  rewrite <- Hpending in Ha', Htr', Hlc', Hw', Hp'.
  assert (Hpanel : panel pending = set_debounceTimer handle (panel s)).
  { rewrite Hp'.
    rewrite (DebounceFacts.step_edit host user s t1 d1 d0 Hed Hid Hwire Hle
               Htimers).
    reflexivity. }
  assert (Htrace : trace pending = trace s) by congruence.
  destruct (DebounceFacts.armed_fires host pending _ _ T Ha' HT) as [Ht [Hu Hc]].
  split; [exact Htrace |].
  split; [exists handle; exact Hpanel |].
  split; [exact Ha' |].
  split.
  { intros now Hnow.
    rewrite DebounceFacts.advance_nothing_due
      by (intros tm Htm;
          apply (DebounceFacts.Armed_timers pending _ _ tm now Ha' Hnow Htm)).
    destruct Ha' as [id [_ [_ [Hck _]]]]. now rewrite Hck. }
  split; [fold s' in Hu; rewrite Hu, Htrace; reflexivity |].
  split; [exact Hc |].
  split; [exact Ht |].
  intros core parse gen lay ren Hcore Hex.
  subst s' text theme selected lastEdit. rewrite (BurstFacts.armed_fires_pass host pending _ _ T Ha' HT).
  set (s0 := set_timers [] (set_clock _ pending)).
  assert (Hp0 : panel s0 = set_debounceTimer handle (panel s)) by exact Hpanel.
  assert (Hcore0 : coreFor host s0 = inr core).
  { unfold coreFor in *. rewrite Hp0.
    destruct (panel s); exact Hcore. }
  destruct (WholePassFacts.pass_whole host
              (Document.text (snd (List.last more (t1, d1)))) s0 core parse gen lay ren
              Hcore0 Hex) as [A [B [C D]]].
  cbn [trace panel set_clock].
  rewrite A, B, C, D, Hp0.
  change (trace s0) with (trace pending). rewrite Htrace.
  destruct (panel s); repeat split; reflexivity.
Qed.

(** The scenario of the debounce, with a third edit: edits at 10, 110
    and 350 ms, the timer due at 650 ms. *)
Lemma debounce_renders_last_edit_witness :
  let edits := [(10%N, Demo.wireDocument "screen H");
                (110%N, Demo.wireDocument "screen Ho");
                (350%N, Demo.wireDocument "screen Home")] in
  let pending :=
    runEvents (pathLib := Posix.lib) Demo.host (Demo.userPicking PNG)
      (List.map edit edits) Demo.fresh in
  let s' := advance Demo.host 650 pending in
  let ir := Demo.irOf [Demo.home] in
  trace pending = []
  /\ Armed pending 350 (Demo.wireDocument "screen Home")
  /\ timers s' = []
  /\ trace s'
     = [UpdatePreviewCall "screen Home"; ParseCall "screen Home";
        GenerateIRCall (AstHandle 2); LayoutCall ir;
        RenderCall ir (LayoutHandle 4) (previewOptions dark "Home")]
  /\ lastIR (panel s') = Some ir
  /\ lastLayout (panel s') = Some (LayoutHandle 4)
  /\ html (panel s')
     = PreviewPage
         (ensureDimensions (Demo.svgFor (previewOptions dark "Home")))
         ["Home"] "Home" dark.
Proof.
  destruct (debounce_renders_last_edit (pathLib := Posix.lib) Demo.host
              (Demo.userPicking PNG) Demo.fresh (Demo.wireDocument "screen Login")
              (10%N, Demo.wireDocument "screen H")
              [(110%N, Demo.wireDocument "screen Ho");
               (350%N, Demo.wireDocument "screen Home")] 650%N)
    as [Htr [_ [Ha [_ [_ [_ [Ht Hpass]]]]]]].
  - reflexivity.
  - reflexivity.
  - simpl. repeat split; try reflexivity; try lia; intros; discriminate.
  - simpl. lia.
  - destruct (Hpass Demo.core Demo.parse Demo.generate Demo.layoutOf
                Demo.render eq_refl demo_exports) as [A [B [C D]]].
    split; [exact Htr |]. split; [exact Ha |]. split; [exact Ht |].
    split; [exact A |]. split; [exact B |]. split; [exact C | exact D].
Defined.


Lemma setTheme_runs {pathLib : PathLib} host user theme s :
  run (onDidReceiveMessage host user (SetTheme theme)) s
  = if Str.truthy (lastContent (panel s))
    then run (updatePreview host (lastContent (panel s)))
           (set_panel (set_currentTheme theme (panel s)) s)
    else set_panel (set_currentTheme theme (panel s)) s.
Proof.
  unfold run, onDidReceiveMessage, updatePanel, getPanel.
  rewrite PassFacts.bind_modify, PassFacts.bind_gets.
  cbn [lastContent panel set_panel set_currentTheme].
  destruct (Str.truthy (lastContent (panel s))); reflexivity.
Qed.

Lemma selectScreen_runs {pathLib : PathLib} host user screen s :
  run (onDidReceiveMessage host user (SelectScreen screen)) s
  = if Str.truthy (lastContent (panel s))
    then run (updatePreview host (lastContent (panel s)))
           (set_panel (set_selectedScreen screen (panel s)) s)
    else set_panel (set_selectedScreen screen (panel s)) s.
Proof.
  unfold run, onDidReceiveMessage, updatePanel, getPanel.
  rewrite PassFacts.bind_modify, PassFacts.bind_gets.
  cbn [lastContent panel set_panel set_selectedScreen].
  destruct (Str.truthy (lastContent (panel s))); reflexivity.
Qed.




(** C6, as the code has it.  With the engine at hand, a pass in which
    parsing or the generation of the IR throws leaves the cached IR and
    the cached layout as they were; a pass in which rendering throws, or
    returns something that is not a non-empty string, has replaced both,
    by the IR and the layout of this pass; in each of these, and when the
    layout function throws, the panel shows the failure message. *)
Theorem failed_pass_caches :
  forall host s core parse gen lay ren content,
    coreFor host s = inr core ->
    Exports core parse gen lay ren ->
    let s' := run (updatePreview host content) s in
    let options ir :=
      previewOptions (currentTheme (panel s))
        (selectedAfter (selectedScreen (panel s)) (screenNames ir)) in
    (forall e,
       parse content = inl e ->
       lastIR (panel s') = lastIR (panel s)
       /\ lastLayout (panel s') = lastLayout (panel s)
       /\ html (panel s') = ErrorPage (Str.escapeHtml e))
    /\ (forall ast e,
          parse content = inr ast -> gen ast = inl e ->
          lastIR (panel s') = lastIR (panel s)
          /\ lastLayout (panel s') = lastLayout (panel s)
          /\ html (panel s') = ErrorPage (Str.escapeHtml e))
    /\ (forall ast ir e,
          parse content = inr ast -> gen ast = inr ir -> lay ir = inl e ->
          html (panel s') = ErrorPage (Str.escapeHtml e))
    /\ (forall ast ir layout e,
          parse content = inr ast -> gen ast = inr ir -> lay ir = inr layout ->
          ren ir layout (options ir) = inl e ->
          lastIR (panel s') = Some ir
          /\ lastLayout (panel s') = Some layout
          /\ html (panel s') = ErrorPage (Str.escapeHtml e))
    /\ (forall ast ir layout out,
          parse content = inr ast -> gen ast = inr ir -> lay ir = inr layout ->
          ren ir layout (options ir) = inr out ->
          match out with Some svg => Str.truthy svg = false | None => True end ->
          lastIR (panel s') = Some ir
          /\ lastLayout (panel s') = Some layout
          /\ html (panel s')
             = ErrorPage (Str.escapeHtml "SVG renderer returned invalid output")).
Proof.
  intros host s core parse gen lay ren content Hcore Hex s' options.
  split; [| split; [| split; [| split]]].
  - intros e H1.
    destruct (PassFacts.pass_parse_fails host content s core parse gen lay ren
                Hcore Hex e H1) as [A [B [_ [_ [C _]]]]].
    auto.
  - intros ast e H1 H2.
    destruct (PassFacts.pass_generate_fails host content s core parse gen lay ren
                Hcore Hex ast e H1 H2) as [A [B [_ [_ [C _]]]]].
    auto.
  - intros ast ir e H1 H2 H3.
    destruct (PassFacts.pass_layout_fails host content s core parse gen lay ren
                Hcore Hex ast ir e H1 H2 H3) as [_ [_ [_ [_ [C _]]]]].
    exact C.
  - intros ast ir layout e H1 H2 H3 H4.
    destruct (PassFacts.pass_render_fails host content s core parse gen lay ren
                Hcore Hex ast ir layout e H1 H2 H3 H4) as [A [B [_ [_ [C _]]]]].
    auto.
  - intros ast ir layout out H1 H2 H3 H4 H5.
    destruct (PassFacts.pass_invalid_output host content s core parse gen lay ren
                Hcore Hex ast ir layout out H1 H2 H3 H4 H5) as [A [B [_ [_ C]]]].
    auto.
Qed.

(** A pass on text the parser rejects, from the fresh panel. *)
Lemma failed_pass_caches_witness :
  let s' := run (updatePreview Demo.host "oops") Demo.fresh in
  lastIR (panel s') = lastIR (panel Demo.fresh)
  /\ lastLayout (panel s') = lastLayout (panel Demo.fresh)
  /\ html (panel s') = ErrorPage (Str.escapeHtml "Unexpected token").
Proof.
  exact (proj1 (failed_pass_caches Demo.host Demo.fresh Demo.core
                  Demo.parse Demo.generate Demo.layoutOf Demo.render "oops"
                  eq_refl
                  demo_exports)
           "Unexpected token" eq_refl).
Defined.

(** C6 as stated fails: the document of the active editor changes to one
    whose screen cannot be rendered; the pass fails, the message is
    shown, and the cached IR and layout are those of the failed pass. *)
Lemma failed_render_replaces_caches :
  let s := Demo.opened in
  let s' :=
    step (pathLib := Posix.lib) Demo.host (Demo.userPicking PNG) s
      (5%N, DidChangeActiveTextEditor (Some (Demo.wireDocument "screen Boom"))) in
  lastIR (panel s) = Some (Demo.irOf [Demo.login])
  /\ lastLayout (panel s) = Some (LayoutHandle 5)
  /\ html (panel s') = ErrorPage "Render failed"
  /\ lastIR (panel s') = Some (Demo.irOf [Demo.screenOf "Boom" 10 10])
  /\ lastLayout (panel s') = Some (LayoutHandle 4).
Proof. vm_compute. repeat split. Qed.

(** When the layout function throws, the new IR is cached beside the
    layout of the pass before. *)
Lemma failed_layout_leaves_old_layout :
  let s := Demo.opened in
  let s' :=
    step (pathLib := Posix.lib) Demo.host (Demo.userPicking PNG) s
      (5%N, DidChangeActiveTextEditor (Some (Demo.wireDocument "screen Broken"))) in
  html (panel s') = ErrorPage "Layout failed"
  /\ lastIR (panel s') = Some (Demo.irOf [Demo.screenOf "Broken" 10 10])
  /\ lastLayout (panel s') = lastLayout (panel s)
  /\ lastLayout (panel s') = Some (LayoutHandle 5).
Proof. vm_compute. repeat split. Qed.

(** C7, as the code has it.  When a pass gets as far as the IR, the list
    of screens of the panel is the list of the IR; a selection that was
    empty becomes the first screen of the list (and so, when the list is
    not empty, names a screen of it); a selection that was not empty is
    left as it was. *)
Theorem selection_after_pass :
  forall host s core parse gen lay ren content ast ir,
    coreFor host s = inr core ->
    Exports core parse gen lay ren ->
    parse content = inr ast ->
    gen ast = inr ir ->
    let s' := run (updatePreview host content) s in
    let names := screenNames ir in
    availableScreens (panel s') = names
    /\ (Str.truthy (selectedScreen (panel s)) = false ->
        selectedScreen (panel s') = List.hd EmptyString names)
    /\ (Str.truthy (selectedScreen (panel s)) = false -> names <> [] ->
        In (selectedScreen (panel s')) names)
    /\ (Str.truthy (selectedScreen (panel s)) = true ->
        selectedScreen (panel s') = selectedScreen (panel s)).
Proof.
  intros host s core parse gen lay ren content ast ir Hcore Hex H1 H2 s' names.
  destruct (PassFacts.pass_after_ir host content s core parse gen lay ren
              Hcore Hex ast ir H1 H2) as [_ [A B]].
  fold s' in A, B. fold names in A, B. unfold selectedAfter in B.
  split; [exact A |]. split; [| split].
  - intros Hs. rewrite Hs in B. exact B.
  - intros Hs Hne. rewrite Hs in B. rewrite B.
    destruct names as [|n names']; [congruence | now left].
  - intros Hs. rewrite Hs in B. exact B.
Qed.

(** The first pass of a panel selects the first screen. *)
Lemma selection_after_pass_witness :
  let s' := run (updatePreview Demo.host "screen Login screen Dashboard")
              Demo.fresh in
  availableScreens (panel s') = ["Login"; "Dashboard"]
  /\ selectedScreen (panel s') = "Login".
Proof.
  destruct (selection_after_pass Demo.host Demo.fresh Demo.core
              Demo.parse Demo.generate Demo.layoutOf Demo.render
              "screen Login screen Dashboard" (AstHandle 3)
              (Demo.irOf [Demo.login; Demo.dashboard])
              eq_refl
              demo_exports
              eq_refl eq_refl) as [A [B _]].
  split; [exact A | exact (B eq_refl)].
Defined.

(** C7 as stated fails: the one screen of the document is renamed from
    Login to Home; after the re-parse the selection is still Login, which
    the new list of screens does not have. *)
Lemma renamed_screen_stays_selected :
  let s := Demo.opened in
  let s' :=
    advance Demo.host 400
      (runEvents (pathLib := Posix.lib) Demo.host (Demo.userPicking PNG)
         [edit (10%N, Demo.wireDocument "screen Home")] s) in
  selectedScreen (panel s) = "Login"
  /\ availableScreens (panel s') = ["Home"]
  /\ selectedScreen (panel s') = "Login"
  /\ ~ In (selectedScreen (panel s')) (availableScreens (panel s')).
Proof.
  vm_compute. repeat split.
  intros [H | []]. discriminate.
Qed.

(** What a pass that renders surfaces: [ensureDimensions] of the
    engine's output: an output that has both
    [width=] and [height=] as it is; another output that has an opening
    [svg] tag with the attributes of the requested 1300 by 700 put before
    the [>] of the first such tag, after which it has both; an output
    without such a tag as it is. *)
Theorem surfaced_svg_dimensions :
  forall host s core parse gen lay ren content ast ir layout svg,
    coreFor host s = inr core ->
    Exports core parse gen lay ren ->
    parse content = inr ast ->
    gen ast = inr ir ->
    lay ir = inr layout ->
    ren ir layout
      (previewOptions (currentTheme (panel s))
         (selectedAfter (selectedScreen (panel s)) (screenNames ir)))
    = inr (Some svg) ->
    Str.truthy svg = true ->
    let s' := run (updatePreview host content) s in
    exists surfaced screens selected theme,
      html (panel s') = PreviewPage surfaced screens selected theme
      /\ surfaced = ensureDimensions svg
      /\ (declaresDimensions svg = true -> surfaced = svg)
      /\ (declaresDimensions svg = false -> hasSvgTag svg = true ->
          exists before attrs rest,
            svg = before ++ "<svg" ++ attrs ++ ">" ++ rest
            /\ surfaced
               = before ++ "<svg" ++ attrs ++ Str.dimensionAttributes
                   ++ ">" ++ rest)
      /\ (hasSvgTag svg = true -> declaresDimensions surfaced = true)
      /\ (declaresDimensions svg = false -> hasSvgTag svg = false ->
          surfaced = svg).
Proof.
  intros host s core parse gen lay ren content ast ir layout svg
    Hcore Hex H1 H2 H3 H4 H5 s'.
  destruct (PassFacts.pass_renders host content s core parse gen lay ren
              Hcore Hex ast ir layout svg H1 H2 H3 H4 H5)
    as [_ [_ [_ [_ [Hhtml _]]]]].
  do 4 eexists. split; [exact Hhtml |]. split; [reflexivity |].
  split; [| split; [| split]].
  - apply SvgFacts.ensureDimensions_declared.
  - intros Hd Ht. rewrite (SvgFacts.ensureDimensions_undeclared svg Hd).
    apply SvgFacts.injectDimensions_shape. exact Ht.
  - intros Ht. destruct (declaresDimensions svg) eqn:Hd.
    + now rewrite (SvgFacts.ensureDimensions_declared svg Hd).
    + rewrite (SvgFacts.ensureDimensions_undeclared svg Hd).
      destruct (SvgFacts.injectDimensions_shape svg Ht)
        as [before [attrs [rest [_ Hi]]]].
      rewrite Hi. apply SvgFacts.injected_declares.
  - intros Hd Ht. rewrite (SvgFacts.ensureDimensions_undeclared svg Hd).
    now apply SvgFacts.injectDimensions_no_tag.
Qed.

(** The first pass of the fresh panel: the engine's output has a
    [viewBox] only, the dimensions are put in. *)
Lemma surfaced_svg_dimensions_witness :
  let s' := run (updatePreview Demo.host "screen Login") Demo.fresh in
  exists surfaced screens selected theme,
    html (panel s') = PreviewPage surfaced screens selected theme
    /\ declaresDimensions surfaced = true.
Proof.
  destruct (surfaced_svg_dimensions Demo.host Demo.fresh Demo.core
              Demo.parse Demo.generate Demo.layoutOf Demo.render
              "screen Login" (AstHandle 1) (Demo.irOf [Demo.login])
              (LayoutHandle 5)
              (Demo.svgFor (previewOptions dark "Login"))
              eq_refl
              demo_exports
              eq_refl eq_refl eq_refl eq_refl eq_refl)
    as [surfaced [screens [selected [theme [Hh [_ [_ [_ [Hd _]]]]]]]]].
  exists surfaced, screens, selected, theme.
  split; [exact Hh | exact (Hd eq_refl)].
Defined.

(** C9 fails on the code, which is commented to make sure that the SVG
    has an explicit width and height.  The engine answers an [svg]
    element that has a [viewBox] only, around a rectangle with a width
    and a height: the text has [width=] and [height=], so the test finds
    nothing to put in, and the element surfaced has neither attribute.
    The engine answers markup without an [svg] element: it is surfaced
    as it is, with neither [width=] nor [height=]. *)
Lemma output_surfaces_without_dimensions :
  let boxed :=
    openPreview Demo.host None (Some (Demo.wireDocument "screen Boxed")) 0
      emptyWorld in
  let bare :=
    openPreview Demo.host None (Some (Demo.wireDocument "screen Bare")) 0
      emptyWorld in
  (html (panel boxed) = PreviewPage Demo.boxedSvg ["Boxed"] "Boxed" dark
   /\ svgTagDeclares Demo.boxedSvg = false)
  /\ (html (panel bare) = PreviewPage "<g></g>" ["Bare"] "Bare" dark
      /\ Str.includes "width=" "<g></g>" = false
      /\ Str.includes "height=" "<g></g>" = false).
Proof. vm_compute. repeat split. Qed.

(* ===================================================================== *)
(** * The export of the panel *)
(* ===================================================================== *)

Module DialogFacts.
Import ExportManager.

Section WithHost.

Context {pathLib : PathLib}.
Variables (host : Host) (user : User).

(** The export of a document with one screen, whatever the engine and
    the file system do: nothing is written when it throws, one artifact
    at the destination when it returns. *)
Lemma exportToFormat_single format ir layout theme filePath w screen :
  screensOf ir = [screen] ->
  (exists e,
     fst (exportToFormat host format ir layout theme filePath w) = inl e
     /\ files (snd (exportToFormat host format ir layout theme filePath w))
        = files w)
  \/ (exists a,
        fst (exportToFormat host format ir layout theme filePath w) = inr tt
        /\ files (snd (exportToFormat host format ir layout theme filePath w))
           = (files w ++ [a])%list
        /\ artifactPath a = filePath).
Proof.
  intros E.
  unfold exportToFormat, exportSVG, exportPNG, exportPDF, tryCatch, bind,
    lift, throw, write, ret, setPdfkitDataPath, modify.
  rewrite E. cbn [List.length Nat.eqb mapM baseViewportOf].
  unfold bind, lift, ret.
  destruct (ExportFormat.id format);
    (destruct (requireCore host) as [e | core]; cbn [fst snd];
     [left; eexists; split; reflexivity |]).
  - destruct (SVGRenderer core ir layout _) as [e | svg];
      [left; eexists; split; reflexivity |].
    match goal with
    | |- context [writeError host ?a] => destruct (writeError host a)
    end; [left; eexists; split; reflexivity |].
    right. eexists. repeat split.
  - destruct (SVGRenderer core ir layout _) as [e | svg];
      [left; eexists; split; reflexivity |].
    destruct (resolvePdfkitAfm host) as [e | afm];
      [left; eexists; split; reflexivity |].
    match goal with
    | |- context [writeError host ?a] => destruct (writeError host a)
    end; [left; eexists; split; reflexivity |].
    right. eexists. repeat split.
  - destruct (SVGRenderer core ir layout _) as [e | svg];
      [left; eexists; split; reflexivity |].
    match goal with
    | |- context [writeError host ?a] => destruct (writeError host a)
    end; [left; eexists; split; reflexivity |].
    right. eexists. repeat split.
Qed.

(** The dialog catches what the export throws, and writes at most the
    one artifact of a document with one screen. *)
Lemma showExportDialog_single fileName ir layout theme w screen :
  screensOf ir = [screen] ->
  fst (showExportDialog host user fileName ir layout theme w) = inr tt
  /\ exists written,
       files (snd (showExportDialog host user fileName ir layout theme w))
       = (files w ++ written)%list
       /\ List.length written <= 1.
Proof.
  intros E. unfold showExportDialog.
  rewrite PassFacts.bind_gets. cbn [getAvailableFormats].
  destruct (showQuickPick user _) as [format |];
    [| split; [reflexivity |]; exists []; cbn; rewrite app_nil_r;
       split; [reflexivity | lia] ].
  destruct (showSaveDialog user _ format) as [filePath |];
    [| split; [reflexivity |]; exists []; cbn; rewrite app_nil_r;
       split; [reflexivity | lia] ].
  unfold tryCatch, bind.
  destruct (exportToFormat_single format ir layout theme filePath w screen E)
    as [[e [Hr Hf]] | [a [Hr [Hf _]]]];
    destruct (exportToFormat host format ir layout theme filePath w)
      as [[e' | []] w'];
    cbn [fst snd] in Hr, Hf; try discriminate.
  - split; [reflexivity |]. exists []. cbn. rewrite Hf, app_nil_r.
    split; [reflexivity | lia].
  - split; [reflexivity |]. exists [a]. cbn. split; [exact Hf | lia].
Qed.

(** With an engine and a file system that do not fail, the dialog of a
    document with one screen writes one artifact, at the file the user
    chose. *)
Lemma showExportDialog_single_cooperative
    fileName ir layout theme w screen core svgOf afm format filePath :
  screensOf ir = [screen] ->
  Cooperative host core svgOf ir layout ->
  resolvePdfkitAfm host = inr afm ->
  showQuickPick user getAvailableFormats = Some format ->
  (forall uri, showSaveDialog user uri format = Some filePath) ->
  exists a,
    files (snd (showExportDialog host user fileName ir layout theme w))
    = (files w ++ [a])%list
    /\ artifactPath a = filePath.
Proof.
  intros E coop Hafm Hpick Hsave. unfold showExportDialog.
  rewrite PassFacts.bind_gets. cbn [getAvailableFormats].
  unfold getAvailableFormats in Hpick. rewrite Hpick, Hsave.
  unfold tryCatch, bind at 1.
  assert (Hx : exists a w',
             exportToFormat host format ir layout theme filePath w = (inr tt, w')
             /\ files w' = (files w ++ [a])%list /\ artifactPath a = filePath).
  { unfold exportToFormat. destruct (ExportFormat.id format).
    - rewrite (ExportFacts.exportSVG_single _ _ _ _ _ theme filePath coop _ w E).
      do 2 eexists. repeat split.
    - rewrite (ExportFacts.exportPDF_ok _ _ _ _ _ theme filePath coop _ w Hafm)
        by (rewrite E; simpl; lia).
      do 2 eexists. repeat split.
    - rewrite (ExportFacts.exportPNG_single _ _ _ _ _ theme filePath coop _ w E).
      do 2 eexists. repeat split. }
  destruct Hx as [a [w' [Hx [Hf Hp]]]]. rewrite Hx.
  exists a. cbn. split; [exact Hf | exact Hp].
Qed.

End WithHost.

End DialogFacts.

Module ExportAsFacts.
Import WirePreviewPanel.

Lemma inWorld_eq {A} (c : M A) (s : Session) :
  inWorld c s = (fst (c (world s)), set_world (snd (c (world s))) s).
Proof. unfold inWorld. destruct (c (world s)); reflexivity. Qed.

Section WithHost.

Context {pathLib : PathLib}.
Variables (host : Host) (user : User) (s : Session).
Variables (ir : IR.t) (layout : Layout) (screens : list Screen.t).

Hypothesis Hir : lastIR (panel s) = Some ir.
Hypothesis Hlayout : lastLayout (panel s) = Some layout.
Hypothesis Hscreens : Project.screens (IR.project ir) = Some screens.

Lemma exportAs_found sc :
  List.find (fun x => String.eqb (Screen.name x) (selectedScreen (panel s)))
    screens = Some sc ->
  exportAs host user s
  = (inr tt,
     set_world
       (snd (ExportManager.showExportDialog host user
               (exportFileName (currentFilePath (panel s))) (filterIR ir sc)
               layout (currentTheme (panel s)) (world s))) s).
Proof.
  intros Hfind.
  destruct (DialogFacts.showExportDialog_single host user
              (exportFileName (currentFilePath (panel s))) (filterIR ir sc)
              layout (currentTheme (panel s)) (world s) sc eq_refl)
    as [Hret _].
  unfold exportAs. unfold getPanel.
  erewrite PassFacts.tryCatch_eq; cycle 1.
  { rewrite PassFacts.bind_gets, PassFacts.bind_gets. cbv beta.
    rewrite Hir, Hlayout.
    rewrite PassFacts.bind_gets, PassFacts.bind_gets. cbv beta.
    rewrite Hscreens, Hfind.
    rewrite PassFacts.bind_gets. cbv beta.
    rewrite inWorld_eq. unfold exportFileName in *. rewrite Hret.
    reflexivity. }
  reflexivity.
Qed.

Lemma exportAs_not_found :
  List.find (fun x => String.eqb (Screen.name x) (selectedScreen (panel s)))
    screens = None ->
  exportAs host user s
  = (inr tt,
     set_world (addNotice (ErrorMessage "Selected screen not found") (world s)) s).
Proof.
  intros Hfind.
  unfold exportAs. unfold getPanel.
  erewrite PassFacts.tryCatch_eq; cycle 1.
  { rewrite PassFacts.bind_gets, PassFacts.bind_gets. cbv beta.
    rewrite Hir, Hlayout.
    rewrite PassFacts.bind_gets, PassFacts.bind_gets. cbv beta.
    rewrite Hscreens, Hfind.
    reflexivity. }
  reflexivity.
Qed.

End WithHost.

End ExportAsFacts.

(** C10.  An export from the panel, with an IR (that has its list of
    screens) and a layout in the cache.  When a screen of the IR has the
    selected name, the dialog gets the IR with that one screen, the first
    of that name, as its list of screens, the rest of the IR and the
    layout as cached; so at most one artifact is written, and exactly
    one, at the file the user chose, when neither the engine nor the
    file system fails.  When no screen has the selected name, the error
    "Selected screen not found" is shown, the dialog does not open and
    nothing is written. *)
Theorem exportAs_exports_selected_screen {pathLib : PathLib} :
  forall host user s ir layout screens,
    lastIR (panel s) = Some ir ->
    lastLayout (panel s) = Some layout ->
    Project.screens (IR.project ir) = Some screens ->
    let selected := selectedScreen (panel s) in
    let found :=
      List.find (fun x => String.eqb (Screen.name x) selected) screens in
    let s' := run (exportAs host user) s in
    (forall sc,
       found = Some sc ->
       Screen.name sc = selected
       /\ In sc screens
       /\ filterIR ir sc
          = {| IR.project :=
                 {| Project.screens := Some [sc];
                    Project.others := Project.others (IR.project ir) |};
               IR.others := IR.others ir |}
       /\ s' = set_world
                 (snd (showExportDialog host user
                         (exportFileName (currentFilePath (panel s)))
                         (filterIR ir sc) layout (currentTheme (panel s))
                         (world s))) s
       /\ (exists written,
             files (world s') = (files (world s) ++ written)%list
             /\ List.length written <= 1)
       /\ (forall core svgOf afm format filePath,
             Cooperative host core svgOf (filterIR ir sc) layout ->
             resolvePdfkitAfm host = inr afm ->
             showQuickPick user getAvailableFormats = Some format ->
             (forall uri, showSaveDialog user uri format = Some filePath) ->
             exists a,
               files (world s') = (files (world s) ++ [a])%list
               /\ artifactPath a = filePath))
    /\ (found = None ->
        s' = set_world
               (addNotice (ErrorMessage "Selected screen not found") (world s)) s
        /\ files (world s') = files (world s)).
Proof.
  intros host user s ir layout screens Hir Hlayout Hscreens selected found s'.
  split.
  - intros sc Hfound.
    destruct (List.find_some _ _ Hfound) as [Hin Hname].
    apply String.eqb_eq in Hname.
    assert (Hs' : s' = set_world
                         (snd (showExportDialog host user
                                 (exportFileName (currentFilePath (panel s)))
                                 (filterIR ir sc) layout (currentTheme (panel s))
                                 (world s))) s).
    { subst s'. unfold run.
      now rewrite (ExportAsFacts.exportAs_found host user s ir layout screens
                     Hir Hlayout Hscreens sc Hfound). }
    split; [exact Hname |]. split; [exact Hin |]. split; [reflexivity |].
    split; [exact Hs' |]. split.
    + destruct (DialogFacts.showExportDialog_single host user
                  (exportFileName (currentFilePath (panel s))) (filterIR ir sc)
                  layout (currentTheme (panel s)) (world s) sc eq_refl)
        as [_ [written [Hf Hl]]].
      exists written. rewrite Hs'. split; [exact Hf | exact Hl].
    + intros core svgOf afm format filePath coop Hafm Hpick Hsave.
      destruct (DialogFacts.showExportDialog_single_cooperative host user
                  (exportFileName (currentFilePath (panel s))) (filterIR ir sc)
                  layout (currentTheme (panel s)) (world s) sc core svgOf afm
                  format filePath eq_refl coop Hafm Hpick Hsave)
        as [a [Hf Hp]].
      exists a. rewrite Hs'. split; [exact Hf | exact Hp].
  - intros Hfound. subst s'. unfold run.
    rewrite (ExportAsFacts.exportAs_not_found host user s ir layout screens
               Hir Hlayout Hscreens Hfound).
    split; reflexivity.
Qed.

(** The panel previews Dashboard, the second of two screens; the user
    exports as PNG. *)
Lemma exportAs_exports_selected_screen_witness :
  let s' :=
    run (exportAs (pathLib := Posix.lib) Demo.host
           (Demo.userSaving PNG "/out/dashboard.png"))
      Demo.previewing in
  ExportManager.screensOf (filterIR Demo.twoScreens Demo.dashboard)
  = [Demo.dashboard]
  /\ exists a,
       files (world s') = (files (world Demo.previewing) ++ [a])%list
       /\ artifactPath a = "/out/dashboard.png".
Proof.
  destruct (exportAs_exports_selected_screen (pathLib := Posix.lib) Demo.host
              (Demo.userSaving PNG "/out/dashboard.png") Demo.previewing
              Demo.twoScreens Demo.layout [Demo.login; Demo.dashboard]
              eq_refl eq_refl eq_refl)
    as [Hfound _].
  destruct (Hfound Demo.dashboard eq_refl) as [_ [_ [Hir [_ [_ Hcoop]]]]].
  split; [reflexivity |].
  exact (Hcoop Demo.core Demo.svgFor
           "/ext/node_modules/pdfkit/js/data/Helvetica.afm"
           (Demo.formatOf PNG) "/out/dashboard.png"
           (demo_cooperative _) eq_refl eq_refl (fun _ => eq_refl)).
Defined.

(** The same export, run: of the two screens of the document only the
    selected one is written, under the name the dialog proposes. *)
Example panel_export_writes_selected_screen :
  files (world (run (exportAs (pathLib := Posix.lib) Demo.host
                       (Demo.userPicking PNG)) Demo.previewing))
  = [PngFile "/out/app.png" (Demo.svgFor (exportOptions (filterIR Demo.twoScreens Demo.dashboard) dark
                      Demo.dashboard))
       1440 900].
Proof. vm_compute. reflexivity. Qed.

(* ===================================================================== *)
(** * The POSIX paths, run *)
(* ===================================================================== *)

Example posix_dirname_rel : Posix.dirname "out.png" = ".".
Proof. reflexivity. Qed.
Example posix_dirname_abs : Posix.dirname "/home/u/w/out.png" = "/home/u/w".
Proof. reflexivity. Qed.
Example posix_dirname_root : Posix.dirname "/out.png" = "/".
Proof. reflexivity. Qed.
Example posix_dirname_dbl : Posix.dirname "a//b" = "a/".
Proof. reflexivity. Qed.
Example posix_basename_ext : Posix.basename "/home/u/out.png" ".png" = "out".
Proof. reflexivity. Qed.
Example posix_basename_other : Posix.basename "/home/u/out.svg" ".png" = "out.svg".
Proof. reflexivity. Qed.
Example posix_basename_only_ext : Posix.basename "/home/u/.png" ".png" = ".png".
Proof. reflexivity. Qed.
Example posix_basename_tail : Posix.basename "/out/png/" ".png" = "png/".
Proof. reflexivity. Qed.
Example posix_basename_slash : Posix.basename "/out/app.png/" ".png" = "app".
Proof. reflexivity. Qed.
Example posix_join_dot : Posix.join "." "out-login.png" = "out-login.png".
Proof. reflexivity. Qed.
Example posix_join_abs : Posix.join "/home/u" "out-login.png" = "/home/u/out-login.png".
Proof. reflexivity. Qed.
Example posix_join_up : Posix.join "/a/b/../c/" "./d" = "/a/c/d".
Proof. reflexivity. Qed.

(* ===================================================================== *)
(** * The escaping of messages *)
(* ===================================================================== *)

Module EscapeFacts.
Import Str.

Lemma flatMap_app f a b : flatMap f (a ++ b) = flatMap f a ++ flatMap f b.
Proof.
  induction a as [|c a IH]; simpl; [reflexivity |].
  now rewrite IH, StrFacts.app_assoc.
Qed.

Lemma replaceChar_app c r a b :
  replaceChar c r (a ++ b) = replaceChar c r a ++ replaceChar c r b.
Proof.
  induction a as [|d a IH]; simpl; [reflexivity |].
  destruct (Ascii.eqb d c); rewrite IH; [now rewrite StrFacts.app_assoc | reflexivity].
Qed.

Lemma replaceChar_flatMap c r f s :
  replaceChar c r (flatMap f s) = flatMap (fun d => replaceChar c r (f d)) s.
Proof.
  induction s as [|d s IH]; simpl; [reflexivity |].
  now rewrite replaceChar_app, IH.
Qed.

Lemma replaceChar_as_flatMap c r s :
  replaceChar c r s
  = flatMap (fun d => if Ascii.eqb d c then r else String d EmptyString) s.
Proof.
  induction s as [|d s IH]; simpl; [reflexivity |].
  destruct (Ascii.eqb d c); now rewrite IH.
Qed.

Lemma flatMap_ext f g s : (forall c, f c = g c) -> flatMap f s = flatMap g s.
Proof.
  intros H. induction s as [|c s IH]; simpl; [reflexivity |].
  now rewrite H, IH.
Qed.

(** The five replacements, one after the other, never touch what an
    earlier one put in: together they replace each character once. *)
Lemma escapeHtml_per_character s : escapeHtml s = flatMap escapeChar s.
Proof.
  unfold escapeHtml.
  rewrite (replaceChar_as_flatMap "&").
  rewrite !replaceChar_flatMap.
  apply flatMap_ext. intros c. unfold escapeChar.
  destruct (Ascii.eqb c "&") eqn:E1; [reflexivity |].
  cbn [replaceChar]. unfold dquote in *.
  destruct (Ascii.eqb c "<") eqn:E2; [reflexivity |].
  cbn [replaceChar Ascii.eqb]. rewrite ?E2.
  destruct (Ascii.eqb c ">") eqn:E3; [reflexivity |].
  cbn [replaceChar]. 
  destruct (Ascii.eqb c "034") eqn:E4; [reflexivity |].
  cbn [replaceChar].
  destruct (Ascii.eqb c "'") eqn:E5; reflexivity.
Qed.


Lemma forallb_app f a b : forallb f (a ++ b) = forallb f a && forallb f b.
Proof.
  induction a as [|c a IH]; simpl; [reflexivity |].
  now rewrite IH, andb_assoc.
Qed.

Lemma forallb_flatMap p f s :
  (forall c, forallb p (f c) = true) -> forallb p (flatMap f s) = true.
Proof.
  intros H. induction s as [|c s IH]; simpl; [reflexivity |].
  now rewrite forallb_app, H, IH.
Qed.

Lemma escapeChar_no_markup c :
  forallb (fun d => negb (isMarkupChar d)) (escapeChar c) = true.
Proof.
  unfold escapeChar, isMarkupChar, dquote.
  destruct (Ascii.eqb c "&") eqn:E1; [reflexivity |].
  destruct (Ascii.eqb c "<") eqn:E2; [reflexivity |].
  destruct (Ascii.eqb c ">") eqn:E3; [reflexivity |].
  destruct (Ascii.eqb c "034") eqn:E4; [reflexivity |].
  destruct (Ascii.eqb c "'") eqn:E5; [reflexivity |].
  cbn [forallb]. now rewrite E2, E3, E4, E5.
Qed.

Lemma escapeChar_plain c :
  Ascii.eqb c "&" = false -> isMarkupChar c = false ->
  escapeChar c = String c EmptyString.
Proof.
  unfold escapeChar, isMarkupChar. intros E1 H.
  apply orb_false_iff in H as [H E5].
  apply orb_false_iff in H as [H E4].
  apply orb_false_iff in H as [E2 E3].
  now rewrite E1, E2, E3, E4, E5.
Qed.

(** An escaped character starts with itself, when it is kept, or with an
    ampersand. *)
Lemma escapeChar_shape c :
  (escapeChar c = String c EmptyString /\ c <> "&"%char)
  \/ (c = "&"%char /\ escapeChar c = "&amp;")
  \/ (c = "<"%char /\ escapeChar c = "&lt;")
  \/ (c = ">"%char /\ escapeChar c = "&gt;")
  \/ (c = dquote /\ escapeChar c = "&quot;")
  \/ (c = "'"%char /\ escapeChar c = "&#039;").
Proof.
  unfold escapeChar, dquote.
  destruct (Ascii.eqb c "&") eqn:E1;
    [apply Ascii.eqb_eq in E1; subst; right; left; now split |].
  destruct (Ascii.eqb c "<") eqn:E2;
    [apply Ascii.eqb_eq in E2; subst; right; right; left; now split |].
  destruct (Ascii.eqb c ">") eqn:E3;
    [apply Ascii.eqb_eq in E3; subst; do 3 right; left; now split |].
  destruct (Ascii.eqb c "034") eqn:E4;
    [apply Ascii.eqb_eq in E4; subst; do 4 right; left; now split |].
  destruct (Ascii.eqb c "'") eqn:E5;
    [apply Ascii.eqb_eq in E5; subst; do 5 right; now split |].
  left. split; [reflexivity |]. intros ->. discriminate.
Qed.

Lemma flatMap_escape_injective a :
  forall b, flatMap escapeChar a = flatMap escapeChar b -> a = b.
Proof.
  induction a as [|c a IH]; intros [|d b] H.
  - reflexivity.
  - cbn [flatMap] in H.
    destruct (escapeChar_shape d) as [[E _] | [[_ E] | [[_ E] | [[_ E] | [[_ E] | [_ E]]]]]];
      rewrite E in H; discriminate.
  - cbn [flatMap] in H.
    destruct (escapeChar_shape c) as [[E _] | [[_ E] | [[_ E] | [[_ E] | [[_ E] | [_ E]]]]]];
      rewrite E in H; discriminate.
  - cbn [flatMap] in H.
    destruct (escapeChar_shape c) as [[Ec Nc] | [[Hc Ec] | [[Hc Ec] | [[Hc Ec] | [[Hc Ec] | [Hc Ec]]]]]];
    destruct (escapeChar_shape d) as [[Ed Nd] | [[Hd Ed] | [[Hd Ed] | [[Hd Ed] | [[Hd Ed] | [Hd Ed]]]]]];
      rewrite Ec, Ed in H; subst; cbn in H;
      try (inversion H; subst; try congruence; f_equal; now apply IH);
      try discriminate.
Qed.

End EscapeFacts.

(** X1.  The text of an error page has none of the characters [<], [>], the
    double quote and the apostrophe, whatever the message; a message free
    of these and of the ampersand is shown as it is. *)
Theorem escapeHtml_no_markup :
  forall message,
    Str.forallb (fun c => negb (isMarkupChar c)) (Str.escapeHtml message) = true
    /\ (Str.forallb (fun c => negb (Ascii.eqb c "&") && negb (isMarkupChar c))
          message = true ->
        Str.escapeHtml message = message).
Proof.
  intros message. rewrite EscapeFacts.escapeHtml_per_character. split.
  - apply EscapeFacts.forallb_flatMap, EscapeFacts.escapeChar_no_markup.
  - induction message as [|c s IH]; intros H; [reflexivity |].
    cbn [Str.forallb] in H. apply andb_true_iff in H as [Hc Hs].
    apply andb_true_iff in Hc as [H1 H2].
    apply negb_true_iff in H1, H2.
    cbn [flatMap]. rewrite (EscapeFacts.escapeChar_plain c H1 H2).
    cbn. now rewrite IH.
Qed.

(** X2.  Escaping loses nothing: two messages that differ are shown as
    texts that differ. *)
Theorem escapeHtml_injective :
  forall a b, a <> b -> Str.escapeHtml a <> Str.escapeHtml b.
Proof.
  intros a b Hne E. apply Hne.
  rewrite !EscapeFacts.escapeHtml_per_character in E.
  now apply EscapeFacts.flatMap_escape_injective.
Qed.

(** The message [<] and the message that spells its entity are shown
    differently. *)
Lemma escapeHtml_injective_witness :
  Str.escapeHtml "<" <> Str.escapeHtml "&lt;".
Proof. apply (escapeHtml_injective "<" "&lt;"). discriminate. Defined.

(* ===================================================================== *)
(** * Names of files *)
(* ===================================================================== *)

Module NameFacts.
Import Str.

Lemma slug_lower c : isSlugChar c = true -> toLowerCaseChar c = c.
Proof.
  destruct c as [[] [] [] [] [] [] [] []]; vm_compute; intros H;
    first [reflexivity | discriminate].
Qed.

Lemma slug_noSpace c : isSlugChar c = true -> isSpace c = false.
Proof.
  destruct c as [[] [] [] [] [] [] [] []]; vm_compute; intros H;
    first [reflexivity | discriminate].
Qed.

Lemma toLowerCaseChar_idempotent c :
  toLowerCaseChar (toLowerCaseChar c) = toLowerCaseChar c.
Proof. destruct c as [[] [] [] [] [] [] [] []]; vm_compute; reflexivity. Qed.

Lemma toLowerCase_idempotent s : toLowerCase (toLowerCase s) = toLowerCase s.
Proof.
  unfold toLowerCase. induction s as [|c s IH]; cbn [map]; [reflexivity |].
  now rewrite toLowerCaseChar_idempotent, IH.
Qed.

Lemma slug_toLowerCase s :
  forallb isSlugChar s = true -> toLowerCase s = s.
Proof.
  unfold toLowerCase. induction s as [|c s IH]; cbn [map forallb]; intros H;
    [reflexivity |].
  apply andb_true_iff in H as [Hc Hs].
  now rewrite (slug_lower c Hc), (IH Hs).
Qed.

Lemma slug_is_noSpace s : forallb isSlugChar s = true -> noSpace s = true.
Proof.
  unfold noSpace. induction s as [|c s IH]; cbn [forallb]; intros H;
    [reflexivity |].
  apply andb_true_iff in H as [Hc Hs].
  now rewrite (slug_noSpace c Hc), (IH Hs).
Qed.

Lemma filter_all f s : forallb f s = true -> filter f s = s.
Proof.
  induction s as [|c s IH]; simpl; intros H; [reflexivity |].
  apply andb_true_iff in H as [Hc Hs]. now rewrite Hc, IH.
Qed.

Lemma length_map f s : String.length (map f s) = String.length s.
Proof. induction s as [|c s IH]; simpl; congruence. Qed.

Lemma length_filter f s : String.length (filter f s) <= String.length s.
Proof.
  induction s as [|c s IH]; simpl; [lia |]. destruct (f c); simpl; lia.
Qed.

Lemma length_replaceSpaceRunsFrom inRun s :
  String.length (replaceSpaceRunsFrom inRun s) <= String.length s.
Proof.
  revert inRun.
  induction s as [|c s IH]; intros inRun; cbn [replaceSpaceRunsFrom String.length];
    [lia |].
  pose proof (IH true) as Ht. pose proof (IH false) as Hf.
  destruct (isSpace c); [destruct inRun |]; cbn [String.length]; lia.
Qed.

(** The accumulator of [lastSegmentFrom] holds, reversed, what was read
    since the last separator. *)
Lemma rev_append_app a acc : rev_append a acc = rev_append a EmptyString ++ acc.
Proof.
  revert acc. induction a as [|c a IH]; intros acc; simpl; [reflexivity |].
  rewrite (IH (String c acc)), (IH (String c EmptyString)).
  now rewrite StrFacts.app_assoc.
Qed.

Lemma lastSegmentFrom_noSeparator s :
  forall cur, noSeparator s = true -> lastSegmentFrom cur s = rev cur ++ s.
Proof.
  induction s as [|c s IH]; intros cur H; simpl.
  - now rewrite StrFacts.app_empty_r.
  - unfold noSeparator in H. cbn [forallb] in H.
    apply andb_true_iff in H as [Hc Hs]. apply negb_true_iff in Hc.
    unfold isSeparator in Hc. rewrite Hc.
    rewrite (IH _ Hs). unfold rev. cbn [rev_append].
    rewrite (rev_append_app cur (String c EmptyString)).
    now rewrite StrFacts.app_assoc.
Qed.

Lemma lastSegmentFrom_after_separator a :
  forall cur sep b,
    isSeparator sep = true ->
    noSeparator b = true ->
    lastSegmentFrom cur (a ++ String sep b) = b.
Proof.
  induction a as [|c a IH]; intros cur sep b Hsep Hb.
  - cbn [append lastSegmentFrom]. unfold isSeparator in Hsep. rewrite Hsep.
    now rewrite lastSegmentFrom_noSeparator.
  - cbn [append lastSegmentFrom].
    destruct (Ascii.eqb c "/" || Ascii.eqb c backslash); now apply IH.
Qed.

Lemma noSeparator_rev_append cur acc :
  noSeparator cur = true -> noSeparator acc = true ->
  noSeparator (rev_append cur acc) = true.
Proof.
  revert acc. induction cur as [|c cur IH]; intros acc Hc Ha; simpl; [exact Ha |].
  unfold noSeparator in *. cbn [forallb] in Hc.
  apply andb_true_iff in Hc as [H1 H2].
  apply IH; [exact H2 |]. cbn [forallb]. now rewrite H1, Ha.
Qed.

Lemma lastSegmentFrom_free s :
  forall cur, noSeparator cur = true ->
    noSeparator (lastSegmentFrom cur s) = true.
Proof.
  induction s as [|c s IH]; intros cur H; simpl.
  - now apply noSeparator_rev_append.
  - destruct (Ascii.eqb c "/" || Ascii.eqb c backslash) eqn:E.
    + now apply IH.
    + apply IH. unfold noSeparator in *. cbn [forallb].
      rewrite H, andb_true_r. unfold isSeparator. now rewrite E.
Qed.

Lemma prefix_refl_app p s : prefix p (p ++ s) = true.
Proof.
  induction p as [|c p IH]; simpl; [now destruct s |].
  destruct (ascii_dec c c); [exact IH | congruence].
Qed.

Lemma rev_app a b : rev (a ++ b) = rev b ++ rev a.
Proof.
  unfold rev. revert b. induction a as [|c a IH]; intros b; simpl.
  - now rewrite StrFacts.app_empty_r.
  - rewrite (rev_append_app (a ++ b)), (rev_append_app a).
    fold (rev (a ++ b)). fold (rev a). unfold rev at 1. rewrite IH.
    now rewrite StrFacts.app_assoc.
Qed.

Lemma endsWith_app a suffix : endsWith (a ++ suffix) suffix = true.
Proof. unfold endsWith. rewrite rev_app. apply prefix_refl_app. Qed.

Lemma length_app a b : String.length (a ++ b) = String.length a + String.length b.
Proof. induction a as [|c a IH]; simpl; congruence. Qed.

Lemma substring_app a b : substring 0 (String.length a) (a ++ b) = a.
Proof. induction a as [|c a IH]; simpl; [now destruct b | now rewrite IH]. Qed.

Lemma dropEnd_app a suffix : dropEnd (String.length suffix) (a ++ suffix) = a.
Proof.
  unfold dropEnd. rewrite length_app.
  replace (String.length a + String.length suffix - String.length suffix)
    with (String.length a) by lia.
  apply substring_app.
Qed.

End NameFacts.

(** X3.  A sanitized screen name is left as it is by sanitizing it again; it
    is never longer than the name; and the case of the letters of the
    name does not matter. *)
Theorem sanitizeScreenName_idempotent :
  forall name,
    ExportManager.sanitizeScreenName (ExportManager.sanitizeScreenName name)
    = ExportManager.sanitizeScreenName name
    /\ String.length (ExportManager.sanitizeScreenName name) <= String.length name
    /\ ExportManager.sanitizeScreenName (Str.toLowerCase name)
       = ExportManager.sanitizeScreenName name.
Proof.
  intros name. split; [| split].
  - assert (H := ExportFacts.sanitize_slug name).
    remember (ExportManager.sanitizeScreenName name) as r eqn:Er.
    unfold ExportManager.sanitizeScreenName.
    rewrite (NameFacts.slug_toLowerCase r H).
    unfold Str.replaceSpaceRuns.
    rewrite StrFacts.replaceSpaceRunsFrom_noSpace
      by now apply NameFacts.slug_is_noSpace.
    now apply NameFacts.filter_all.
  - unfold ExportManager.sanitizeScreenName, Str.removeNonSlug,
      Str.replaceSpaceRuns, Str.toLowerCase.
    eapply Nat.le_trans; [apply NameFacts.length_filter |].
    eapply Nat.le_trans; [apply NameFacts.length_replaceSpaceRunsFrom |].
    now rewrite NameFacts.length_map.
  - unfold ExportManager.sanitizeScreenName.
    now rewrite NameFacts.toLowerCase_idempotent.
Qed.

(** X4.  The file name the export of the panel and the export command start
    from is never empty and has no separator; for a path that ends in a
    separator-free name after a slash or a backslash it is that name, and
    the base name the dialog derives from [name.wire] is [name]. *)
Theorem export_file_name_is_last_segment :
  forall path,
    exportFileName path <> EmptyString
    /\ noSeparator (exportFileName path) = true
    /\ (forall dir sep name,
          path = dir ++ String sep name ->
          isSeparator sep = true -> noSeparator name = true ->
          name <> EmptyString ->
          exportFileName path = name)
    /\ (forall dir sep base,
          path = dir ++ String sep (base ++ ".wire") ->
          isSeparator sep = true -> noSeparator base = true ->
          ExportManager.stripWire (exportFileName path) = base).
Proof.
  intros path.
  assert (Hseg : forall dir sep name,
            path = dir ++ String sep name ->
            isSeparator sep = true -> noSeparator name = true ->
            name <> EmptyString ->
            exportFileName path = name).
  { intros dir sep name -> Hsep Hname Hne.
    unfold exportFileName, Str.orElse, Str.lastSegment.
    rewrite (NameFacts.lastSegmentFrom_after_separator dir EmptyString sep name
               Hsep Hname).
    assert (Ht : Str.truthy (dir ++ String sep name) = true)
      by (destruct dir; reflexivity).
    rewrite Ht. destruct name; [congruence | reflexivity]. }
  split; [| split; [| split]].
  - unfold exportFileName, Str.orElse.
    destruct (Str.truthy path); [| discriminate].
    destruct (Str.lastSegment path) eqn:E; cbn [Str.truthy]; discriminate.
  - unfold exportFileName, Str.orElse.
    destruct (Str.truthy path); [| reflexivity].
    destruct (Str.truthy (Str.lastSegment path)); [| reflexivity].
    now apply NameFacts.lastSegmentFrom_free.
  - exact Hseg.
  - intros dir sep base E Hsep Hbase.
    rewrite (Hseg dir sep (base ++ ".wire") E Hsep).
    + unfold ExportManager.stripWire.
      rewrite NameFacts.endsWith_app. apply NameFacts.dropEnd_app.
    + unfold noSeparator in *. rewrite EscapeFacts.forallb_app, Hbase.
      reflexivity.
    + destruct base; discriminate.
Qed.

(** X5.  Putting the dimensions in is idempotent: what a pass surfaces would
    be surfaced unchanged by a second application, so the attributes are
    never put in twice. *)
Theorem ensureDimensions_idempotent :
  forall svg,
    WirePreviewPanel.ensureDimensions (WirePreviewPanel.ensureDimensions svg)
    = WirePreviewPanel.ensureDimensions svg.
Proof.
  intros svg.
  destruct (WirePreviewPanel.declaresDimensions svg) eqn:Hd.
  - now rewrite !(SvgFacts.ensureDimensions_declared svg Hd).
  - rewrite (SvgFacts.ensureDimensions_undeclared svg Hd).
    destruct (hasSvgTag svg) eqn:Ht.
    + destruct (SvgFacts.injectDimensions_shape svg Ht)
        as [before [attrs [rest [_ Hi]]]].
      rewrite Hi. apply SvgFacts.ensureDimensions_declared,
        SvgFacts.injected_declares.
    + rewrite (SvgFacts.injectDimensions_no_tag svg Ht).
      rewrite (SvgFacts.ensureDimensions_undeclared svg Hd).
      now apply SvgFacts.injectDimensions_no_tag.
Qed.

(* ===================================================================== *)
(** * ExportManager: whatever the engine and the file system do *)
(* ===================================================================== *)

Module OutcomeFacts.
Import ExportManager.

Section WithHost.

Context {pathLib : PathLib}.
Variable host : Host.

Lemma forEach_cons {A} (body : A -> M unit) x xs w :
  forEach (x :: xs) body w
  = match body x w with
    | (inl e, w') => (inl e, w')
    | (inr _, w') => forEach xs body w'
    end.
Proof. reflexivity. Qed.

(** One round of a fan-out: the screen is rendered, then its file is
    written. *)
Section Rounds.

Variables (core : Core) (ir : IR.t) (layout : Layout).
Variable optionsOf : Screen.t -> RenderOptions.t.
Variable pathOf : Screen.t -> string.
Variable mk : Screen.t -> string -> Artifact.
Hypothesis mk_path : forall s svg, artifactPath (mk s svg) = pathOf s.

Local Abbreviation round := (exportRound host core ir layout optionsOf mk).

Lemma round_outcome s w :
  (exists svg, round s w = (inr tt, addFiles [mk s svg] w))
  \/ (exists e, round s w = (inl e, w)).
Proof.
  unfold exportRound, bind, lift, write.
  destruct (SVGRenderer core ir layout (optionsOf s)) as [e | svg];
    [right; now exists e |].
  destruct (writeError host (mk s svg)) as [e |];
    [right; now exists e | left; now exists svg].
Qed.

(** The rounds run in order and stop at the first one that throws. *)
Lemma rounds_outcome screens :
  forall w,
    exists written,
      snd (forEach screens round w) = addFiles written w
      /\ match fst (forEach screens round w) with
         | inr _ => List.map artifactPath written = List.map pathOf screens
         | inl _ =>
             List.length written < List.length screens
             /\ List.map artifactPath written
                = List.firstn (List.length written) (List.map pathOf screens)
         end.
Proof.
  induction screens as [|s more IH]; intros w.
  - exists []. cbn. split; [now rewrite ExportFacts.addFiles_nil | reflexivity].
  - rewrite forEach_cons.
    destruct (round_outcome s w) as [[svg E] | [e E]]; rewrite E.
    + destruct (IH (addFiles [mk s svg] w)) as [written [Hw Hr]].
      exists (mk s svg :: written). split.
      * rewrite Hw. now rewrite ExportFacts.addFiles_app.
      * destruct (fst (forEach more round (addFiles [mk s svg] w))).
        -- destruct Hr as [Hl Hp]. cbn [List.length List.map List.firstn].
           rewrite mk_path, Hp. split; [lia | reflexivity].
        -- cbn [List.map]. now rewrite mk_path, Hr.
    + exists []. cbn. split; [now rewrite ExportFacts.addFiles_nil |].
      split; [lia | reflexivity].
Qed.

End Rounds.

(** The artifact of one screen, as each image exporter makes it. *)
Local Abbreviation artifactOf id ir theme filePath :=
  (fun (s : Screen.t) (svg : string) =>
     match id with
     | PNG =>
         PngFile (perScreenPath filePath (extOf id) s) svg
           (RenderOptions.width (exportOptions ir theme s))
           (RenderOptions.height (exportOptions ir theme s))
     | _ => SvgFile (perScreenPath filePath (extOf id) s) svg
     end).

Lemma prefix_failure id e : prefix (failurePrefix id) (failurePrefix id ++ e) = true.
Proof. apply NameFacts.prefix_refl_app. Qed.

(** What the export of images comes to, in every case. *)
Lemma exportImage_outcome id ir layout theme filePath w r w' :
  id <> PDF ->
  match id with
  | PNG => exportPNG host ir layout theme filePath w
  | _ => exportSVG host ir layout theme filePath w
  end = (r, w') ->
  exists written,
    w' = addFiles written w
    /\ match r with
       | inr _ =>
           1 <= List.length (screensOf ir)
           /\ List.map artifactPath written = expectedPaths id ir filePath
       | inl e =>
           prefix (failurePrefix id) e = true
           /\ List.length written <= List.length (screensOf ir) - 1
           /\ List.map artifactPath written
              = List.firstn (List.length written)
                  (List.map (perScreenPath filePath (extOf id)) (screensOf ir))
       end.
Proof.
  intros Hid Erun. unfold expectedPaths.
  assert (Hnone : forall e0,
            (r, w') = (inl (failurePrefix id ++ e0), w) ->
            exists written,
              w' = addFiles written w
              /\ match r with
                 | inr _ =>
                     1 <= List.length (screensOf ir)
                     /\ List.map artifactPath written
                        = match id, screensOf ir with
                          | PDF, _ => [filePath]
                          | _, [_] => [filePath]
                          | _, screens =>
                              List.map (perScreenPath filePath (extOf id)) screens
                          end
                 | inl e =>
                     prefix (failurePrefix id) e = true
                     /\ List.length written <= List.length (screensOf ir) - 1
                     /\ List.map artifactPath written
                        = List.firstn (List.length written)
                            (List.map (perScreenPath filePath (extOf id))
                               (screensOf ir))
                 end).
  { intros e0 H. inversion H; subst. exists [].
    rewrite ExportFacts.addFiles_nil. split; [reflexivity |].
    split; [apply prefix_failure |]. split; [cbn; lia | reflexivity]. }
  destruct id; [| congruence |].
  - (* SVG *)
    unfold exportSVG, tryCatch in Erun. unfold bind at 1, lift at 1 in Erun.
    destruct (requireCore host) as [e | core];
      [apply (Hnone e); now rewrite <- Erun |].
    destruct (screensOf ir) as [|s1 [|s2 more]] eqn:E.
    + apply (Hnone "No screens found in project"). now rewrite <- Erun.
    + cbn [List.length Nat.eqb] in Erun.
      destruct (round_outcome core ir layout
                  (fun s => optionsFor (viewportOf (baseViewportOf [s1]) s) theme s)
                  (fun _ svg => SvgFile filePath svg) s1 w) as [[svg R] | [e R]];
        unfold exportRound in R; rewrite R in Erun.
      * inversion Erun; subst. exists [SvgFile filePath svg].
        split; [reflexivity |]. split; [cbn; lia | reflexivity].
      * apply (Hnone e). now rewrite <- Erun.
    + cbn [List.length Nat.eqb] in Erun.
      destruct (rounds_outcome core ir layout
                  (exportOptions ir theme)
                  (perScreenPath filePath ".svg")
                  (artifactOf SVG ir theme filePath)
                  (fun _ _ => eq_refl) (s1 :: s2 :: more) w)
        as [written [Hw Hr]].
      unfold exportRound, exportOptions, perScreenPath in Hw, Hr.
      rewrite E in Hw, Hr. cbn [extOf] in Hw, Hr.
      exists written.
      match type of Hw with
      | snd ?c = _ =>
          change (match c with
                  | (inl e, w0) => throw ("SVG export failed: " ++ e) w0
                  | (inr a, w0) => (inr a, w0)
                  end = (r, w')) in Erun;
          destruct c as [[e | []] w0]
      end; cbn [fst snd] in Hw, Hr; inversion Erun; subst.
      * split; [reflexivity |]. split; [apply (prefix_failure SVG) |].
        destruct Hr as [Hl Hp]. split; [cbn [List.length] in *; lia | exact Hp].
      * split; [reflexivity |]. split; [cbn; lia | exact Hr].
  - (* PNG *)
    unfold exportPNG, tryCatch in Erun. unfold bind at 1, lift at 1 in Erun.
    destruct (requireCore host) as [e | core];
      [apply (Hnone e); now rewrite <- Erun |].
    destruct (screensOf ir) as [|s1 [|s2 more]] eqn:E.
    + apply (Hnone "No screens found in project"). now rewrite <- Erun.
    + cbn [List.length Nat.eqb] in Erun.
      destruct (round_outcome core ir layout
                  (fun s => optionsFor (viewportOf (baseViewportOf [s1]) s) theme s)
                  (fun s svg =>
                     PngFile filePath svg
                       (Viewport.width (viewportOf (baseViewportOf [s1]) s))
                       (Viewport.height (viewportOf (baseViewportOf [s1]) s)))
                  s1 w) as [[svg R] | [e R]];
        unfold exportRound in R; rewrite R in Erun.
      * inversion Erun; subst. eexists [_].
        split; [reflexivity |]. split; [cbn; lia | reflexivity].
      * apply (Hnone e). now rewrite <- Erun.
    + cbn [List.length Nat.eqb] in Erun.
      destruct (rounds_outcome core ir layout
                  (exportOptions ir theme)
                  (perScreenPath filePath ".png")
                  (artifactOf PNG ir theme filePath)
                  (fun _ _ => eq_refl) (s1 :: s2 :: more) w)
        as [written [Hw Hr]].
      unfold exportRound, exportOptions, perScreenPath in Hw, Hr.
      rewrite E in Hw, Hr. cbn [extOf] in Hw, Hr.
      exists written.
      match type of Hw with
      | snd ?c = _ =>
          change (match c with
                  | (inl e, w0) => throw ("PNG export failed: " ++ e) w0
                  | (inr a, w0) => (inr a, w0)
                  end = (r, w')) in Erun;
          destruct c as [[e | []] w0]
      end; cbn [fst snd] in Hw, Hr; inversion Erun; subst.
      * split; [reflexivity |]. split; [apply (prefix_failure PNG) |].
        destruct Hr as [Hl Hp]. split; [cbn [List.length] in *; lia | exact Hp].
      * split; [reflexivity |]. split; [cbn; lia | exact Hr].
Qed.

(** A mapping whose function leaves the world alone. *)
Lemma mapM_stateless {A B} (f : A -> M B) (g : A -> result B) (xs : list A) :
  (forall x w, f x w = (g x, w)) ->
  forall w,
    snd (mapM f xs w) = w
    /\ match fst (mapM f xs w) with
       | inr ys => Forall2 (fun x y => g x = inr y) xs ys
       | inl _ => True
       end.
Proof.
  intros H. induction xs as [|x xs IH]; intros w.
  - cbn. split; [reflexivity | constructor].
  - cbn [mapM]. unfold bind at 1 3. rewrite H.
    destruct (g x) as [e | y] eqn:Ex; [cbn; split; [reflexivity | exact I] |].
    unfold bind. destruct (IH w) as [Hs Hf].
    destruct (mapM f xs w) as [[e | ys] w0]; cbn [fst snd] in *.
    + split; [exact Hs | exact I].
    + unfold ret. cbn [fst snd]. split; [exact Hs |]. now constructor.
Qed.

(** What the paginated export comes to, in every case. *)
Lemma exportPDF_outcome ir layout theme filePath w r w' :
  exportPDF host ir layout theme filePath w = (r, w') ->
  notices w' = notices w
  /\ lastDirectory w' = lastDirectory w
  /\ match r with
     | inr _ =>
         exists pages,
           files w' = (files w ++ [PdfFile filePath pages])%list
           /\ 1 <= List.length (screensOf ir)
           /\ List.map Page.name pages = List.map Screen.name (screensOf ir)
     | inl e => prefix (failurePrefix PDF) e = true /\ files w' = files w
     end.
Proof.
  intros Erun.
  assert (Hnone : forall e0 w0,
            notices w0 = notices w -> lastDirectory w0 = lastDirectory w ->
            files w0 = files w ->
            (r, w') = (inl (failurePrefix PDF ++ e0), w0) ->
            notices w' = notices w
            /\ lastDirectory w' = lastDirectory w
            /\ match r with
               | inr _ =>
                   exists pages,
                     files w' = (files w ++ [PdfFile filePath pages])%list
                     /\ 1 <= List.length (screensOf ir)
                     /\ List.map Page.name pages
                        = List.map Screen.name (screensOf ir)
               | inl e => prefix (failurePrefix PDF) e = true /\ files w' = files w
               end).
  { intros e0 w0 Hn Hd Hf H. inversion H; subst.
    split; [exact Hn |]. split; [exact Hd |].
    split; [exact (prefix_failure PDF e0) | exact Hf]. }
  unfold exportPDF, tryCatch in Erun. unfold bind at 1, lift at 1 in Erun.
  destruct (requireCore host) as [e | core];
    [apply (Hnone e w); auto |].
  destruct (screensOf ir) as [|s1 more] eqn:E.
  { apply (Hnone "No screens found in project" w); auto. }
  cbn [List.length Nat.eqb] in Erun.
  unfold bind at 1 in Erun.
  match type of Erun with
  | context [mapM ?f ?xs w] =>
      destruct (mapM_stateless f
                  (fun screen =>
                     match SVGRenderer core ir layout
                             (optionsFor
                                (viewportOf (baseViewportOf (s1 :: more)) screen)
                                theme screen) with
                     | inl e => inl e
                     | inr svg =>
                         inr {| Page.svg := svg;
                                Page.width :=
                                  Viewport.width
                                    (viewportOf (baseViewportOf (s1 :: more)) screen);
                                Page.height :=
                                  Viewport.height
                                    (viewportOf (baseViewportOf (s1 :: more)) screen);
                                Page.name := Screen.name screen |}
                     end) xs) with (w := w) as [Hs Hf];
        [intros x w0; unfold bind, lift, ret;
         destruct (SVGRenderer core ir layout _); reflexivity |];
      destruct (mapM f xs w) as [[e | pages] w0]
  end; cbn [fst snd] in Hs, Hf; subst w0.
  { apply (Hnone e w); auto. }
  unfold bind at 1, lift at 1 in Erun.
  destruct (resolvePdfkitAfm host) as [e | afm];
    [apply (Hnone e w); auto |].
  unfold bind, setPdfkitDataPath, modify, write in Erun.
  match type of Erun with
  | context [writeError host ?a] => destruct (writeError host a) as [e |]
  end.
  { eapply (Hnone e); [| | | now rewrite <- Erun]; reflexivity. }
  inversion Erun; subst. cbn [notices lastDirectory files].
  split; [reflexivity |]. split; [reflexivity |].
  exists pages. split; [reflexivity |]. split; [cbn; lia |].
  clear -Hf. induction Hf as [|x y xs ys Hxy _ IH]; [reflexivity |].
  cbn [List.map]. rewrite IH. f_equal.
  destruct (SVGRenderer core ir layout _); [discriminate |].
  inversion Hxy; subst. reflexivity.
Qed.

End WithHost.

End OutcomeFacts.

Module ReturnFacts.

Lemma exportToFormat_returns {pathLib : PathLib} :
  forall host format ir layout theme filePath w w',
    ExportManager.exportToFormat host format ir layout theme filePath w
    = (inr tt, w') ->
    1 <= List.length (ExportManager.screensOf ir)
    /\ notices w' = notices w
    /\ lastDirectory w' = lastDirectory w
    /\ exists written,
         files w' = (files w ++ written)%list
         /\ List.map artifactPath written
            = expectedPaths (ExportFormat.id format) ir filePath.
Proof.
  intros host format ir layout theme filePath w w' Erun.
  unfold ExportManager.exportToFormat in Erun.
  destruct (ExportFormat.id format) eqn:Hid.
  - destruct (OutcomeFacts.exportImage_outcome host SVG ir layout theme filePath
                w (inr tt) w' ltac:(discriminate) Erun) as [written [Hw [Hl Hp]]].
    subst w'. split; [exact Hl |]. split; [reflexivity |]. split; [reflexivity |].
    exists written. split; [reflexivity | exact Hp].
  - destruct (OutcomeFacts.exportPDF_outcome host ir layout theme filePath
                w (inr tt) w' Erun) as [Hn [Hd [pages [Hf [Hl _]]]]].
    split; [exact Hl |]. split; [exact Hn |]. split; [exact Hd |].
    exists [PdfFile filePath pages]. split; [exact Hf | reflexivity].
  - destruct (OutcomeFacts.exportImage_outcome host PNG ir layout theme filePath
                w (inr tt) w' ltac:(discriminate) Erun) as [written [Hw [Hl Hp]]].
    subst w'. split; [exact Hl |]. split; [reflexivity |]. split; [reflexivity |].
    exists written. split; [reflexivity | exact Hp].
Qed.


Lemma exportToFormat_throws {pathLib : PathLib} :
  forall host format ir layout theme filePath w w' e,
    ExportManager.exportToFormat host format ir layout theme filePath w
    = (inl e, w') ->
    let id := ExportFormat.id format in
    let screens := ExportManager.screensOf ir in
    prefix (failurePrefix id) e = true
    /\ notices w' = notices w
    /\ lastDirectory w' = lastDirectory w
    /\ exists written,
         files w' = (files w ++ written)%list
         /\ List.length written <= List.length screens - 1
         /\ (id = PDF -> written = [])
         /\ List.map artifactPath written
            = List.firstn (List.length written)
                (List.map (perScreenPath filePath (extOf id)) screens).
Proof.
  intros host format ir layout theme filePath w w' e Erun id screens.
  subst id screens.
  unfold ExportManager.exportToFormat in Erun.
  destruct (ExportFormat.id format) eqn:Hid.
  - destruct (OutcomeFacts.exportImage_outcome host SVG ir layout theme filePath
                w (inl e) w' ltac:(discriminate) Erun)
      as [written [Hw [Hpre [Hl Hp]]]].
    subst w'. split; [exact Hpre |]. split; [reflexivity |]. split; [reflexivity |].
    exists written. split; [reflexivity |]. split; [exact Hl |].
    split; [discriminate | exact Hp].
  - destruct (OutcomeFacts.exportPDF_outcome host ir layout theme filePath
                w (inl e) w' Erun) as [Hn [Hd [Hpre Hf]]].
    split; [exact Hpre |]. split; [exact Hn |]. split; [exact Hd |].
    exists []. rewrite app_nil_r. split; [exact Hf |]. split; [cbn; lia |].
    split; reflexivity.
  - destruct (OutcomeFacts.exportImage_outcome host PNG ir layout theme filePath
                w (inl e) w' ltac:(discriminate) Erun)
      as [written [Hw [Hpre [Hl Hp]]]].
    subst w'. split; [exact Hpre |]. split; [reflexivity |]. split; [reflexivity |].
    exists written. split; [reflexivity |]. split; [exact Hl |].
    split; [discriminate | exact Hp].
Qed.


Lemma expectedPaths_nonempty {pathLib : PathLib} id ir filePath :
  1 <= List.length (ExportManager.screensOf ir) ->
  expectedPaths id ir filePath <> [].
Proof.
  unfold expectedPaths. intros L.
  destruct id; destruct (ExportManager.screensOf ir) as [|s1 [|s2 more]];
    cbn in L |- *; try lia; discriminate.
Qed.

End ReturnFacts.





Module FanOutFacts.
Import ExportManager.

Section WithHost.

Context {pathLib : PathLib}.
Variables (host : Host) (core : Core) (ir : IR.t) (layout : Layout).
Variable optionsOf : Screen.t -> RenderOptions.t.
Variable mk : Screen.t -> string -> Artifact.
Variable svgOf : RenderOptions.t -> string.

Local Abbreviation round := (exportRound host core ir layout optionsOf mk).

(** The rounds before the failing one write their files; the failing
    one ends the loop. *)
Lemma rounds_stop done failing rest e :
  (forall s, In s done ->
     SVGRenderer core ir layout (optionsOf s) = inr (svgOf (optionsOf s))
     /\ writeError host (mk s (svgOf (optionsOf s))) = None) ->
  (SVGRenderer core ir layout (optionsOf failing) = inl e
   \/ (SVGRenderer core ir layout (optionsOf failing)
       = inr (svgOf (optionsOf failing))
       /\ writeError host (mk failing (svgOf (optionsOf failing))) = Some e)) ->
  forall w,
    forEach (done ++ failing :: rest) round w
    = (inl e,
       addFiles (List.map (fun s => mk s (svgOf (optionsOf s))) done) w).
Proof.
  intros Hdone Hfail.
  induction done as [|s done IH]; intros w.
  - cbn [app List.map]. rewrite OutcomeFacts.forEach_cons, ExportFacts.addFiles_nil.
    unfold exportRound, bind, lift, write.
    destruct Hfail as [Hr | [Hr Hw]]; rewrite Hr; [reflexivity |].
    now rewrite Hw.
  - cbn [app List.map]. rewrite OutcomeFacts.forEach_cons.
    destruct (Hdone s (or_introl eq_refl)) as [Hr Hw].
    unfold exportRound at 1, bind, lift. rewrite Hr.
    rewrite (ExportFacts.write_ok host _ w Hw).
    rewrite IH by (intros x Hx; apply Hdone; now right).
    now rewrite ExportFacts.addFiles_app.
Qed.

End WithHost.

End FanOutFacts.

(** X8.  A fan-out (two views or more, SVG or PNG) stops at the first view
    that cannot be rendered or whose file cannot be written: the export
    throws that error under the prefix of its format, the files of the
    views before it are written and stay, and no later view is rendered
    or written. *)
Theorem fan_out_stops_at_first_failure {pathLib : PathLib} :
  forall host core svgOf format ir layout theme filePath w done failing rest e,
    let id := ExportFormat.id format in
    let artifact screen :=
      imageArtifact id svgOf ir theme
        (perScreenPath filePath (extOf id) screen) screen in
    requireCore host = inr core ->
    id <> PDF ->
    ExportManager.screensOf ir = (done ++ failing :: rest)%list ->
    2 <= List.length (ExportManager.screensOf ir) ->
    (forall screen, In screen done ->
       SVGRenderer core ir layout (exportOptions ir theme screen)
       = inr (svgOf (exportOptions ir theme screen))
       /\ writeError host (artifact screen) = None) ->
    (SVGRenderer core ir layout (exportOptions ir theme failing) = inl e
     \/ (SVGRenderer core ir layout (exportOptions ir theme failing)
         = inr (svgOf (exportOptions ir theme failing))
         /\ writeError host (artifact failing) = Some e)) ->
    ExportManager.exportToFormat host format ir layout theme filePath w
    = (inl (failurePrefix id ++ e), addFiles (List.map artifact done) w).
Proof.
  intros host core svgOf format ir layout theme filePath w done failing rest e
    id artifact Hcore Hid Hscreens Hlen Hdone Hfail.
  subst id artifact. unfold ExportManager.exportToFormat.
  destruct (ExportFormat.id format) eqn:Ef; [| congruence |].
  - unfold ExportManager.exportSVG, tryCatch.
    unfold bind at 1, lift at 1. rewrite Hcore.
    pose proof (FanOutFacts.rounds_stop host core ir layout
                  (exportOptions ir theme)
                  (fun s svg => SvgFile (perScreenPath filePath ".svg" s) svg)
                  svgOf done failing rest e Hdone Hfail w) as R.
    unfold exportRound, exportOptions, perScreenPath in R.
    rewrite <- Hscreens in R. unfold imageArtifact, exportOptions.
    destruct (ExportManager.screensOf ir) as [|s1 [|s2 more]] eqn:E;
      cbn [List.length] in Hlen; try lia.
    cbn [List.length Nat.eqb]. cbv zeta. rewrite R. reflexivity.
  - unfold ExportManager.exportPNG, tryCatch.
    unfold bind at 1, lift at 1. rewrite Hcore.
    pose proof (FanOutFacts.rounds_stop host core ir layout
                  (exportOptions ir theme)
                  (fun s svg =>
                     PngFile (perScreenPath filePath ".png" s) svg
                       (Viewport.width
                          (ExportManager.viewportOf
                             (ExportManager.baseViewportOf
                                (ExportManager.screensOf ir)) s))
                       (Viewport.height
                          (ExportManager.viewportOf
                             (ExportManager.baseViewportOf
                                (ExportManager.screensOf ir)) s)))
                  svgOf done failing rest e Hdone Hfail w) as R.
    unfold exportRound, exportOptions, perScreenPath in R.
    rewrite <- Hscreens in R. unfold imageArtifact, exportOptions.
    destruct (ExportManager.screensOf ir) as [|s1 [|s2 more]] eqn:E;
      cbn [List.length] in Hlen; try lia.
    cbn [List.length Nat.eqb]. cbv zeta. rewrite R. reflexivity.
Qed.

(** The disk is full after the file of Login: the export of Login and
    Dashboard throws and the file of Login stays. *)
Lemma fan_out_stops_at_first_failure_witness :
  ExportManager.exportToFormat (pathLib := Posix.lib) Demo.fullDiskHost
    (Demo.formatOf PNG) Demo.twoScreens Demo.layout dark "/out/app.png"
    emptyWorld
  = (inl "PNG export failed: ENOSPC",
     addFiles
       [PngFile "/out/app-login.png"
          (Demo.svgFor (exportOptions Demo.twoScreens dark Demo.login)) 800 600]
       emptyWorld).
Proof.
  apply (fan_out_stops_at_first_failure (pathLib := Posix.lib)
           Demo.fullDiskHost Demo.core Demo.svgFor (Demo.formatOf PNG)
           Demo.twoScreens Demo.layout dark "/out/app.png" emptyWorld
           [Demo.login] Demo.dashboard [] "ENOSPC").
  - reflexivity.
  - discriminate.
  - reflexivity.
  - simpl. lia.
  - intros screen [<- | []]. split; reflexivity.
  - right. split; reflexivity.
Defined.

Module DialogOutcomeFacts.

Lemma showExportDialog_ends {pathLib : PathLib} :
  forall host user fileName ir layout theme w,
    let run :=
      ExportManager.showExportDialog host user fileName ir layout theme w in
    let w' := snd run in
    fst run = inr tt
    /\ (exists written, files w' = (files w ++ written)%list)
    /\ (w' = w
        \/ (exists filePath written,
              files w' = (files w ++ written)%list /\ written <> []
              /\ lastDirectory w' = Some (dirname filePath)
              /\ notices w'
                 = (notices w
                    ++ [InformationMessage
                          ("Exported to " ++ basename filePath EmptyString)])%list)
        \/ (exists e,
              lastDirectory w' = lastDirectory w
              /\ notices w'
                 = (notices w ++ [ErrorMessage ("Export failed: " ++ e)])%list)).
Proof.
  intros host user fileName ir layout theme w run w'. subst w' run.
  destruct (ExportManager.showExportDialog host user fileName ir layout theme w)
    as [r w'] eqn:E.
  cbn [fst snd].
  unfold ExportManager.showExportDialog in E.
  rewrite PassFacts.bind_gets in E. cbn [ExportManager.getAvailableFormats] in E.
  destruct (showQuickPick user _) as [format |];
    [| inversion E; subst; split; [reflexivity |]; split;
       [exists []; now rewrite app_nil_r | now left] ].
  destruct (showSaveDialog user _ format) as [filePath |];
    [| inversion E; subst; split; [reflexivity |]; split;
       [exists []; now rewrite app_nil_r | now left] ].
  unfold tryCatch, bind at 1 in E.
  destruct (ExportManager.exportToFormat host format ir layout theme filePath w)
    as [[e | []] w1] eqn:Erun.
  - destruct (ReturnFacts.exportToFormat_throws host format ir layout theme
                filePath w w1 e Erun) as [_ [Hn [Hd [written [Hf _]]]]].
    inversion E; subst. cbn [files notices lastDirectory].
    split; [reflexivity |]. split; [now exists written |].
    right. right. exists e. split; [exact Hd | now rewrite Hn].
  - destruct (ReturnFacts.exportToFormat_returns host format ir layout theme
                filePath w w1 Erun) as [Hl [Hn [Hd [written [Hf Hp]]]]].
    inversion E; subst. cbn [files notices lastDirectory].
    split; [reflexivity |]. split; [now exists written |].
    right. left. exists filePath, written.
    split; [exact Hf |]. split; [| split; [reflexivity | now rewrite Hn]].
    intros ->. apply (ReturnFacts.expectedPaths_nonempty
                        (ExportFormat.id format) ir filePath Hl).
    now rewrite <- Hp.
Qed.



End DialogOutcomeFacts.


(** X9.  The export dialog never throws, and it ends in one of three ways.
    The user cancelled the choice of the format or of the file: nothing
    changed.  The export returned: at least one file was written, the
    directory of the destination is the last directory from now on, and
    the one message shown says "Exported to" with the base name of the
    destination.  The export threw: the one message shown is its error
    after "Export failed: " and the last directory is as before.  Files
    written before the dialog stay in every case. *)
Theorem showExportDialog_outcome {pathLib : PathLib} :
  forall host user fileName ir layout theme w,
    let run :=
      ExportManager.showExportDialog host user fileName ir layout theme w in
    let w' := snd run in
    fst run = inr tt
    /\ (exists written, files w' = (files w ++ written)%list)
    /\ (w' = w
        \/ (exists filePath written,
              files w' = (files w ++ written)%list /\ written <> []
              /\ lastDirectory w' = Some (dirname filePath)
              /\ notices w'
                 = (notices w
                    ++ [InformationMessage
                          ("Exported to " ++ basename filePath EmptyString)])%list)
        \/ (exists e,
              lastDirectory w' = lastDirectory w
              /\ notices w'
                 = (notices w ++ [ErrorMessage ("Export failed: " ++ e)])%list)).
Proof. exact DialogOutcomeFacts.showExportDialog_ends. Qed.

(* ===================================================================== *)
(** * WirePreviewPanel: the export entry, whatever the session *)
(* ===================================================================== *)

Module EntryFacts.
Import WirePreviewPanel.

Lemma OnlyWorld_refl s : OnlyWorld s s.
Proof. constructor; reflexivity. Qed.

Lemma OnlyWorld_trans s1 s2 s3 :
  OnlyWorld s1 s2 -> OnlyWorld s2 s3 -> OnlyWorld s1 s3.
Proof.
  intros [a1 a2 a3 a4 a5 a6] [b1 b2 b3 b4 b5 b6]. constructor; congruence.
Qed.

Lemma inWorld_OnlyWorld {A} (c : M A) : preserves OnlyWorld (inWorld c).
Proof.
  intros s. rewrite ExportAsFacts.inWorld_eq. constructor; reflexivity.
Qed.

Section WithHost.

Context {pathLib : PathLib}.
Variables (host : Host) (user : User).

Ltac only_step :=
  first
    [ apply (PanelFacts.preserves_bind OnlyWorld OnlyWorld_trans); [| intros ?]
    | apply (PanelFacts.preserves_tryCatch OnlyWorld OnlyWorld_trans); [| intros ?]
    | apply (PanelFacts.preserves_ret OnlyWorld OnlyWorld_refl)
    | apply (PanelFacts.preserves_throw OnlyWorld OnlyWorld_refl)
    | apply (PanelFacts.preserves_gets OnlyWorld OnlyWorld_refl)
    | apply inWorld_OnlyWorld
    | match goal with
      | |- preserves _ (match ?x with _ => _ end) => destruct x
      end ].

Lemma exportAs_OnlyWorld : preserves OnlyWorld (exportAs host user).
Proof.
  unfold exportAs, showErrorMessage, getPanel. repeat only_step.
Qed.

(** [exportAs] catches what it throws. *)
Lemma exportAs_returns s : fst (exportAs host user s) = inr tt.
Proof.
  assert (H : exists u, fst (exportAs host user s) = inr u).
  { unfold exportAs. apply PanelFacts.returns_tryCatch.
    intros e s0. unfold showErrorMessage. rewrite ExportAsFacts.inWorld_eq.
    now eexists. }
  destruct H as [[] H]. exact H.
Qed.

(** The files an export from the panel adds, in every branch. *)
Lemma exportAs_files s :
  exists written,
    files (world (run (exportAs host user) s))
    = (files (world s) ++ written)%list
    /\ List.length written <= 1.
Proof.
  assert (Hnone : forall n,
            run (exportAs host user) s = set_world (addNotice n (world s)) s ->
            exists written,
              files (world (run (exportAs host user) s))
              = (files (world s) ++ written)%list
              /\ List.length written <= 1).
  { intros n H. rewrite H. exists []. cbn. rewrite app_nil_r.
    split; [reflexivity | lia]. }
  destruct (lastIR (panel s)) as [ir |] eqn:Hir; cycle 1.
  { apply (Hnone (ErrorMessage "No preview content available to export")).
    unfold run, exportAs, getPanel.
    erewrite PassFacts.tryCatch_eq; cycle 1.
    { rewrite PassFacts.bind_gets, PassFacts.bind_gets. cbv beta. rewrite Hir.
      reflexivity. }
    reflexivity. }
  destruct (lastLayout (panel s)) as [layout |] eqn:Hlayout; cycle 1.
  { apply (Hnone (ErrorMessage "No preview content available to export")).
    unfold run, exportAs, getPanel.
    erewrite PassFacts.tryCatch_eq; cycle 1.
    { rewrite PassFacts.bind_gets, PassFacts.bind_gets. cbv beta.
      rewrite Hir, Hlayout. reflexivity. }
    reflexivity. }
  destruct (Project.screens (IR.project ir)) as [screens |] eqn:Hscreens; cycle 1.
  { apply (Hnone (ErrorMessage
                    ("Export failed: "
                     ++ "Cannot read properties of undefined (reading 'find')"))).
    unfold run, exportAs, getPanel.
    erewrite PassFacts.tryCatch_eq; cycle 1.
    { rewrite PassFacts.bind_gets, PassFacts.bind_gets. cbv beta.
      rewrite Hir, Hlayout.
      rewrite PassFacts.bind_gets, PassFacts.bind_gets. cbv beta.
      rewrite Hscreens. reflexivity. }
    reflexivity. }
  destruct (List.find
              (fun x => String.eqb (Screen.name x) (selectedScreen (panel s)))
              screens) as [sc |] eqn:Hfind.
  - unfold run.
    rewrite (ExportAsFacts.exportAs_found host user s ir layout screens
               Hir Hlayout Hscreens sc Hfind).
    destruct (DialogFacts.showExportDialog_single host user
                (exportFileName (currentFilePath (panel s))) (filterIR ir sc)
                layout (currentTheme (panel s)) (world s) sc eq_refl)
      as [_ [written [Hf Hl]]].
    exists written. split; [exact Hf | exact Hl].
  - apply (Hnone (ErrorMessage "Selected screen not found")).
    unfold run.
    now rewrite (ExportAsFacts.exportAs_not_found host user s ir layout screens
                   Hir Hlayout Hscreens Hfind).
Qed.

Lemma exportAs_no_preview s :
  lastIR (panel s) = None \/ lastLayout (panel s) = None ->
  run (exportAs host user) s
  = set_world
      (addNotice (ErrorMessage "No preview content available to export")
         (world s)) s.
Proof.
  intros H. unfold run, exportAs, getPanel.
  erewrite PassFacts.tryCatch_eq; cycle 1.
  { rewrite PassFacts.bind_gets, PassFacts.bind_gets. cbv beta.
    instantiate (1 := set_world
                        (addNotice
                           (ErrorMessage "No preview content available to export")
                           (world s)) s).
    instantiate (1 := inr tt).
    destruct (lastIR (panel s)) as [ir |];
      [destruct (lastLayout (panel s)) as [layout |] |];
      [destruct H; discriminate | reflexivity | reflexivity]. }
  reflexivity.
Qed.

End WithHost.

End EntryFacts.

(** X10.  An export from the panel never throws and renders nothing: the
    panel, the timers, the clock, the active editor and the trace of
    engine calls are as before.  It adds at most one file, whatever the
    session, the engine and the user do.  Without an IR or without a
    layout in the cache it only shows "No preview content available to
    export". *)
Theorem exportAs_touches_only_the_world {pathLib : PathLib} :
  forall host user s,
    let s' := run (WirePreviewPanel.exportAs host user) s in
    fst (WirePreviewPanel.exportAs host user s) = inr tt
    /\ OnlyWorld s s'
    /\ (exists written,
          files (world s') = (files (world s) ++ written)%list
          /\ List.length written <= 1)
    /\ (lastIR (panel s) = None \/ lastLayout (panel s) = None ->
        world s'
        = addNotice (ErrorMessage "No preview content available to export")
            (world s)).
Proof.
  intros host user s s'. subst s'.
  split; [apply EntryFacts.exportAs_returns |].
  split; [apply EntryFacts.exportAs_OnlyWorld |].
  split; [apply EntryFacts.exportAs_files |].
  intros H. now rewrite (EntryFacts.exportAs_no_preview host user s H).
Qed.

(* ===================================================================== *)
(** * WirePreviewPanel: what holds in every session *)
(* ===================================================================== *)

Module TidyFacts.
Import WirePreviewPanel.

Lemma Tidy_same s s' :
  timers s' = timers s ->
  debounceTimer (panel s') = debounceTimer (panel s) ->
  Tidy s -> Tidy s'.
Proof.
  intros Ht Hd [H | [tm [H1 H2]]].
  - left. congruence.
  - right. exists tm. split; congruence.
Qed.

Section WithHost.

Context {pathLib : PathLib}.
Variables (host : Host) (user : User).

Lemma Tidy_updatePreview content s :
  Tidy s -> Tidy (run (updatePreview host content) s).
Proof.
  destruct (PanelFacts.updatePreview_Frame host content s) as [Ft _ _ _ Fd _ _].
  now apply Tidy_same.
Qed.

Lemma Tidy_exportAs s : Tidy s -> Tidy (run (exportAs host user) s).
Proof.
  destruct (EntryFacts.exportAs_OnlyWorld host user s) as [Hp _ _ Ht _ _].
  apply Tidy_same; [exact Ht | unfold run; now rewrite Hp].
Qed.

Lemma Tidy_updatePreviewDebounced content s :
  Tidy s -> Tidy (run (updatePreviewDebounced content) s).
Proof.
  intros H. right.
  unfold run, updatePreviewDebounced, getPanel, clearTimeout, setTimeout,
    updatePanel.
  rewrite PassFacts.bind_gets. cbv beta.
  destruct (debounceTimer (panel s)) as [id |] eqn:Hd.
  - rewrite PassFacts.bind_modify. unfold bind, modify. cbn.
    destruct H as [H | [tm [H1 H2]]].
    + rewrite H. cbn. eexists. split; reflexivity.
    + rewrite H1. rewrite Hd in H2. inversion H2; subst id.
      cbn. rewrite Nat.eqb_refl. cbn.
      eexists. split; reflexivity.
  - rewrite PassFacts.bind_ret. unfold bind, modify. cbn.
    destruct H as [H | [tm [H1 H2]]]; [| congruence].
    rewrite H. cbn. eexists. split; reflexivity.
Qed.

Lemma Tidy_listener e s : Tidy s -> Tidy (run (listener host user e) s).
Proof.
  intros H. destruct e as [message | editor | document]; cbn [listener].
  - destruct message as [theme | screen | |].
    + rewrite setTheme_runs.
      destruct (Str.truthy (lastContent (panel s)));
        [apply Tidy_updatePreview |]; now apply (Tidy_same s).
    + rewrite selectScreen_runs.
      destruct (Str.truthy (lastContent (panel s)));
        [apply Tidy_updatePreview |]; now apply (Tidy_same s).
    + now apply Tidy_exportAs.
    + exact H.
  - unfold onDidChangeActiveTextEditor.
    destruct editor as [d |]; [destruct (isWire d) |]; try exact H.
    now apply Tidy_updatePreview.
  - unfold onDidChangeTextDocument. unfold run. rewrite PassFacts.bind_gets.
    destruct (activeTextEditor s) as [d |]; [| exact H].
    destruct (sameDocument d document && isWire d); [| exact H].
    now apply Tidy_updatePreviewDebounced.
Qed.

Lemma Tidy_hostEffect e s : Tidy s -> Tidy (hostEffect e s).
Proof.
  intros H. destruct e as [message | editor | document]; cbn [hostEffect].
  - exact H.
  - now apply (Tidy_same s).
  - destruct (activeTextEditor s) as [d |]; [| exact H].
    destruct (sameDocument d document); [| exact H].
    now apply (Tidy_same s).
Qed.

Lemma Tidy_advance now s : Tidy s -> Tidy (advance host now s).
Proof.
  intros H. unfold advance.
  apply (Tidy_same
           (List.fold_left (fun acc t => run (fire host t) acc)
              (List.filter (fun t => (due t <=? now)%N) (timers s)) s));
    [reflexivity | reflexivity |].
  destruct H as [H | [tm [H1 H2]]].
  - rewrite H. cbn. now left.
  - rewrite H1. cbn [List.filter].
    destruct (due tm <=? now)%N; cbn [List.fold_left].
    + rewrite DebounceFacts.fire_runs. apply Tidy_updatePreview.
      left. cbn [timers set_timers set_clock]. rewrite H1. cbn.
      now rewrite Nat.eqb_refl.
    + right. exists tm. now split.
Qed.

Lemma Tidy_step s timed : Tidy s -> Tidy (step host user s timed).
Proof.
  intros H. destruct timed as [now e]. unfold step.
  now apply Tidy_listener, Tidy_hostEffect, Tidy_advance.
Qed.

Lemma Tidy_runEvents events :
  forall s, Tidy s -> Tidy (runEvents host user events s).
Proof.
  induction events as [|timed events IH]; intros s H; [exact H |].
  cbn [runEvents List.fold_left]. apply IH. now apply Tidy_step.
Qed.

Lemma Tidy_openPreview cachedCore editor now w :
  Tidy (openPreview host cachedCore editor now w).
Proof.
  unfold openPreview, showLoading, showWaitingMessage, updatePanel, run.
  rewrite PassFacts.bind_modify.
  destruct editor as [d |]; [destruct (isWire d) |];
    try (left; reflexivity).
  apply Tidy_updatePreview. left. reflexivity.
Qed.

End WithHost.

End TidyFacts.

(** X11.  At most one render is pending, in every session a preview can get
    into: whatever events follow the opening of the preview, and whatever
    the engine does, either no timer is pending or exactly one is, and it
    is the one whose handle the panel keeps for [clearTimeout]. *)
Theorem at_most_one_render_pending {pathLib : PathLib} :
  forall host user cachedCore editor now w events,
    Tidy (runEvents host user events (openPreview host cachedCore editor now w)).
Proof.
  intros host user cachedCore editor now w events.
  apply TidyFacts.Tidy_runEvents, TidyFacts.Tidy_openPreview.
Qed.

Module CoherentFacts.
Import WirePreviewPanel.

Lemma Coherent_same p p' :
  lastIR p' = lastIR p -> lastLayout p' = lastLayout p ->
  availableScreens p' = availableScreens p ->
  Coherent p -> Coherent p'.
Proof.
  intros Hi Hl Ha [H1 H2]. split.
  - now rewrite Ha, Hi.
  - rewrite Hi, Hl. exact H2.
Qed.

Lemma Coherent_cached p' ir :
  lastIR p' = Some ir -> availableScreens p' = screenNames ir -> Coherent p'.
Proof.
  intros Hi Ha. split; [now rewrite Ha, Hi | rewrite Hi; discriminate].
Qed.

Section WithHost.

Context {pathLib : PathLib}.
Variables (host : Host) (user : User).

(** What a pass does to the caches, whatever the engine does: it leaves
    them, or it caches an IR with its list of screens. *)
Lemma pass_caches content s :
  let s' := run (updatePreview host content) s in
  (lastIR (panel s') = lastIR (panel s)
   /\ lastLayout (panel s') = lastLayout (panel s)
   /\ availableScreens (panel s') = availableScreens (panel s))
  \/ (exists ir,
        lastIR (panel s') = Some ir
        /\ availableScreens (panel s') = screenNames ir).
Proof.
  intros s'. subst s'.
  destruct (coreFor host s) as [e | core] eqn:Hcore.
  { left. unfold run.
    rewrite (PassFacts.updatePreview_load_fails host content s e Hcore).
    repeat split. }
  assert (Hmissing :
            match parseWireDSL core, generateIR core,
                  calculateLayout core, renderToSVG core with
            | Some _, Some _, Some _, Some _ => False
            | _, _, _, _ => True
            end ->
            lastIR (panel (run (updatePreview host content) s)) = lastIR (panel s)
            /\ lastLayout (panel (run (updatePreview host content) s))
               = lastLayout (panel s)
            /\ availableScreens (panel (run (updatePreview host content) s))
               = availableScreens (panel s)).
  { intros Hm. unfold run.
    rewrite (PassFacts.updatePreview_ready host content s core Hcore).
    erewrite PassFacts.tryCatch_eq
      by (apply PassFacts.pipeline_missing_exports; exact Hm).
    repeat split. }
  destruct (parseWireDSL core) as [parse |] eqn:Hp; [| left; now apply Hmissing].
  destruct (generateIR core) as [gen |] eqn:Hg; [| left; now apply Hmissing].
  destruct (calculateLayout core) as [lay |] eqn:Hl; [| left; now apply Hmissing].
  destruct (renderToSVG core) as [ren |] eqn:Hr; [| left; now apply Hmissing].
  clear Hmissing.
  assert (Hex : Exports core parse gen lay ren) by (constructor; assumption).
  destruct (parse content) as [e | ast] eqn:H1.
  { left.
    destruct (PassFacts.pass_parse_fails host content s core parse gen lay ren
                Hcore Hex e H1) as [A [B [C _]]].
    auto. }
  destruct (gen ast) as [e | ir] eqn:H2.
  { left.
    destruct (PassFacts.pass_generate_fails host content s core parse gen lay ren
                Hcore Hex ast e H1 H2) as [A [B [C _]]].
    auto. }
  right. exists ir.
  destruct (PassFacts.pass_after_ir host content s core parse gen lay ren
              Hcore Hex ast ir H1 H2) as [A [B _]].
  auto.
Qed.

Lemma Coherent_updatePreview content s :
  Coherent (panel s) -> Coherent (panel (run (updatePreview host content) s)).
Proof.
  intros H.
  destruct (pass_caches content s) as [[A [B C]] | [ir [A B]]].
  - now apply (Coherent_same (panel s)).
  - now apply (Coherent_cached _ ir).
Qed.

End WithHost.

End CoherentFacts.

(** A property of the panel that render passes keep, and that does not
    depend on the theme, the selection and the timer handle, holds after
    every event. *)
Module InvariantFacts.
Import WirePreviewPanel.

Section WithHost.

Context {pathLib : PathLib}.
Variables (host : Host) (user : User).
Variable I : Panel -> Prop.

Hypothesis I_pass :
  forall content s, I (panel s) -> I (panel (run (updatePreview host content) s)).
Hypothesis I_theme : forall v p, I p -> I (set_currentTheme v p).
Hypothesis I_selected : forall v p, I p -> I (set_selectedScreen v p).
Hypothesis I_timer : forall v p, I p -> I (set_debounceTimer v p).

Lemma listener_keeps e s :
  I (panel s) -> I (panel (run (listener host user e) s)).
Proof.
  intros H. destruct e as [message | editor | document]; cbn [listener].
  - destruct message as [theme | screen | |].
    + rewrite setTheme_runs.
      destruct (Str.truthy (lastContent (panel s)));
        [apply I_pass |]; now apply I_theme.
    + rewrite selectScreen_runs.
      destruct (Str.truthy (lastContent (panel s)));
        [apply I_pass |]; now apply I_selected.
    + destruct (EntryFacts.exportAs_OnlyWorld host user s) as [Hp _ _ _ _ _].
      unfold onDidReceiveMessage, handleExportMessage, run. now rewrite Hp.
    + exact H.
  - unfold onDidChangeActiveTextEditor.
    destruct editor as [d |]; [destruct (isWire d) |]; try exact H.
    now apply I_pass.
  - unfold onDidChangeTextDocument. unfold run. rewrite PassFacts.bind_gets.
    destruct (activeTextEditor s) as [d |]; [| exact H].
    destruct (sameDocument d document && isWire d); [| exact H].
    unfold updatePreviewDebounced, getPanel, clearTimeout, setTimeout,
      updatePanel.
    rewrite PassFacts.bind_gets. cbv beta.
    destruct (debounceTimer (panel s)); now apply I_timer.
Qed.

Lemma hostEffect_keeps e s : I (panel s) -> I (panel (hostEffect e s)).
Proof.
  intros H. destruct e as [message | editor | document]; cbn [hostEffect];
    [exact H | exact H |].
  destruct (activeTextEditor s) as [d |]; [| exact H].
  destruct (sameDocument d document); exact H.
Qed.

Lemma fires_keep due_ :
  forall s, I (panel s) ->
    I (panel (List.fold_left (fun acc t => run (fire host t) acc) due_ s)).
Proof.
  induction due_ as [|tm more IH]; intros s H; [exact H |].
  cbn [List.fold_left]. apply IH.
  rewrite DebounceFacts.fire_runs. now apply I_pass.
Qed.

Lemma advance_keeps now s : I (panel s) -> I (panel (advance host now s)).
Proof. intros H. unfold advance. cbn [panel set_clock]. now apply fires_keep. Qed.

Lemma runEvents_keeps events :
  forall s, I (panel s) -> I (panel (runEvents host user events s)).
Proof.
  induction events as [|[now e] events IH]; intros s H; [exact H |].
  cbn [runEvents List.fold_left]. apply IH. unfold step.
  now apply listener_keeps, hostEffect_keeps, advance_keeps.
Qed.

End WithHost.

End InvariantFacts.

Module ReachFacts.
Import WirePreviewPanel.

Section WithHost.

Context {pathLib : PathLib}.
Variables (host : Host) (user : User).

Lemma Coherent_runEvents events :
  forall s, Coherent (panel s) ->
    Coherent (panel (runEvents host user events s)).
Proof.
  apply InvariantFacts.runEvents_keeps.
  - apply CoherentFacts.Coherent_updatePreview.
  - intros v p H. exact H.
  - intros v p H. exact H.
  - intros v p H. exact H.
Qed.

Lemma Coherent_openPreview cachedCore editor now w :
  Coherent (panel (openPreview host cachedCore editor now w)).
Proof.
  assert (H0 : Coherent (set_html LoadingPage (newPanel host cachedCore)))
    by (split; [reflexivity | intros _; reflexivity]).
  unfold openPreview, showLoading, showWaitingMessage, updatePanel, run.
  rewrite PassFacts.bind_modify.
  destruct editor as [d |]; [destruct (isWire d) |]; try exact H0.
  apply CoherentFacts.Coherent_updatePreview. exact H0.
Qed.

End WithHost.

End ReachFacts.

(** X12.  In every session a preview can get into, the list of screens the
    panel offers is the list of the IR it has cached (empty when it has
    none), and it has a cached layout only beside a cached IR. *)
Theorem screens_follow_cached_ir {pathLib : PathLib} :
  forall host user cachedCore editor now w events,
    Coherent
      (panel (runEvents host user events
                (openPreview host cachedCore editor now w))).
Proof.
  intros host user cachedCore editor now w events.
  apply ReachFacts.Coherent_runEvents, ReachFacts.Coherent_openPreview.
Qed.

Module KeptFacts.
Import WirePreviewPanel.

Lemma Kept_refl s : Kept s s.
Proof. constructor; reflexivity. Qed.

Lemma Kept_trans s1 s2 s3 : Kept s1 s2 -> Kept s2 s3 -> Kept s1 s3.
Proof. intros [a1 a2 a3] [b1 b2 b3]. constructor; congruence. Qed.

Lemma updatePanel_Kept f :
  (forall p, coreModule (f p) = coreModule p
             /\ currentFilePath (f p) = currentFilePath p) ->
  preserves Kept (updatePanel f).
Proof. intros H s. constructor; simpl; auto; apply H. Qed.

Lemma record_Kept c : preserves Kept (record c).
Proof. intros s. constructor; reflexivity. Qed.

Ltac kept_step :=
  first
    [ apply (PanelFacts.preserves_bind Kept Kept_trans); [| intros ?]
    | apply (PanelFacts.preserves_tryCatch Kept Kept_trans); [| intros ?]
    | apply (PanelFacts.preserves_ret Kept Kept_refl)
    | apply (PanelFacts.preserves_throw Kept Kept_refl)
    | apply (PanelFacts.preserves_lift Kept Kept_refl)
    | apply (PanelFacts.preserves_gets Kept Kept_refl)
    | apply record_Kept
    | apply updatePanel_Kept; intros ?; split; reflexivity
    | match goal with
      | |- preserves _ (match ?x with _ => _ end) => destruct x
      end ].

Lemma pipeline_Kept core content :
  preserves Kept
    (tryCatch (renderPipeline core content) (fun msg => showError msg)).
Proof.
  unfold renderPipeline, createHtmlWithSvg, getPanel, showError, call.
  repeat kept_step.
Qed.

Section WithHost.

Variables (host : Host) (content : string) (s : Session).

Local Abbreviation s' := (run (updatePreview host content) s).

(** After a pass the file path of the panel is that of the active
    editor, when it shows a wire document. *)
Lemma pass_path : currentFilePath (panel s') = pathAfter s.
Proof.
  destruct (coreFor host s) as [e | core] eqn:Hcore; unfold run.
  - now rewrite (PassFacts.updatePreview_load_fails host content s e Hcore).
  - rewrite (PassFacts.updatePreview_ready host content s core Hcore).
    now destruct (pipeline_Kept core content (withCore core (enter content s)))
      as [_ -> _].
Qed.

(** After a pass the engine module is in the cache if and only if it
    was there or could be loaded. *)
Lemma pass_core :
  coreModule (panel s')
  = match coreFor host s with inr core => Some core | inl _ => None end.
Proof.
  destruct (coreFor host s) as [e | core] eqn:Hcore; unfold run.
  - rewrite (PassFacts.updatePreview_load_fails host content s e Hcore).
    unfold coreFor in Hcore. cbn.
    destruct (coreModule (panel s)); [discriminate | reflexivity].
  - rewrite (PassFacts.updatePreview_ready host content s core Hcore).
    now destruct (pipeline_Kept core content (withCore core (enter content s)))
      as [-> _ _].
Qed.

End WithHost.

End KeptFacts.

(** X13.  The engine module is loaded once.  A pass that finds it in the
    cache does not ask the host for it: the pass is the same under any
    other host.  A pass that loads it leaves it in the cache, whatever
    the pipeline does then, and it stays there through every later
    event.  A pass that cannot load it calls no engine function, shows
    the failure and leaves the cache empty, so that the next pass asks
    again. *)
Theorem engine_module_loaded_once {pathLib : PathLib} :
  forall host user content s,
    let s' := run (updatePreview host content) s in
    (forall core,
       coreModule (panel s) = Some core ->
       forall otherHost,
         updatePreview otherHost content s = updatePreview host content s)
    /\ (forall core,
          coreFor host s = inr core ->
          coreModule (panel s') = Some core
          /\ forall events,
               coreModule (panel (runEvents host user events s')) = Some core)
    /\ (forall e,
          coreFor host s = inl e ->
          coreModule (panel s') = None
          /\ html (panel s')
             = ErrorPage (Str.escapeHtml ("Failed to load @wire-dsl/core: " ++ e))
          /\ trace s' = (trace s ++ [UpdatePreviewCall content])%list).
Proof.
  intros host user content s s'. subst s'. split; [| split].
  - intros core Hc otherHost.
    assert (H1 : coreFor host s = inr core) by (unfold coreFor; now rewrite Hc).
    assert (H2 : coreFor otherHost s = inr core)
      by (unfold coreFor; now rewrite Hc).
    rewrite (PassFacts.updatePreview_ready host content s core H1).
    now rewrite (PassFacts.updatePreview_ready otherHost content s core H2).
  - intros core Hcore.
    assert (Hs : coreModule (panel (run (updatePreview host content) s))
                 = Some core)
      by (rewrite KeptFacts.pass_core; now rewrite Hcore).
    split; [exact Hs |]. intros events.
    apply (InvariantFacts.runEvents_keeps host user
             (fun p => coreModule p = Some core)); try (intros; assumption).
    intros c s0 H. rewrite KeptFacts.pass_core. unfold coreFor. now rewrite H.
  - intros e Hcore.
    destruct (PassFacts.pass_load_fails host content s e Hcore)
      as [_ [_ [Hh Ht]]].
    split; [| split; [exact Hh | exact Ht]].
    rewrite KeptFacts.pass_core. now rewrite Hcore.
Qed.

Module SwitchFacts.
Import WirePreviewPanel.

Section WithHost.

Context {pathLib : PathLib}.
Variables (host : Host) (user : User).

(** The one pending timer comes due. *)
Lemma single_timer_fires tm now s :
  timers s = [tm] -> (due tm <= now)%N ->
  advance host now s
  = let fired :=
      run (updatePreview host (timerContent tm))
        (set_timers [] (set_clock (N.max (clock s) (due tm)) s)) in
    set_clock (N.max (clock fired) now) fired.
Proof.
  intros Ht Hdue. unfold advance. rewrite Ht. cbn [List.filter].
  replace (due tm <=? now)%N with true by (symmetry; now apply N.leb_le).
  cbn [List.fold_left]. rewrite DebounceFacts.fire_runs.
  cbn [timers set_clock]. rewrite Ht. cbn [List.filter].
  rewrite Nat.eqb_refl. reflexivity.
Qed.

End WithHost.

End SwitchFacts.

(** X14.  A render that is pending survives a switch of the active editor.
    The switch to another wire document renders that document at once
    and leaves the timer; when the timer comes due it renders the text
    of the document that was edited before the switch, which is then the
    content of the preview, under the file path of the document switched
    to. *)
Theorem pending_render_survives_editor_switch {pathLib : PathLib} :
  forall host user s t d d' t1 now,
    Armed s t d ->
    isWire d' = true ->
    (t <= t1)%N -> (t1 < t + 300)%N -> (t + 300 <= now)%N ->
    let switched :=
      step host user s (t1, DidChangeActiveTextEditor (Some d')) in
    let s' := advance host now switched in
    timers switched = timers s
    /\ updates (trace switched)
       = (updates (trace s) ++ [Document.text d'])%list
    /\ updates (trace s')
       = (updates (trace s) ++ [Document.text d'; Document.text d])%list
    /\ lastContent (panel s') = Document.text d
    /\ currentFilePath (panel s') = Document.fileName d'
    /\ activeTextEditor s' = Some d'
    /\ timers s' = [].
Proof.
  intros host user s t d d' t1 now [id [Ht [Hd [Hck Hed]]]] Hwire Hle Hlt Hnow
    switched s'.
  set (s1 := set_activeTextEditor (Some d') (set_clock t1 s)).
  assert (Hsw : switched = run (updatePreview host (Document.text d')) s1).
  { subst switched s1. unfold step.
    rewrite DebounceFacts.advance_nothing_due
      by (intros tm Htm; rewrite Ht in Htm; destruct Htm as [<- | []];
          exact Hlt).
    rewrite Hck, N.max_r by exact Hle.
    cbn [hostEffect listener]. unfold onDidChangeActiveTextEditor.
    now rewrite Hwire. }
  destruct (PanelFacts.updatePreview_Frame host (Document.text d') s1)
    as [Ft _ Fc Fe _ _ _].
  destruct (PanelFacts.updatePreview_entered host (Document.text d') s1)
    as [U1 _].
  fold (run (updatePreview host (Document.text d')) s1) in Ft, Fc, Fe.
  rewrite <- Hsw in Ft, Fc, Fe, U1.
  assert (Htimers : timers switched
                    = [ {| timerId := id; due := (t + 300)%N;
                           timerContent := Document.text d |} ])
    by (rewrite Ft; exact Ht).
  assert (Hs' : s' = _)
    by (subst s'; apply (SwitchFacts.single_timer_fires host _ now switched
                           Htimers Hnow)).
  cbn [timerContent due] in Hs'. cbv zeta in Hs'.
  match type of Hs' with
  | _ = set_clock _ (run (updatePreview host ?c) ?s0) =>
      destruct (PanelFacts.updatePreview_Frame host c s0) as [Gt _ _ Ge _ _ _];
      destruct (PanelFacts.updatePreview_entered host c s0) as [U2 L2];
      pose proof (KeptFacts.pass_path host c s0) as P2;
      fold (run (updatePreview host c) s0) in Gt, Ge;
      remember (run (updatePreview host c) s0) as fired eqn:Efired
  end.
  rewrite Hs'. cbn [timers trace panel activeTextEditor set_clock].
  split; [rewrite Ft; reflexivity |].
  split; [exact U1 |].
  split; [rewrite U2; cbn [trace set_timers set_clock]; rewrite U1;
          now rewrite <- app_assoc |].
  split; [exact L2 |].
  split.
  - rewrite P2. unfold pathAfter. cbn [activeTextEditor set_timers set_clock].
    rewrite Fe. subst s1. cbn [activeTextEditor set_activeTextEditor].
    now rewrite Hwire.
  - split; [| rewrite Gt; reflexivity].
    rewrite Ge. cbn [activeTextEditor set_timers set_clock]. rewrite Fe.
    reflexivity.
Qed.

(** The document of the fresh panel is edited at 10 ms, the editor
    switches to another wire document at 100 ms, and at 310 ms the
    timer comes due. *)
Lemma pending_render_survives_editor_switch_witness :
  let s' :=
    advance Demo.host 310
      (step (pathLib := Posix.lib) Demo.host (Demo.userPicking PNG)
         Scenario.edited
         (100%N, DidChangeActiveTextEditor (Some Scenario.other))) in
  lastContent (panel s') = "screen Home"
  /\ currentFilePath (panel s') = "/work/other.wire"
  /\ activeTextEditor s' = Some Scenario.other.
Proof.
  destruct (pending_render_survives_editor_switch (pathLib := Posix.lib)
              Demo.host (Demo.userPicking PNG) Scenario.edited 10%N
              (Demo.wireDocument "screen Home") Scenario.other 100%N 310%N)
    as [_ [_ [_ [L [P [E _]]]]]].
  - exists 0. repeat split.
  - reflexivity.
  - lia.
  - lia.
  - lia.
  - split; [exact L |]. split; [exact P | exact E].
Defined.

Module UnnamedFacts.
Import WirePreviewPanel.

Section WithHost.

Variables (host : Host) (content : string) (s : Session).
Variables (core : Core).
Variables (parse : string -> result AST) (gen : AST -> result IR.t).
Variables (lay : IR.t -> result Layout).
Variable ren : IR.t -> Layout -> RenderOptions.t -> result (option string).

Hypothesis Hcore : coreFor host s = inr core.
Hypothesis Hex : Exports core parse gen lay ren.

(** Once the layout is there, the IR and the layout are cached,
    whatever the renderer does. *)
Lemma pass_after_layout ast ir layout :
  parse content = inr ast -> gen ast = inr ir -> lay ir = inr layout ->
  let s' := run (updatePreview host content) s in
  lastIR (panel s') = Some ir
  /\ lastLayout (panel s') = Some layout
  /\ selectedScreen (panel s')
     = selectedAfter (selectedScreen (panel s)) (screenNames ir).
Proof.
  intros H1 H2 H3 s'. subst s'.
  destruct (ren ir layout (passOptions s ir)) as [e | out] eqn:H4.
  { destruct (PassFacts.pass_render_fails host content s core parse gen lay ren
                Hcore Hex ast ir layout e H1 H2 H3 H4) as [A [B [_ [C _]]]].
    auto. }
  destruct out as [svg |].
  - destruct (Str.truthy svg) eqn:H5.
    + destruct (PassFacts.pass_renders host content s core parse gen lay ren
                  Hcore Hex ast ir layout svg H1 H2 H3 H4 H5)
        as [A [B [_ [C _]]]].
      auto.
    + destruct (PassFacts.pass_invalid_output host content s core parse gen lay
                  ren Hcore Hex ast ir layout (Some svg) H1 H2 H3 H4 H5)
        as [A [B [_ [C _]]]].
      auto.
  - destruct (PassFacts.pass_invalid_output host content s core parse gen lay
                ren Hcore Hex ast ir layout None H1 H2 H3 H4 I)
      as [A [B [_ [C _]]]].
    auto.
Qed.

End WithHost.

Lemma find_none_by_name name screens :
  (forall sc, In sc screens -> Screen.name sc <> name) ->
  List.find (fun x => String.eqb (Screen.name x) name) screens = None.
Proof.
  induction screens as [|sc more IH]; intros H; [reflexivity |].
  cbn [List.find].
  destruct (String.eqb (Screen.name sc) name) eqn:E.
  - apply String.eqb_eq in E. exfalso. apply (H sc); [now left | exact E].
  - apply IH. intros x Hx. apply H. now right.
Qed.

End UnnamedFacts.

(** X15.  A screen without a name is listed as Unknown.  When the first screen
    of a document has no name and nothing is selected yet, a pass that
    gets as far as the layout selects Unknown; no screen of the cached IR
    has that name, so an export from the panel shows "Selected screen not
    found" and writes nothing. *)
Theorem unnamed_screen_is_not_exported {pathLib : PathLib} :
  forall host user s core parse gen lay ren content ast ir layout first rest,
    coreFor host s = inr core ->
    Exports core parse gen lay ren ->
    parse content = inr ast -> gen ast = inr ir -> lay ir = inr layout ->
    Project.screens (IR.project ir) = Some (first :: rest) ->
    Screen.name first = EmptyString ->
    (forall sc, In sc (first :: rest) -> Screen.name sc <> "Unknown") ->
    selectedScreen (panel s) = EmptyString ->
    let previewed := run (updatePreview host content) s in
    let s' := run (exportAs host user) previewed in
    selectedScreen (panel previewed) = "Unknown"
    /\ List.hd EmptyString (availableScreens (panel previewed)) = "Unknown"
    /\ world s'
       = addNotice (ErrorMessage "Selected screen not found") (world s)
    /\ files (world s') = files (world s).
Proof.
  intros host user s core parse gen lay ren content ast ir layout first rest
    Hcore Hex H1 H2 H3 Hscreens Hname Hnone Hsel previewed s'.
  destruct (UnnamedFacts.pass_after_layout host content s core parse gen lay ren
              Hcore Hex ast ir layout H1 H2 H3) as [Hir [Hlayout Hselected]].
  destruct (PassFacts.pass_after_ir host content s core parse gen lay ren
              Hcore Hex ast ir H1 H2) as [_ [Havail _]].
  destruct (PanelFacts.updatePreview_Frame host content s) as [_ _ _ _ _ _ Fw].
  fold (run (updatePreview host content) s) in Fw.
  fold previewed in Hir, Hlayout, Hselected, Havail, Fw.
  assert (Hnames : screenNames ir
                   = "Unknown"
                     :: List.map (fun sc => Str.orElse (Screen.name sc) "Unknown")
                          rest).
  { unfold screenNames. rewrite Hscreens. cbn [List.map]. now rewrite Hname. }
  assert (Hsel' : selectedScreen (panel previewed) = "Unknown").
  { rewrite Hselected, Hsel, Hnames. reflexivity. }
  assert (Hs' : s' = set_world
                       (addNotice (ErrorMessage "Selected screen not found")
                          (world previewed)) previewed).
  { subst s'. unfold run.
    apply (f_equal snd
             (ExportAsFacts.exportAs_not_found host user previewed ir layout
                (first :: rest) Hir Hlayout Hscreens
                ltac:(rewrite Hsel';
                      now apply UnnamedFacts.find_none_by_name))). }
  split; [exact Hsel' |].
  split; [rewrite Havail, Hnames; reflexivity |].
  rewrite Hs'. cbn [world set_world]. rewrite Fw. split; reflexivity.
Qed.

(** The preview of a document whose one screen has no name. *)
Lemma unnamed_screen_is_not_exported_witness :
  let previewed :=
    run (updatePreview Scenario.unnamedHost "screen") Scenario.blank in
  let s' :=
    run (exportAs (pathLib := Posix.lib) Scenario.unnamedHost
           (Demo.userPicking PNG)) previewed in
  selectedScreen (panel previewed) = "Unknown"
  /\ notices (world s') = [ErrorMessage "Selected screen not found"]
  /\ files (world s') = [].
Proof.
  destruct (unnamed_screen_is_not_exported (pathLib := Posix.lib)
              Scenario.unnamedHost (Demo.userPicking PNG) Scenario.blank
              Scenario.unnamedCore
              (fun _ => inr (AstHandle 0)) (fun _ => inr Scenario.unnamedIR)
              (fun _ => inr (LayoutHandle 0))
              (fun _ _ o => inr (Some (Demo.svgFor o)))
              "screen" (AstHandle 0) Scenario.unnamedIR (LayoutHandle 0)
              (Demo.screenOf EmptyString 10 10) [])
    as [A [_ [B C]]]; try reflexivity.
  - constructor; reflexivity.
  - intros sc [<- | []]. discriminate.
  - split; [exact A |]. split; [now rewrite B | exact C].
Defined.

(* ===================================================================== *)
(** * ParseService and the export command: facts *)
(* ===================================================================== *)

Module ParseFacts.
Import ParseService.

Section WithHost.

Variable host : Host.
Variable screenKeys : IR.t -> option (list string).
Variable calculateLayoutFor : Core -> IR.t -> N -> N -> string -> result Layout.

Lemma getCoreModule_eq cache :
  getCoreModule host cache
  = match parseCoreFor host cache with
    | inr core => (inr core, Some core)
    | inl e => (inl e, cache)
    end.
Proof.
  unfold getCoreModule, parseCoreFor. rewrite PassFacts.bind_gets.
  destruct cache as [core |]; [reflexivity |].
  destruct (requireCore host) as [e | core]; reflexivity.
Qed.

Lemma parseDocument_load_fails document selected cache e :
  parseCoreFor host cache = inl e ->
  parseDocument host screenKeys calculateLayoutFor document selected cache
  = (inl e, cache).
Proof.
  intros H. unfold parseDocument, bind at 1.
  now rewrite getCoreModule_eq, H.
Qed.

(** With the module at hand: the pipeline, and what it throws rethrown
    under "Parse error: ". *)
Lemma parseDocument_ready document selected cache core :
  parseCoreFor host cache = inr core ->
  parseDocument host screenKeys calculateLayoutFor document selected cache
  = (match parseWireDSL core, generateIR core, calculateLayout core with
     | Some parse, Some gen, Some _ =>
         match parse (Document.text document) with
         | inl e => inl ("Parse error: " ++ e)
         | inr ast =>
             match gen ast with
             | inl e => inl ("Parse error: " ++ e)
             | inr ir =>
                 match calculateLayoutFor core ir 1300%N 700%N
                         (Str.orElse (default EmptyString selected)
                            (screenToRender screenKeys ir)) with
                 | inl e => inl ("Parse error: " ++ e)
                 | inr layout =>
                     inr {| ir := ir; layout := layout;
                            availableScreens := default [] (screenKeys ir) |}
                 end
             end
         end
     | _, _, _ => inl ("Parse error: " ++ "Core module is missing required functions")
     end,
     Some core).
Proof.
  intros H. unfold parseDocument, bind at 1.
  rewrite getCoreModule_eq, H. unfold tryCatch, screenToRender.
  destruct (parseWireDSL core) as [parse |]; [| reflexivity].
  destruct (generateIR core) as [gen |]; [| reflexivity].
  destruct (calculateLayout core) as [lay |]; [| reflexivity].
  unfold bind, lift, ret, throw.
  destruct (parse (Document.text document)) as [e | ast]; [reflexivity |].
  destruct (gen ast) as [e | ir]; [reflexivity |].
  destruct (calculateLayoutFor core ir 1300%N 700%N _) as [e | layout]; reflexivity.
Qed.

End WithHost.

End ParseFacts.

(** X16.  [ParseService.parseDocument], in every case.  When the engine module
    is neither cached nor loadable, the error of [require] is thrown as
    it is and the cache stays empty.  Otherwise the module is in the
    cache afterwards, whatever else happens; everything thrown after the
    load is rethrown under "Parse error: "; and a result has the IR of
    the document and the layout the engine gives for that IR, 1300 by
    700 and the screen asked for, the first key of [ir.screens] or
    MainScreen when none is asked for. *)
Theorem parseDocument_outcome :
  forall host screenKeys calculateLayoutFor document selected cache,
    let run :=
      ParseService.parseDocument host screenKeys calculateLayoutFor document
        selected cache in
    match parseCoreFor host cache with
    | inl e => run = (inl e, cache) /\ cache = None
    | inr core =>
        snd run = Some core
        /\ match fst run with
           | inl e => prefix "Parse error: " e = true
           | inr parsed =>
               exists parse gen ast,
                 parseWireDSL core = Some parse
                 /\ generateIR core = Some gen
                 /\ parse (Document.text document) = inr ast
                 /\ gen ast = inr (ParseService.ir parsed)
                 /\ calculateLayoutFor core (ParseService.ir parsed) 1300%N 700%N
                      (Str.orElse (default EmptyString selected)
                         (screenToRender screenKeys (ParseService.ir parsed)))
                    = inr (ParseService.layout parsed)
                 /\ ParseService.availableScreens parsed
                    = default [] (screenKeys (ParseService.ir parsed))
           end
    end.
Proof.
  intros host screenKeys calculateLayoutFor document selected cache run.
  subst run.
  destruct (parseCoreFor host cache) as [e | core] eqn:Hcore.
  - split; [now apply ParseFacts.parseDocument_load_fails |].
    unfold parseCoreFor in Hcore. destruct cache; [discriminate | reflexivity].
  - rewrite (ParseFacts.parseDocument_ready host screenKeys calculateLayoutFor
               document selected cache core Hcore).
    cbn [fst snd]. split; [reflexivity |].
    destruct (parseWireDSL core) as [parse |]; [| reflexivity].
    destruct (generateIR core) as [gen |]; [| reflexivity].
    destruct (calculateLayout core) as [lay |]; [| reflexivity].
    destruct (parse (Document.text document)) as [e | ast] eqn:H1;
      [apply NameFacts.prefix_refl_app |].
    destruct (gen ast) as [e | ir] eqn:H2; [apply NameFacts.prefix_refl_app |].
    destruct (calculateLayoutFor core ir 1300%N 700%N _) as [e | layout] eqn:H3;
      [apply NameFacts.prefix_refl_app |].
    exists parse, gen, ast. cbn [ParseService.ir ParseService.layout
                                ParseService.availableScreens].
    repeat split; assumption.
Qed.

Module CommandFacts.
Import ExportCommand.

Section WithHost.

Context {pathLib : PathLib}.
Variables (host : Host) (user : User).
Variable screenKeys : IR.t -> option (list string).
Variable calculateLayoutFor : Core -> IR.t -> N -> N -> string -> result Layout.
Variable defaultTheme : option string.

Local Abbreviation command :=
  (exportAs host user screenKeys calculateLayoutFor defaultTheme).

Lemma command_inWorld_eq {A} (c : M A) (s : State) :
  inWorld c s
  = (fst (c (world s)),
     {| parseCoreModule := parseCoreModule s; world := snd (c (world s)) |}).
Proof. unfold inWorld. destruct (c (world s)); reflexivity. Qed.

Lemma inParseService_eq {A} (c : Eff (option Core) A) (s : State) :
  inParseService c s
  = (fst (c (parseCoreModule s)),
     {| parseCoreModule := snd (c (parseCoreModule s)); world := world s |}).
Proof. unfold inParseService. destruct (c (parseCoreModule s)); reflexivity. Qed.

Lemma command_no_editor activeEditor s :
  (forall d, activeEditor = Some d -> WirePreviewPanel.isWire d = false) ->
  command activeEditor s
  = (inr tt,
     {| parseCoreModule := parseCoreModule s;
        world := addNotice (ErrorMessage "No active Wire DSL file") (world s) |}).
Proof.
  intros H. unfold exportAs.
  destruct activeEditor as [d |]; [rewrite (H d eq_refl) |]; reflexivity.
Qed.

Lemma command_parse_fails d s e cache' :
  WirePreviewPanel.isWire d = true ->
  ParseService.parseDocument host screenKeys calculateLayoutFor d None
    (parseCoreModule s) = (inl e, cache') ->
  command (Some d) s
  = (inr tt,
     {| parseCoreModule := cache';
        world := addNotice (ErrorMessage ("Export failed: " ++ e)) (world s) |}).
Proof.
  intros Hw Hp. unfold exportAs. rewrite Hw.
  unfold tryCatch, bind. rewrite inParseService_eq, Hp. reflexivity.
Qed.

Lemma command_parsed d s parsed cache' :
  WirePreviewPanel.isWire d = true ->
  ParseService.parseDocument host screenKeys calculateLayoutFor d None
    (parseCoreModule s) = (inr parsed, cache') ->
  command (Some d) s
  = (inr tt,
     {| parseCoreModule := cache';
        world :=
          snd (ExportManager.showExportDialog host user
                 (exportFileName (Document.fileName d))
                 (ParseService.ir parsed) (ParseService.layout parsed)
                 (exportTheme host defaultTheme) (world s)) |}).
Proof.
  intros Hw Hp. unfold exportAs. rewrite Hw.
  destruct (DialogOutcomeFacts.showExportDialog_ends host user
              (exportFileName (Document.fileName d))
              (ParseService.ir parsed) (ParseService.layout parsed)
              (exportTheme host defaultTheme) (world s)) as [Hret _].
  unfold tryCatch, bind. rewrite inParseService_eq, Hp. cbn [fst snd].
  rewrite command_inWorld_eq. cbn [world parseCoreModule].
  assert (Hname : Str.orElse (Str.lastSegment (Document.fileName d))
                    "export.wire"
                  = exportFileName (Document.fileName d)).
  { unfold exportFileName, Str.orElse.
    destruct (Document.fileName d); reflexivity. }
  rewrite Hname, Hret. reflexivity.
Qed.

End WithHost.

End CommandFacts.

(** X17.  The export command never throws and only adds files.  Without an
    active editor, or with one that does not show a wire document, it
    shows "No active Wire DSL file" and does nothing else: nothing is
    parsed, the user is not asked.  When parsing throws, it shows the
    error after "Export failed: ", the user is not asked and nothing is
    written. *)
Theorem export_command_outcome {pathLib : PathLib} :
  forall host user screenKeys calculateLayoutFor defaultTheme activeEditor s,
    let run :=
      ExportCommand.exportAs host user screenKeys calculateLayoutFor
        defaultTheme activeEditor s in
    let s' := snd run in
    fst run = inr tt
    /\ (exists written,
          files (ExportCommand.world s')
          = (files (ExportCommand.world s) ++ written)%list)
    /\ ((forall d, activeEditor = Some d -> isWire d = false) ->
        s' = {| ExportCommand.parseCoreModule := ExportCommand.parseCoreModule s;
                ExportCommand.world :=
                  addNotice (ErrorMessage "No active Wire DSL file")
                    (ExportCommand.world s) |})
    /\ (forall d e cache',
          activeEditor = Some d -> isWire d = true ->
          ParseService.parseDocument host screenKeys calculateLayoutFor d None
            (ExportCommand.parseCoreModule s) = (inl e, cache') ->
          s' = {| ExportCommand.parseCoreModule := cache';
                  ExportCommand.world :=
                    addNotice (ErrorMessage ("Export failed: " ++ e))
                      (ExportCommand.world s) |}).
Proof.
  intros host user screenKeys calculateLayoutFor defaultTheme activeEditor s
    run s'.
  subst s' run.
  assert (Hnone : forall n p,
            ExportCommand.exportAs host user screenKeys calculateLayoutFor
              defaultTheme activeEditor s
            = (inr tt,
               {| ExportCommand.parseCoreModule := p;
                  ExportCommand.world := addNotice n (ExportCommand.world s) |}) ->
            fst (ExportCommand.exportAs host user screenKeys calculateLayoutFor
                   defaultTheme activeEditor s) = inr tt
            /\ exists written,
                 files (ExportCommand.world
                          (snd (ExportCommand.exportAs host user screenKeys
                                  calculateLayoutFor defaultTheme activeEditor s)))
                 = (files (ExportCommand.world s) ++ written)%list).
  { intros n p H. rewrite H. split; [reflexivity |].
    exists []. cbn. now rewrite app_nil_r. }
  assert (Hmain :
            fst (ExportCommand.exportAs host user screenKeys calculateLayoutFor
                   defaultTheme activeEditor s) = inr tt
            /\ exists written,
                 files (ExportCommand.world
                          (snd (ExportCommand.exportAs host user screenKeys
                                  calculateLayoutFor defaultTheme activeEditor s)))
                 = (files (ExportCommand.world s) ++ written)%list).
  { destruct activeEditor as [d |];
      [destruct (isWire d) eqn:Hw |].
    - destruct (ParseService.parseDocument host screenKeys calculateLayoutFor
                  d None (ExportCommand.parseCoreModule s))
        as [[e | parsed] cache'] eqn:Hp.
      + eapply Hnone.
        apply (CommandFacts.command_parse_fails host user screenKeys
                 calculateLayoutFor defaultTheme d s e cache' Hw Hp).
      + rewrite (CommandFacts.command_parsed host user screenKeys
                   calculateLayoutFor defaultTheme d s parsed cache' Hw Hp).
        cbn [fst snd ExportCommand.world]. split; [reflexivity |].
        destruct (DialogOutcomeFacts.showExportDialog_ends host user
                    (exportFileName (Document.fileName d))
                    (ParseService.ir parsed) (ParseService.layout parsed)
                    (ExportCommand.exportTheme host defaultTheme)
                    (ExportCommand.world s)) as [_ [Hf _]].
        exact Hf.
    - eapply Hnone. apply CommandFacts.command_no_editor.
      intros d0 E. inversion E; subst. exact Hw.
    - eapply Hnone. apply CommandFacts.command_no_editor. discriminate. }
  split; [apply Hmain |]. split; [apply Hmain |]. split.
  - intros H.
    now rewrite (CommandFacts.command_no_editor host user screenKeys
                   calculateLayoutFor defaultTheme activeEditor s H).
  - intros d e cache' -> Hw Hp.
    now rewrite (CommandFacts.command_parse_fails host user screenKeys
                   calculateLayoutFor defaultTheme d s e cache' Hw Hp).
Qed.



(* ===================================================================== *)
(** * The life of the panel: facts *)
(* ===================================================================== *)

Module WorkbenchFacts.
Import Workbench.

Section WithHost.

Context {pathLib : PathLib}.
Variables (host : Host) (user : User).

(** The events of an open panel are those of its session. *)
Lemma deliver_open s timed :
  deliver host user {| session := s; currentPanel := true |} timed
  = {| session := step host user s timed; currentPanel := true |}.
Proof. destruct timed as [now e]. reflexivity. Qed.

(** The first [openPreview] of a window is the one the panel was
    modelled with. *)
Lemma openPreview_first cachedCore editor now w p :
  coreModule p = cachedCore ->
  openPreview host
    {| session :=
         {| panel := p; activeTextEditor := editor; clock := now;
            timers := []; nextTimerId := 0; trace := []; world := w |};
       currentPanel := false |}
  = {| session := WirePreviewPanel.openPreview host cachedCore editor now w;
       currentPanel := true |}.
Proof. intros <-. reflexivity. Qed.

Lemma dispose_clears s :
  Tidy s ->
  dispose {| session := s; currentPanel := true |}
  = {| session := set_timers [] s; currentPanel := false |}.
Proof.
  intros H. unfold dispose. f_equal. cbn [session].
  unfold run, getPanel, clearTimeout. rewrite PassFacts.bind_gets.
  destruct s as [p ed ck tms nid tr wd].
  unfold Tidy in H. cbn [timers panel] in H |- *.
  destruct H as [H | [tm [H1 H2]]].
  - subst tms. destruct (debounceTimer p); reflexivity.
  - subst tms. rewrite H2. unfold modify, set_timers.
    cbn [snd timers List.filter]. now rewrite Nat.eqb_refl.
Qed.

(** Without a panel and without a timer, events only move the clock
    and the active editor. *)
Lemma closed_stays events :
  forall s,
    timers s = [] ->
    let wb' := deliverAll host user events
                 {| session := s; currentPanel := false |} in
    currentPanel wb' = false
    /\ panel (session wb') = panel s
    /\ trace (session wb') = trace s
    /\ world (session wb') = world s
    /\ timers (session wb') = [].
Proof.
  induction events as [|[now e] events IH]; intros s Ht.
  - cbn. repeat split. exact Ht.
  - cbn [deliverAll List.fold_left deliver currentPanel session].
    rewrite DebounceFacts.advance_nothing_due
      by (intros tm Htm; rewrite Ht in Htm; destruct Htm).
    match goal with
    | |- context [List.fold_left _ events
                    {| session := ?s1; currentPanel := false |}] =>
        assert (Hs1 : timers s1 = [] /\ panel s1 = panel s
                      /\ trace s1 = trace s /\ world s1 = world s);
        [| destruct (IH s1 (proj1 Hs1)) as [A [B [C [D E]]]];
           destruct Hs1 as [_ [P [T W]]] ]
    end.
    + destruct e as [message | editor | document]; cbn [hostEffect].
      * repeat split. exact Ht.
      * repeat split. exact Ht.
      * cbn [activeTextEditor set_clock].
        destruct (activeTextEditor s) as [d |]; [| repeat split; exact Ht].
        destruct (sameDocument d document); repeat split; exact Ht.
    + unfold deliverAll in *. cbv zeta in *.
      repeat split; congruence.
Qed.

End WithHost.

End WorkbenchFacts.

(** X19.  A disposed panel is never rendered again.  In every session a
    preview can get into, [dispose] leaves no timer pending, and whatever
    events follow, while no preview is opened again, the panel, the trace
    of engine calls and the world stay as [dispose] left them. *)
Theorem disposed_panel_never_renders {pathLib : PathLib} :
  forall host user cachedCore editor now w events later,
    let s :=
      runEvents host user events
        (WirePreviewPanel.openPreview host cachedCore editor now w) in
    let closed :=
      Workbench.dispose {| Workbench.session := s;
                           Workbench.currentPanel := true |} in
    let after := Workbench.deliverAll host user later closed in
    timers (Workbench.session closed) = []
    /\ panel (Workbench.session closed) = panel s
    /\ Workbench.currentPanel after = false
    /\ panel (Workbench.session after) = panel s
    /\ trace (Workbench.session after) = trace s
    /\ world (Workbench.session after) = world s
    /\ timers (Workbench.session after) = [].
Proof.
  intros host user cachedCore editor now w events later s closed after.
  assert (Ht : Tidy s)
    by apply TidyFacts.Tidy_runEvents, TidyFacts.Tidy_openPreview.
  assert (Hc : closed = {| Workbench.session := set_timers [] s;
                           Workbench.currentPanel := false |})
    by apply (WorkbenchFacts.dispose_clears s Ht).
  subst after. rewrite Hc.
  destruct (WorkbenchFacts.closed_stays host user later (set_timers [] s)
              eq_refl) as [A [B [C [D E]]]].
  repeat split; assumption.
Qed.

Module ReopenFacts.
Import Workbench.

Section WithHost.

Context {pathLib : PathLib}.
Variable host : Host.

Lemma dispose_session wb :
  panel (session (dispose wb)) = panel (session wb)
  /\ activeTextEditor (session (dispose wb)) = activeTextEditor (session wb)
  /\ world (session (dispose wb)) = world (session wb)
  /\ currentPanel (dispose wb) = false.
Proof.
  unfold dispose, run, getPanel, clearTimeout. cbn [session currentPanel].
  rewrite PassFacts.bind_gets.
  destruct (debounceTimer (panel (session wb))); repeat split.
Qed.

Lemma reopened wb :
  currentPanel wb = false ->
  session (openPreview host wb)
  = run (bind showLoading
           (fun _ =>
              match activeTextEditor (session wb) with
              | Some d =>
                  if isWire d then updatePreview host (Document.text d)
                  else showWaitingMessage "Open a .wire file to preview"
              | None => showWaitingMessage "Open a .wire file to preview"
              end))
      (set_panel (newPanel host (coreModule (panel (session wb)))) (session wb))
  /\ currentPanel (openPreview host wb) = true.
Proof. intros H. unfold openPreview. rewrite H. split; reflexivity. Qed.

End WithHost.

End ReopenFacts.

(** X20.  Closing the preview and opening it again.  The new panel is the
    current panel, and opening the preview once more changes nothing.
    The engine module the old panel had loaded is still in the cache, so
    it is not loaded again.  The IR, the layout and the selection of the
    old panel are not carried over: when the active editor shows no wire
    document, the new panel has none of them and asks for a wire file. *)
Theorem reopened_preview_starts_afresh {pathLib : PathLib} :
  forall host wb,
    let reopened := Workbench.openPreview host (Workbench.dispose wb) in
    let p := panel (Workbench.session reopened) in
    Workbench.currentPanel reopened = true
    /\ Workbench.openPreview host reopened = reopened
    /\ (forall core,
          coreModule (panel (Workbench.session wb)) = Some core ->
          coreModule p = Some core)
    /\ ((forall d, activeTextEditor (Workbench.session wb) = Some d ->
           isWire d = false) ->
        lastIR p = None /\ lastLayout p = None
        /\ selectedScreen p = EmptyString
        /\ html p = WaitingPage "Open a .wire file to preview").
Proof.
  intros host wb reopened p.
  destruct (ReopenFacts.dispose_session wb) as [Hp [He [_ Hc]]].
  destruct (ReopenFacts.reopened host (Workbench.dispose wb) Hc) as [Hs Ho].
  fold reopened in Hs, Ho. rewrite Hp, He in Hs.
  split; [exact Ho |]. split.
  { unfold Workbench.openPreview at 1. now rewrite Ho. }
  subst p. rewrite Hs. unfold run, showLoading, showWaitingMessage, updatePanel.
  rewrite PassFacts.bind_modify. split.
  - intros core Hcore.
    destruct (activeTextEditor (Workbench.session wb)) as [d |];
      [destruct (isWire d) |]; try exact Hcore.
    match goal with
    | |- coreModule (panel (snd (updatePreview host ?c ?s0))) = _ =>
        change (coreModule (panel (run (updatePreview host c) s0)) = Some core);
        rewrite (KeptFacts.pass_core host c s0)
    end.
    unfold coreFor. cbn [coreModule panel set_panel set_html newPanel].
    now rewrite Hcore.
  - intros Hnone.
    destruct (activeTextEditor (Workbench.session wb)) as [d |];
      [rewrite (Hnone d eq_refl) |]; repeat split.
Qed.

Module ShownFacts.
Import WirePreviewPanel.


Section WithHost.

Context {pathLib : PathLib}.
Variables (host : Host) (user : User).



End WithHost.

End ShownFacts.


(* ===================================================================== *)
(** * WireWebviewProvider: facts *)
(* ===================================================================== *)

Module SideFacts.
Import WireWebviewProvider.

Section WithHost.

Variable host : Host.
Variable requireEngine : result Core.
Variable workspace : Workspace.

Lemma show_resolved page s :
  view (provider s) = true ->
  show page s = (inr tt, set_provider (set_html page (provider s)) s).
Proof.
  intros Hv. unfold show, getProvider, updateProvider.
  rewrite PassFacts.bind_gets, Hv. reflexivity.
Qed.

Ltac side_compute Hv :=
  cbn -[errorHtml createHtmlWithSvg String.append];
  rewrite ?Hv;
  cbn -[errorHtml createHtmlWithSvg String.append];
  rewrite ?Hv;
  reflexivity.

(** What a render shows depends on the content alone: in a resolved view
    it replaces the page by one of the three pages, records the content,
    and changes nothing else. *)
Lemma renderPreview_shows content :
  exists page,
    SidePage page
    /\ forall s,
         view (provider s) = true ->
         renderPreview host requireEngine content s
         = (inr tt,
            {| provider := set_html page (provider s);
               activeTextEditor := activeTextEditor s;
               clock := clock s; timers := timers s;
               nextTimerId := nextTimerId s;
               rendered := rendered s ++ [content] |}).
Proof.
  unfold renderPreview, showError, show, getProvider, updateProvider,
    bind, modify, gets, tryCatch, lift, ret.
  assert (Herror : forall message, SidePage (errorHtml message)).
  { intros message. right. left. exists message. reflexivity. }
  destruct requireEngine as [e | coreModule].
  { eexists. split; [apply Herror |].
    intros s Hv. side_compute Hv. }
  destruct (parseWireDSL coreModule) as [parse |];
    [destruct (generateIR coreModule) as [generate |];
     [destruct (calculateLayout coreModule) as [layoutOf |];
      [destruct (renderToSVG coreModule) as [render |] | ] | ] | ];
    try (eexists; split; [apply Herror |];
         intros s Hv; side_compute Hv).
  destruct (parse content) as [e | ast];
    [eexists; split; [apply Herror |];
     intros s Hv; side_compute Hv |].
  destruct (generate ast) as [e | ir];
    [eexists; split; [apply Herror |];
     intros s Hv; side_compute Hv |].
  destruct (layoutOf ir) as [e | layout];
    [eexists; split; [apply Herror |];
     intros s Hv; side_compute Hv |].
  destruct (render ir layout (renderOptions host)) as [e | [svg |]];
    [eexists; split; [apply Herror |];
     intros s Hv; side_compute Hv | |].
  - destruct (Str.truthy svg) eqn:Hsvg.
    + exists (createHtmlWithSvg svg). split.
      * right. right. exists svg. split; [exact Hsvg | reflexivity].
      * intros s Hv. side_compute Hv.
    + eexists. split; [apply Herror |].
      intros s Hv. side_compute Hv.
  - eexists. split; [apply Herror |].
    intros s Hv. side_compute Hv.
Qed.

Lemma renderPreview_ready content s :
  SideReady s -> SideReady (run (renderPreview host requireEngine content) s).
Proof.
  intros [Hp Hv Hr Hpage].
  destruct (renderPreview_shows content) as [page [Hshown Heq]].
  unfold run. rewrite (Heq s Hv). cbn [snd].
  constructor; cbn; auto.
Qed.

Lemma set_clock_ready v s :
  (clock s <= v)%N -> SideReady s -> SideReady (set_clock v s).
Proof.
  intros Hle [Hp Hv Hr Hpage]. constructor; cbn; auto.
  destruct Hp as [Ht | [tm [Ht [Hd [Hc Hdue]]]]].
  - left. exact Ht.
  - right. exists tm. cbn. repeat split; auto. lia.
Qed.

(** An edit leaves exactly one timer, the new one. *)
Lemma renderPreviewDebounced_timers content s :
  SidePending s ->
  run (renderPreviewDebounced content) s
  = {| provider :=
         {| view := view (provider s);
            debounceTimer := Some (nextTimerId s);
            lastEditorContent := content;
            html := html (provider s);
            registered := registered (provider s) |};
       activeTextEditor := activeTextEditor s;
       clock := clock s;
       timers := [{| timerId := nextTimerId s;
                     due := (clock s + 500)%N;
                     timerContent := content |}];
       nextTimerId := S (nextTimerId s);
       rendered := rendered s |}.
Proof.
  intros Hp.
  unfold run, renderPreviewDebounced, getProvider, updateProvider,
    clearTimeout, setTimeout, bind, modify, gets, ret.
  cbn.
  destruct Hp as [Ht | [tm [Ht [Hd _]]]].
  - destruct (debounceTimer (provider s)); cbn; rewrite Ht; reflexivity.
  - rewrite Hd. cbn. rewrite Ht. cbn. rewrite Nat.eqb_refl. reflexivity.
Qed.

Lemma renderPreviewDebounced_ready content s :
  SideReady s -> SideReady (run (renderPreviewDebounced content) s).
Proof.
  intros [Hp Hv Hr Hpage].
  rewrite (renderPreviewDebounced_timers content s Hp).
  constructor; cbn; auto.
  right. eexists. split; [reflexivity |]. cbn.
  repeat split. lia.
Qed.

Lemma listener_ready e s :
  SideReady s -> SideReady (run (listener host requireEngine e) s).
Proof.
  intros H. destruct e as [m | [d |] | document]; cbn [listener]; try exact H.
  - unfold onDidChangeActiveTextEditor.
    destruct (WirePreviewPanel.isWire d); [| exact H].
    apply renderPreview_ready, H.
  - unfold onDidChangeTextDocument, run. rewrite PassFacts.bind_gets.
    destruct (activeTextEditor s) as [d |]; [| exact H].
    destruct (_ && _); [| exact H].
    apply renderPreviewDebounced_ready, H.
Qed.

Lemma hostEffect_ready e s : SideReady s -> SideReady (hostEffect e s).
Proof.
  intros H. assert (Hset : forall v, SideReady (set_activeTextEditor v s)).
  { intros v. destruct H as [Hp Hv Hr Hpage]. constructor; auto. }
  destruct e as [m | editor | document]; cbn [hostEffect]; auto.
  destruct (activeTextEditor s) as [d |]; auto.
  destruct (WirePreviewPanel.sameDocument d document); auto.
Qed.

(** A timer that fires is the pending one, and none is pending after. *)
Lemma fire_single tm s :
  timers s = [tm] ->
  run (fire host requireEngine tm) s
  = run (renderPreview host requireEngine (timerContent tm))
      (set_timers [] (set_clock (N.max (clock s) (due tm)) s)).
Proof.
  intros Ht. unfold run, fire, clearTimeout.
  rewrite PassFacts.bind_modify, PassFacts.bind_modify.
  cbn [timers set_clock]. rewrite Ht. cbn [List.filter].
  rewrite Nat.eqb_refl. reflexivity.
Qed.

Lemma advance_ready now s :
  SideReady s -> SideReady (advance host requireEngine now s).
Proof.
  intros H. unfold advance.
  destruct (ready_pending H) as [Ht | [tm [Ht _]]].
  - rewrite Ht. cbn [List.filter List.fold_left].
    apply set_clock_ready; [lia | exact H].
  - rewrite Ht. cbn [List.filter].
    destruct (due tm <=? now)%N; cbn [List.fold_left].
    + apply set_clock_ready; [lia |].
      rewrite (fire_single tm s Ht).
      apply renderPreview_ready.
      destruct H as [Hp Hv Hr Hpage]. constructor; auto.
      left. reflexivity.
    + apply set_clock_ready; [lia | exact H].
Qed.

Lemma step_ready timed s :
  SideReady s -> SideReady (step host requireEngine s timed).
Proof.
  intros H. destruct timed as [now e]. unfold step.
  pose proof (hostEffect_ready e _ (advance_ready now s H)) as H1.
  rewrite (ready_listeners H1). cbn [times].
  unfold run, bind.
  destruct (listener host requireEngine e _) as [[err | []] s2] eqn:E.
  - pose proof (listener_ready e _ H1) as H2. unfold run in H2.
    rewrite E in H2. exact H2.
  - pose proof (listener_ready e _ H1) as H2. unfold run in H2.
    rewrite E in H2. exact H2.
Qed.

Lemma runEvents_ready events :
  forall s, SideReady s -> SideReady (runEvents host requireEngine events s).
Proof.
  induction events as [| timed events IH]; intros s H; [exact H |].
  cbn [runEvents List.fold_left]. apply IH, step_ready, H.
Qed.

(** The search of the workspace ends on one of the three pages too. *)
Lemma findAndRender_ready s :
  SidePending s ->
  view (provider s) = true ->
  registered (provider s) = 1 ->
  SideReady (run (findAndRenderFirstWireFile host requireEngine workspace) s).
Proof.
  intros Hp Hv Hr.
  assert (Hshow : forall page, SidePage page ->
            SideReady (snd (show page s))).
  { intros page Hpage. rewrite (show_resolved _ _ Hv). cbn [snd].
    constructor; auto. }
  assert (Herror : forall message, SidePage (errorHtml message)).
  { intros message. right. left. exists message. reflexivity. }
  unfold run, findAndRenderFirstWireFile, showWaitingMessage, showError,
    tryCatch, bind, lift.
  destruct (findFiles workspace) as [e | [| first rest]].
  - apply Hshow, Herror.
  - destruct (show _ s) as [[e | []] s2] eqn:E;
      rewrite (show_resolved _ _ Hv) in E; inversion E; subst.
    constructor; auto. left. reflexivity.
  - destruct (openTextDocument workspace first) as [e | text].
    + apply Hshow, Herror.
    + destruct (renderPreview_shows text) as [page [Hshown Heq]].
      rewrite (Heq s Hv). cbn [snd]. constructor; auto.
Qed.

Lemma resolveWebviewView_ready editor now :
  SideReady
    (run (resolveWebviewView host requireEngine workspace)
       (newState editor now)).
Proof.
  unfold run, resolveWebviewView, setupEditorListener, updateProvider.
  rewrite PassFacts.bind_modify, PassFacts.bind_modify, PassFacts.bind_gets.
  set (s := set_provider _ (set_provider _ _)).
  assert (Hp : SidePending s) by (left; reflexivity).
  assert (Hv : view (provider s) = true) by reflexivity.
  assert (Hr : registered (provider s) = 1) by reflexivity.
  assert (Hfind :
            SideReady
              (snd (findAndRenderFirstWireFile host requireEngine workspace s)))
    by exact (findAndRender_ready s Hp Hv Hr).
  assert (He : activeTextEditor s = editor) by reflexivity.
  rewrite He. clearbody s.
  destruct editor as [d |]; [| exact Hfind].
  destruct (WirePreviewPanel.isWire d); [| exact Hfind].
  destruct (renderPreview_shows (Document.text d)) as [page [Hshown Heq]].
  rewrite (Heq s Hv). cbn [snd]. constructor; auto.
Qed.

Lemma reached_ready editor now events :
  SideReady
    (runEvents host requireEngine events
       (run (resolveWebviewView host requireEngine workspace)
          (newState editor now))).
Proof. apply runEvents_ready, resolveWebviewView_ready. Qed.

(** [dispose] unregisters the listeners and clears the pending render. *)
Lemma dispose_quiet s :
  SidePending s ->
  provider (run dispose s)
  = {| view := view (provider s);
       debounceTimer := debounceTimer (provider s);
       lastEditorContent := lastEditorContent (provider s);
       html := html (provider s);
       registered := 0 |}
  /\ timers (run dispose s) = []
  /\ rendered (run dispose s) = rendered s.
Proof.
  intros Hp.
  unfold run, dispose, getProvider, updateProvider, clearTimeout,
    bind, modify, gets, ret.
  cbn.
  destruct Hp as [Ht | [tm [Ht [Hd _]]]].
  - destruct (debounceTimer (provider s)); cbn; rewrite ?Ht; auto.
  - rewrite Hd. cbn. rewrite Ht. cbn. rewrite Nat.eqb_refl. auto.
Qed.

(** With no listener and no timer an event changes neither the provider
    nor what was rendered. *)
Lemma silent_step timed s :
  registered (provider s) = 0 ->
  timers s = [] ->
  provider (step host requireEngine s timed) = provider s
  /\ timers (step host requireEngine s timed) = []
  /\ rendered (step host requireEngine s timed) = rendered s.
Proof.
  intros Hr Ht. destruct timed as [now e]. unfold step, advance.
  rewrite Ht. cbn [List.filter List.fold_left].
  set (s0 := set_clock _ s).
  assert (H1 : provider (hostEffect e s0) = provider s
               /\ timers (hostEffect e s0) = []
               /\ rendered (hostEffect e s0) = rendered s).
  { destruct e as [m | editor | document]; cbn [hostEffect]; auto.
    destruct (activeTextEditor s0) as [d |]; auto.
    destruct (WirePreviewPanel.sameDocument d document); auto. }
  destruct H1 as [Hp [Ht' Hrd]].
  rewrite Hp, Hr. cbn [times]. unfold run, ret. cbn [snd]. auto.
Qed.

Lemma silent_runEvents events :
  forall s,
    registered (provider s) = 0 ->
    timers s = [] ->
    provider (runEvents host requireEngine events s) = provider s
    /\ timers (runEvents host requireEngine events s) = []
    /\ rendered (runEvents host requireEngine events s) = rendered s.
Proof.
  induction events as [| timed events IH]; intros s Hr Ht; [auto |].
  cbn [runEvents List.fold_left].
  destruct (silent_step timed s Hr Ht) as [Hp [Ht' Hrd]].
  destruct (IH (step host requireEngine s timed)) as [Hp2 [Ht2 Hrd2]];
    [rewrite Hp; exact Hr | exact Ht' |].
  unfold runEvents in *. rewrite Hp2, Hrd2, Hp, Hrd. auto.
Qed.

Lemma disposed_quiet events s :
  SidePending s ->
  let s' := runEvents host requireEngine events (run dispose s) in
  rendered s' = rendered s
  /\ html (provider s') = html (provider s)
  /\ timers s' = [].
Proof.
  intros Hp s'. destruct (dispose_quiet s Hp) as [Dp [Dt Dr]].
  destruct (silent_runEvents events (run dispose s)) as [Qp [Qt Qr]];
    [rewrite Dp; reflexivity | exact Dt |].
  subst s'. rewrite Qr, Qp, Dp, Dr. auto.
Qed.

(** A switch to a wire document before the pending render is due, then
    the render coming due. *)
Lemma switch_then_fire s tm d now later :
  SideReady s ->
  timers s = [tm] ->
  (now < due tm)%N -> (due tm <= later)%N ->
  WirePreviewPanel.isWire d = true ->
  let s1 := step host requireEngine s (now, DidChangeActiveTextEditor (Some d)) in
  let s2 := advance host requireEngine later s1 in
  rendered s1 = (rendered s ++ [Document.text d])%list
  /\ html (provider s1)
     = html (provider (run (renderPreview host requireEngine (Document.text d)) s))
  /\ rendered s2 = (rendered s ++ [Document.text d; timerContent tm])%list
  /\ html (provider s2)
     = html (provider (run (renderPreview host requireEngine (timerContent tm)) s))
  /\ timerContent tm = lastEditorContent (provider s)
  /\ activeTextEditor s2 = Some d.
Proof.
  intros H Ht Hnow Hlater Hwire s1 s2.
  destruct (renderPreview_shows (Document.text d)) as [page1 [_ Heq1]].
  destruct (renderPreview_shows (timerContent tm)) as [page2 [_ Heq2]].
  pose proof (ready_view H) as Hv.
  assert (Hs1 : s1 = {| provider := set_html page1 (provider s);
                        activeTextEditor := Some d;
                        clock := N.max (clock s) now;
                        timers := [tm];
                        nextTimerId := nextTimerId s;
                        rendered := rendered s ++ [Document.text d] |}).
  { subst s1. unfold step, advance. rewrite Ht. cbn [List.filter].
    replace (due tm <=? now)%N with false
      by (symmetry; apply N.leb_gt; exact Hnow).
    cbn [List.fold_left hostEffect provider set_activeTextEditor set_clock].
    rewrite (ready_listeners H). cbn [times listener].
    unfold onDidChangeActiveTextEditor. rewrite Hwire.
    unfold run, bind. rewrite Heq1 by exact Hv.
    cbn. rewrite Ht. reflexivity. }
  assert (Hs2 : s2 = {| provider := set_html page2 (provider s);
                        activeTextEditor := Some d;
                        clock := N.max (N.max (N.max (clock s) now) (due tm)) later;
                        timers := [];
                        nextTimerId := nextTimerId s;
                        rendered := (rendered s ++ [Document.text d])
                                    ++ [timerContent tm] |}).
  { subst s2. rewrite Hs1. unfold advance. cbn [timers List.filter].
    replace (due tm <=? later)%N with true
      by (symmetry; apply N.leb_le; exact Hlater).
    cbn [List.fold_left].
    rewrite fire_single by reflexivity.
    unfold run. rewrite Heq2 by exact Hv. reflexivity. }
  rewrite Hs2, Hs1. unfold run.
  rewrite (Heq1 s Hv), (Heq2 s Hv). cbn.
  repeat split; auto.
  - now rewrite <- app_assoc.
  - destruct (ready_pending H) as [Ht0 | [tm0 [Ht0 [_ [Hc _]]]]];
      rewrite Ht in Ht0; [discriminate | inversion Ht0; subst; exact Hc].
Qed.

End WithHost.

End SideFacts.

(** X22.  In the side bar at most one render is pending at any time; it is the
    one the provider holds the handle of, it is for the text of the last
    edit, and it is due within 500 ms. *)
Theorem side_bar_debounce_is_for_last_edit :
  forall host requireEngine workspace editor now events,
    SidePending
      (WireWebviewProvider.runEvents host requireEngine events
         (WireWebviewProvider.run
            (WireWebviewProvider.resolveWebviewView host requireEngine workspace)
            (WireWebviewProvider.newState editor now))).
Proof.
  intros. apply ready_pending, SideFacts.reached_ready.
Qed.


(** X24.  After [dispose] the side bar renders nothing more: whatever events
    follow, what was rendered and the page are those of the moment of
    the call, and no timer is left. *)
Theorem side_bar_disposed_never_renders :
  forall host requireEngine workspace editor now before after,
    let s :=
      WireWebviewProvider.runEvents host requireEngine before
        (WireWebviewProvider.run
           (WireWebviewProvider.resolveWebviewView host requireEngine workspace)
           (WireWebviewProvider.newState editor now)) in
    let s' :=
      WireWebviewProvider.runEvents host requireEngine after
        (WireWebviewProvider.run WireWebviewProvider.dispose s) in
    WireWebviewProvider.rendered s' = WireWebviewProvider.rendered s
    /\ WireWebviewProvider.html (WireWebviewProvider.provider s')
       = WireWebviewProvider.html (WireWebviewProvider.provider s)
    /\ WireWebviewProvider.timers s' = [].
Proof.
  intros host requireEngine workspace editor now before after s.
  apply SideFacts.disposed_quiet.
  apply ready_pending. subst s. apply SideFacts.reached_ready.
Qed.

(** X25.  In the side bar a pending render survives a switch of the active
    editor and then overwrites it.  The switch to a wire document shows
    that document at once; when the timer comes due the side bar renders
    the text of the last edit again, and that page stays while the
    active editor is the document switched to. *)
Theorem side_bar_pending_render_overwrites_switch :
  forall host requireEngine workspace editor now0 before tm d now later,
    let s :=
      WireWebviewProvider.runEvents host requireEngine before
        (WireWebviewProvider.run
           (WireWebviewProvider.resolveWebviewView host requireEngine workspace)
           (WireWebviewProvider.newState editor now0)) in
    WireWebviewProvider.timers s = [tm] ->
    (now < due tm)%N -> (due tm <= later)%N ->
    WirePreviewPanel.isWire d = true ->
    let s1 :=
      WireWebviewProvider.step host requireEngine s
        (now, DidChangeActiveTextEditor (Some d)) in
    let s2 := WireWebviewProvider.advance host requireEngine later s1 in
    WireWebviewProvider.rendered s1
    = (WireWebviewProvider.rendered s ++ [Document.text d])%list
    /\ WireWebviewProvider.html (WireWebviewProvider.provider s1)
       = WireWebviewProvider.html
           (WireWebviewProvider.provider
              (WireWebviewProvider.run
                 (WireWebviewProvider.renderPreview host requireEngine
                    (Document.text d)) s))
    /\ WireWebviewProvider.rendered s2
       = (WireWebviewProvider.rendered s
          ++ [Document.text d; timerContent tm])%list
    /\ WireWebviewProvider.html (WireWebviewProvider.provider s2)
       = WireWebviewProvider.html
           (WireWebviewProvider.provider
              (WireWebviewProvider.run
                 (WireWebviewProvider.renderPreview host requireEngine
                    (timerContent tm)) s))
    /\ timerContent tm
       = WireWebviewProvider.lastEditorContent (WireWebviewProvider.provider s)
    /\ WireWebviewProvider.activeTextEditor s2 = Some d.
Proof.
  intros host requireEngine workspace editor now0 before tm d now later s
    Ht Hnow Hlater Hwire.
  apply SideFacts.switch_then_fire; auto.
  subst s. apply SideFacts.reached_ready.
Qed.

(** The demo document is edited at 10 ms, the editor switches to another
    wire document at 100 ms, and at 510 ms the timer comes due. *)
Lemma side_bar_pending_render_overwrites_switch_witness :
  WireWebviewProvider.rendered
    (WireWebviewProvider.advance Demo.host (inr Demo.core) 510
       (WireWebviewProvider.step Demo.host (inr Demo.core)
          (WireWebviewProvider.runEvents Demo.host (inr Demo.core)
             [SideDemo.edit] SideDemo.resolved)
          (100%N, DidChangeActiveTextEditor (Some Scenario.other))))
  = ["screen Login"; "screen Login"; "screen Home"].
Proof.
  destruct (side_bar_pending_render_overwrites_switch
              Demo.host (inr Demo.core) SideDemo.workspace
              (Some (Demo.wireDocument "screen Login")) 0%N [SideDemo.edit]
              {| timerId := 0; due := 510; timerContent := "screen Home" |}
              Scenario.other 100%N 510%N)
    as [_ [_ [R _]]].
  - reflexivity.
  - reflexivity.
  - discriminate.
  - reflexivity.
  - exact R.
Defined.
